(** * Oscilloscope screen capture: the VICP codec, the vendor dispatcher and
      the capture routines of [lecroy_capture.py], embedded in Rocq.

    Python values are modelled as follows.
    - [int] is [Z]; [bytes] is a list of [Byte.byte]; list lengths are [nat].
    - [str] is [string].  Every text the program handles is ASCII text (SCPI
      commands, VISA resource names, identity strings decoded with the
      [ascii] codec); a character of a [string] stands for the code point with
      the same number, and the replacement character that
      [decode("ascii", errors="replace")] produces is stood for by code 255.
      [upper] and [strip] are exact on that domain.
    - An exception is a value of [exn]; a call that may raise returns an
      [outcome].
    - The outside world (the VISA library, the TCP socket, the file system)
      is a [world]: for every call the program makes it answers from the
      history of the calls made so far.  The program's own actions are
      recorded in that history, in order. *)

From Stdlib Require Import ZArith NArith List String Ascii Bool Lia DecimalString.
From Stdlib.Strings Require Import Byte.
Import ListNotations.

Open Scope string_scope.
Open Scope Z_scope.

(* ================================================================== *)
(** ** Exceptions and results *)

Inductive exn : Type :=
| VisaIOError          (* pyvisa.errors.VisaIOError *)
| OSError              (* OSError that is none of the two below *)
| ConnectionError      (* subclass of OSError *)
| SocketTimeout        (* socket.timeout, a subclass of OSError *)
| UnicodeEncodeError
| StructError          (* struct.error *)
| ValueError
| IndexError
| OtherError.          (* any other subclass of Exception *)

Definition is_OSError (e : exn) : bool :=
  match e with
  | OSError | ConnectionError | SocketTimeout => true
  | _ => false
  end.

Inductive outcome (A : Type) : Type :=
| Ok (a : A)
| Raise (e : exn).
Arguments Ok {A} a.
Arguments Raise {A} e.

Definition obind {A B} (o : outcome A) (k : A -> outcome B) : outcome B :=
  match o with
  | Ok a => k a
  | Raise e => Raise e
  end.

(* ================================================================== *)
(** ** Bytes *)

Definition bytes := list byte.

Definition byte_of_N (n : N) : byte :=
  match Byte.of_N (n mod 256) with
  | Some b => b
  | None => x00
  end.

Definition byte_of_Z (z : Z) : byte := byte_of_N (Z.to_N (z mod 256)).
Definition Z_of_byte (b : byte) : Z := Z.of_N (Byte.to_N b).

Definition byte_eqb (a b : byte) : bool := N.eqb (Byte.to_N a) (Byte.to_N b).

Fixpoint bytes_eqb (a b : bytes) : bool :=
  match a, b with
  | [], [] => true
  | x :: a', y :: b' => byte_eqb x y && bytes_eqb a' b'
  | _, _ => false
  end.

(** Python slice [l[a:b]] with step 1: negative indices count from the end,
    both ends are clamped into [0, len]. *)
Definition py_slice_index (len i : Z) : Z :=
  if i <? 0 then Z.max 0 (i + len) else Z.min i len.

Definition py_slice {A} (l : list A) (a b : Z) : list A :=
  let len := Z.of_nat (List.length l) in
  let a' := py_slice_index len a in
  let b' := py_slice_index len b in
  firstn (Z.to_nat (b' - a')) (skipn (Z.to_nat a') l).

(** [l[i]] for a non-negative index. *)
Definition py_index {A} (l : list A) (i : nat) : outcome A :=
  match nth_error l i with
  | Some x => Ok x
  | None => Raise IndexError
  end.

(* ================================================================== *)
(** ** Strings *)

Definition upper_char (c : ascii) : ascii :=
  let n := nat_of_ascii c in
  if (97 <=? n)%nat && (n <=? 122)%nat then ascii_of_nat (n - 32) else c.

Fixpoint upper (s : string) : string :=
  match s with
  | EmptyString => EmptyString
  | String c r => String (upper_char c) (upper r)
  end.

(** [needle in hay] *)
Fixpoint contains (needle hay : string) : bool :=
  prefix needle hay ||
  match hay with
  | EmptyString => false
  | String _ r => contains needle r
  end.

Fixpoint rev_string_acc (s acc : string) : string :=
  match s with
  | EmptyString => acc
  | String c r => rev_string_acc r (String c acc)
  end.

Definition rev_string (s : string) : string := rev_string_acc s EmptyString.

Definition endswith (s suffix : string) : bool :=
  prefix (rev_string suffix) (rev_string s).

(** [s[:-k]] for [k > 0] *)
Definition drop_last (k : nat) (s : string) : string :=
  substring 0 (String.length s - k) s.

(** [s.split("::")], as a first piece and the pieces after it. *)
Fixpoint split_dcolon_aux (s : string) : string * list string :=
  match s with
  | EmptyString => (EmptyString, [])
  | String c s' =>
      match s' with
      | String c2 s'' =>
          if Ascii.eqb c ":" && Ascii.eqb c2 ":"
          then let '(h, t) := split_dcolon_aux s'' in (EmptyString, h :: t)
          else let '(h, t) := split_dcolon_aux s' in (String c h, t)
      | EmptyString => (String c EmptyString, [])
      end
  end.

Definition split_dcolon (s : string) : list string :=
  let '(h, t) := split_dcolon_aux s in h :: t.

Definition py_isspace (c : ascii) : bool :=
  let n := nat_of_ascii c in
  ((9 <=? n) && (n <=? 13) || (28 <=? n) && (n <=? 32)
   || (n =? 133) || (n =? 160))%nat.

Fixpoint lstrip (s : string) : string :=
  match s with
  | EmptyString => EmptyString
  | String c r => if py_isspace c then lstrip r else s
  end.

(** [s.strip()] *)
Definition strip (s : string) : string :=
  rev_string (lstrip (rev_string (lstrip s))).

(** [str(n)] / [f"{n}"] for an int *)
Definition py_str_of_int (z : Z) : string := NilZero.string_of_int (Z.to_int z).

Definition is_ascii_char (c : ascii) : bool := (nat_of_ascii c <? 128)%nat.

Fixpoint is_ascii (s : string) : bool :=
  match s with
  | EmptyString => true
  | String c r => is_ascii_char c && is_ascii r
  end.

(** [s.encode("ascii")] *)
Definition encode_ascii (s : string) : outcome bytes :=
  if is_ascii s then Ok (list_byte_of_string s) else Raise UnicodeEncodeError.

(** [b.decode("ascii", errors="replace")] *)
Definition decode_ascii_replace (b : bytes) : string :=
  string_of_list_byte
    (map (fun c => if (Byte.to_N c <? 128)%N then c else xff) b).

(* ================================================================== *)
(** ** Connection resolver: [build_ethernet_resources] *)

Definition Z_in (x : Z) (l : list Z) : bool := existsb (Z.eqb x) l.

Definition build_ethernet_resources (ip : string) (port : Z) : list string :=
  if Z_in port [0; 1861; 5025]%Z then
    let resources :=
      [ "TCPIP::" ++ ip ++ "::inst0::INSTR";
        "TCPIP::" ++ ip ++ "::hislip0::INSTR" ] in
    let p := if Z_in port [0; 5025]%Z then 5025%Z else 1861%Z in
    List.app resources [ "TCPIP::" ++ ip ++ "::" ++ py_str_of_int p ++ "::SOCKET" ]
  else
    [ "TCPIP::" ++ ip ++ "::inst0::INSTR";
      "TCPIP::" ++ ip ++ "::hislip0::INSTR";
      "TCPIP::" ++ ip ++ "::" ++ py_str_of_int port ++ "::SOCKET" ].

(* ================================================================== *)
(** ** Vendor detection: [detect_vendor] *)

Definition detect_vendor (idn : string) : string :=
  let idn_upper := upper idn in
  if contains "LECROY" idn_upper || contains "TELEDYNE" idn_upper then "LECROY"
  else if contains "TEKTRONIX" idn_upper || contains "TEK" idn_upper then "TEKTRONIX"
  else if contains "KEYSIGHT" idn_upper || contains "AGILENT" idn_upper
          || contains "HEWLETT" idn_upper then "KEYSIGHT"
  else if contains "RIGOL" idn_upper then "RIGOL"
  else if contains "SIGLENT" idn_upper then "SIGLENT"
  else if contains "ROHDE" idn_upper || contains "ROHDE&SCHWARZ" idn_upper
          || contains "R&S" idn_upper then "RNS"
  else "UNKNOWN".

(* ================================================================== *)
(** ** Image finalizer: [_strip_ieee_block] *)

Definition digit_val (c : byte) : option Z :=
  let n := Z_of_byte c in
  if (48 <=? n) && (n <=? 57) then Some (n - 48) else None.

(** [int(chr(b))]: a one-character string is an integer literal exactly
    when the character is a decimal digit. *)
Definition py_int_of_char (b : byte) : outcome Z :=
  match digit_val b with
  | Some d => Ok d
  | None => Raise ValueError
  end.

(** [int(bs)] for a bytes object, base 10: optional surrounding white space,
    an optional sign, then digits with single underscores between them. *)
Definition bytes_isspace (c : byte) : bool :=
  let n := Z_of_byte c in (n =? 32) || ((9 <=? n) && (n <=? 13)).

Fixpoint skip_space (l : bytes) : bytes :=
  match l with
  | c :: r => if bytes_isspace c then skip_space r else l
  | [] => []
  end.

Inductive int_state : Type := IStart | IDigit | IUnder.

Fixpoint int_body (st : int_state) (acc : Z) (l : bytes) : option (Z * bytes) :=
  match l with
  | [] => match st with IDigit => Some (acc, []) | _ => None end
  | c :: r =>
      match digit_val c with
      | Some d => int_body IDigit (10 * acc + d) r
      | None =>
          if byte_eqb c x5f (* _ *)
          then match st with IDigit => int_body IUnder acc r | _ => None end
          else match st with IDigit => Some (acc, l) | _ => None end
      end
  end.

Definition py_int_of_bytes (bs : bytes) : outcome Z :=
  let l := skip_space bs in
  let '(sign, l) :=
    match l with
    | c :: r => if byte_eqb c x2b (* + *) then (1, r)
                else if byte_eqb c x2d (* - *) then (-1, r)
                else (1, l)
    | [] => (1, l)
    end in
  match int_body IStart 0 l with
  | Some (v, rest) =>
      match skip_space rest with
      | [] => Ok (sign * v)
      | _ :: _ => Raise ValueError
      end
  | None => Raise ValueError
  end.

Definition _strip_ieee_block (data : bytes) : bytes :=
  if negb (bytes_eqb data []) && bytes_eqb (py_slice data 0 1) [x23] then
    match
      obind (py_index data 1) (fun d1 =>
      obind (py_int_of_char d1) (fun n_digits =>
      obind (py_int_of_bytes (py_slice data 2 (2 + n_digits))) (fun byte_count =>
      Ok (py_slice data (2 + n_digits) (2 + n_digits + byte_count)))))
    with
    | Ok data' => data'
    | Raise _ => data
    end
  else data.

Definition ascii_bytes (s : string) : bytes := list_byte_of_string s.

(* ================================================================== *)
(** ** The outside world *)

(** What the connected socket will deliver to the successive [recv] calls:
    a chunk of bytes, or an exception (a timeout, a reset).  When the list
    is used up the peer has closed the connection and [recv] returns
    [b""]. *)
Inductive rx : Type :=
| RxData (chunk : bytes)
| RxRaise (e : exn).

(** The calls the program makes on the outside world. *)
Inductive event : Type :=
| EvOpenRm                                        (* _open_rm() *)
| EvRmClose                                       (* rm.close() *)
| EvOpenResource (r : string) (open_timeout : Z)  (* rm.open_resource *)
| EvSetTimeout (ms : Z)                           (* scope.timeout = *)
| EvSetReadTermination (t : option string)        (* scope.read_termination = *)
| EvSetWriteTermination (t : option string)       (* scope.write_termination = *)
| EvQuery (cmd : string)                          (* scope.query *)
| EvWrite (cmd : string)                          (* scope.write *)
| EvReadRaw                                       (* scope.read_raw() *)
| EvQueryBinaryValues (cmd : string)              (* scope.query_binary_values *)
| EvScopeClose                                    (* scope.close() *)
| EvSleep (ms : Z)                                (* time.sleep *)
| EvConnect (host : string) (port : Z) (timeout : Z) (* socket.create_connection *)
| EvSettimeout (timeout : Z)                      (* sock.settimeout *)
| EvSendall (data : bytes)                        (* sock.sendall *)
| EvSockClose                                     (* sock.close() *)
| EvSaveImage (data : bytes) (path : string).     (* _save_image *)

(** The world answers a call from the calls made before it.  The answer to
    [socket.create_connection] is an exception or the stream the peer will
    deliver on that connection.  [time.sleep], [sock.settimeout],
    [sock.close()] and [rm.close()] do not fail and are only recorded. *)
Record world : Type := {
  w_unit : list event -> event -> option exn;      (* [None]: returns normally *)
  w_text : list event -> event -> outcome string;
  w_bytes : list event -> event -> outcome bytes;
  w_conn : list event -> event -> outcome (list rx)
}.

(** The program state: the module-level counter [_VICP_SEQ[0]], the calls
    made so far, and what the open socket still has to deliver. *)
Record state : Type := {
  st_seq : Z;
  st_log : list event;
  st_rx : list rx
}.

Definition set_seq (v : Z) (s : state) : state :=
  {| st_seq := v; st_log := st_log s; st_rx := st_rx s |}.
Definition add_log (ev : event) (s : state) : state :=
  {| st_seq := st_seq s; st_log := List.app (st_log s) [ev]; st_rx := st_rx s |}.
Definition set_rx (r : list rx) (s : state) : state :=
  {| st_seq := st_seq s; st_log := st_log s; st_rx := r |}.

(** *** The monad of the program: state that survives an exception *)

Definition M (A : Type) : Type := state -> outcome A * state.

Definition ret {A} (a : A) : M A := fun s => (Ok a, s).
Definition bind {A B} (m : M A) (k : A -> M B) : M B :=
  fun s =>
    match m s with
    | (Ok a, s1) => k a s1
    | (Raise e, s1) => (Raise e, s1)
    end.
Definition lift {A} (o : outcome A) : M A := fun s => (o, s).

Declare Scope prog_scope.
Delimit Scope prog_scope with prog.
Notation "x <- m ;; k" := (bind m (fun x => k))
  (at level 61, m at next level, right associativity) : prog_scope.
Notation "m ;; k" := (bind m (fun _ => k))
  (at level 61, right associativity) : prog_scope.
Open Scope prog_scope.

(** [try: m  except Exception as e: h e] *)
Definition try_except {A} (m : M A) (h : exn -> M A) : M A :=
  fun s =>
    match m s with
    | (Ok a, s1) => (Ok a, s1)
    | (Raise e, s1) => h e s1
    end.

(** [try: m  except <class>: h], for the exceptions that [catches] selects *)
Definition try_except_only {A} (catches : exn -> bool) (m : M A) (h : exn -> M A)
  : M A :=
  fun s =>
    match m s with
    | (Ok a, s1) => (Ok a, s1)
    | (Raise e, s1) => if catches e then h e s1 else (Raise e, s1)
    end.

(** [try: m  finally: f] *)
Definition try_finally {A} (m : M A) (f : M unit) : M A :=
  fun s =>
    match m s with
    | (r, s1) =>
        match f s1 with
        | (Ok _, s2) => (r, s2)
        | (Raise e, s2) => (Raise e, s2)
        end
    end.

Definition note (ev : event) : M unit := fun s => (Ok tt, add_log ev s).

Definition call_unit (w : world) (ev : event) : M unit :=
  fun s =>
    (match w_unit w (st_log s) ev with None => Ok tt | Some e => Raise e end,
     add_log ev s).
Definition call_text (w : world) (ev : event) : M string :=
  fun s => (w_text w (st_log s) ev, add_log ev s).
Definition call_bytes (w : world) (ev : event) : M bytes :=
  fun s => (w_bytes w (st_log s) ev, add_log ev s).

Definition sleep (ms : Z) : M unit := note (EvSleep ms).

(* ================================================================== *)
(** ** Frame codec *)

(** [struct.pack(">BBBBI", ...)] and [struct.unpack(">BBBBI", ...)] *)
Definition in_range (lo hi z : Z) : bool := (lo <=? z) && (z <=? hi).

Definition be32 (n : Z) : bytes :=
  [ byte_of_Z (n / 16777216); byte_of_Z (n / 65536); byte_of_Z (n / 256);
    byte_of_Z n ].

Definition struct_pack_BBBBI (op ver seq pad len : Z) : outcome bytes :=
  if in_range 0 255 op && in_range 0 255 ver && in_range 0 255 seq
     && in_range 0 255 pad && in_range 0 4294967295 len
  then Ok (List.app [ byte_of_Z op; byte_of_Z ver; byte_of_Z seq; byte_of_Z pad ]
                    (be32 len))
  else Raise StructError.

Definition struct_unpack_BBBBI (raw : bytes) : outcome (Z * Z * Z * Z * Z) :=
  match raw with
  | [ b0; b1; b2; b3; b4; b5; b6; b7 ] =>
      Ok (Z_of_byte b0, Z_of_byte b1, Z_of_byte b2, Z_of_byte b3,
          ((Z_of_byte b4 * 256 + Z_of_byte b5) * 256 + Z_of_byte b6) * 256
          + Z_of_byte b7)
  | _ => Raise StructError
  end.

Definition _VICP_HLEN : nat := 8.

Definition _vicp_next_seq : M Z :=
  fun s =>
    let v := (st_seq s mod 255) + 1 in
    (Ok v, set_seq v s).

Definition sendall (w : world) (data : bytes) : M unit :=
  call_unit w (EvSendall data).

Definition _vicp_send (w : world) (cmd : string) : M unit :=
  payload <- lift (encode_ascii cmd) ;;
  let op := Z.lor (Z.lor 128 64) 1 in   (* DATA | REMOTE | EOI *)
  seq <- _vicp_next_seq ;;
  hdr <- lift (struct_pack_BBBBI op 1 seq 0 (Z.of_nat (List.length payload))) ;;
  sendall w (List.app hdr payload).

(** The receiving side of a connected socket. *)
Definition sock : Type := list rx.

(** [sock.recv(n)]: at most [n] bytes of the next chunk. *)
Definition sock_recv (n : nat) (sk : sock) : outcome bytes * sock :=
  match sk with
  | [] => (Ok [], [])
  | RxData c :: r =>
      if (List.length c <=? n)%nat then (Ok c, r)
      else (Ok (firstn n c), RxData (skipn n c) :: r)
  | RxRaise e :: r => (Raise e, r)
  end.

(** The loop of [recv_exact].  Every [recv] uses up a chunk or fills the
    buffer, so the number of pending chunks, plus one, bounds the number of
    iterations. *)
Fixpoint recv_exact_loop (fuel : nat) (n : nat) (buf : bytes) (sk : sock)
  : outcome bytes * sock :=
  if (List.length buf <? n)%nat then
    match fuel with
    | O => (Raise OtherError, sk)
    | S fuel' =>
        match sock_recv (n - List.length buf) sk with
        | (Ok chunk, sk1) =>
            if bytes_eqb chunk [] then (Raise ConnectionError, sk1)
            else recv_exact_loop fuel' n (List.app buf chunk) sk1
        | (Raise e, sk1) => (Raise e, sk1)
        end
    end
  else (Ok buf, sk).

Definition recv_exact (n : nat) (sk : sock) : outcome bytes * sock :=
  recv_exact_loop (S (List.length sk)) n [] sk.

(** Number of bytes the socket still has to deliver. *)
Fixpoint rx_size (l : sock) : nat :=
  match l with
  | [] => O
  | RxData c :: r => (List.length c + rx_size r)%nat
  | RxRaise _ :: r => rx_size r
  end.

(** The [while True] loop of [_vicp_recv], together with the local
    [image], which keeps what it has accumulated when the loop is left by an
    exception.  Every iteration reads an 8-byte header, so the number of
    bytes still to come, plus one, bounds the number of iterations. *)
Fixpoint vicp_recv_loop (fuel : nat) (image : bytes) (sk : sock)
  : outcome unit * bytes * sock :=
  match fuel with
  | O => (Raise OtherError, image, sk)
  | S fuel' =>
      match recv_exact _VICP_HLEN sk with
      | (Raise e, sk1) => (Raise e, image, sk1)
      | (Ok raw_hdr, sk1) =>
          match struct_unpack_BBBBI raw_hdr with
          | Raise e => (Raise e, image, sk1)
          | Ok (op, _, _, _, length) =>
              let is_data := negb (Z.land op 128 =? 0) in   (* DATA bit *)
              let eoi := negb (Z.land op 1 =? 0) in         (* EOI bit *)
              let '(r, image1, sk2) :=
                if negb (length =? 0) then
                  match recv_exact (Z.to_nat length) sk1 with
                  | (Raise e, sk2) => (Raise e, image, sk2)
                  | (Ok payload, sk2) =>
                      (Ok tt, if is_data then List.app image payload else image, sk2)
                  end
                else (Ok tt, image, sk1) in
              match r with
              | Raise e => (Raise e, image1, sk2)
              | Ok _ =>
                  if eoi then (Ok tt, image1, sk2)
                  else vicp_recv_loop fuel' image1 sk2
              end
          end
      end
  end.

(** [_vicp_recv(sock)]: the bytes it returns and what is left on the
    socket.  Both handlers return the image accumulated so far, so no
    exception leaves the function. *)
Definition _vicp_recv (sk : sock) : bytes * sock :=
  let '(r, image, sk1) := vicp_recv_loop (S (rx_size sk)) [] sk in
  match r with
  | Ok _ => (image, sk1)
  | Raise e =>
      if is_OSError e
      then (image, sk1)    (* except (ConnectionError, OSError) *)
      else (image, sk1)    (* except Exception *)
  end.

(** A function of the socket, run on the socket of the program state. *)
Definition on_sock {A} (f : sock -> A * sock) : M A :=
  fun s => let '(a, sk) := f (st_rx s) in (Ok a, set_rx sk s).

(** A frame as it travels: the four header bytes and the payload. *)
Record frame : Type := {
  f_op : byte;
  f_ver : byte;
  f_seq : byte;
  f_pad : byte;
  f_payload : bytes
}.

Definition frame_header (f : frame) : bytes :=
  List.app [ f_op f; f_ver f; f_seq f; f_pad f ]
           (be32 (Z.of_nat (List.length (f_payload f)))).

Definition frame_bytes (f : frame) : bytes :=
  List.app (frame_header f) (f_payload f).

Definition has_DATA (f : frame) : bool := negb (Z.land (Z_of_byte (f_op f)) 128 =? 0).
Definition has_EOI (f : frame) : bool := negb (Z.land (Z_of_byte (f_op f)) 1 =? 0).

Definition init_state : state :=
  {| st_seq := 0; st_log := []; st_rx := [] |}.

(* ================================================================== *)
(** ** Vendor dispatcher and capture routines *)

Definition nonempty (data : bytes) : bool := negb (bytes_eqb data []).

(** [not image_data or len(image_data) < 100] *)
Definition too_small (image_data : bytes) : bool :=
  negb (nonempty image_data) || (Z.of_nat (List.length image_data) <? 100).

Definition too_small_opt (image_data : option bytes) : bool :=
  match image_data with
  | None => true
  | Some d => too_small d
  end.

Definition str_in (x : string) (l : list string) : bool := existsb (String.eqb x) l.

Definition newline : string := String (ascii_of_nat 10) EmptyString.

(** How a [try] block is left: by a [return] inside it, or by reaching
    its end with the image it received. *)
Inductive block_exit : Type :=
| Returned (result : bool)
| Fell (image_data : bytes).

Section Capture.

Variable w : world.
Variable DISPLAY_COLOR : string.   (* the user configuration *)

Definition scope_write (cmd : string) : M unit := call_unit w (EvWrite cmd).
Definition scope_read_raw : M bytes := call_bytes w EvReadRaw.
Definition scope_query (cmd : string) : M string := call_text w (EvQuery cmd).
Definition scope_query_binary_values (cmd : string) : M bytes :=
  call_bytes w (EvQueryBinaryValues cmd).
Definition scope_set_read_termination (t : option string) : M unit :=
  call_unit w (EvSetReadTermination t).
Definition scope_close : M unit := call_unit w EvScopeClose.
Definition rm_close : M unit := note EvRmClose.
Definition sock_close : M unit := note EvSockClose.
Definition _save_image (image_data : bytes) (save_path : string) : M unit :=
  call_unit w (EvSaveImage image_data save_path).

(** [socket.create_connection((host, port), timeout=...)] *)
Definition create_connection (host : string) (port timeout : Z) : M unit :=
  fun s =>
    let ev := EvConnect host port timeout in
    match w_conn w (st_log s) ev with
    | Ok rxs => (Ok tt, set_rx rxs (add_log ev s))
    | Raise e => (Raise e, add_log ev s)
    end.

Definition hcsu_command (color : string) : string :=
  "HCSU DEV,BMP,FORMAT,PORTRAIT,BCKG," ++ color ++ ",DEST,REMOTE,PORT,NET".

Definition _dump_lecroy (color : string) : M bytes :=
  scope_write (hcsu_command color) ;;
  sleep 300 ;;
  scope_write "SCREEN_DUMP" ;;
  sleep 1500 ;;
  scope_set_read_termination None ;;
  data <- scope_read_raw ;;
  ret data.

Definition _dump_tektronix (color : string) : M bytes :=
  let ink := if String.eqb color "WHITE" then "ON" else "OFF" in
  scope_write "HARDcopy:PORT GPIB" ;;
  scope_write "HARDcopy:FORMat BMP" ;;
  scope_write ("HARDcopy:INKSaver " ++ ink) ;;
  sleep 200 ;;
  scope_write "HARDcopy START" ;;
  sleep 2000 ;;
  scope_set_read_termination None ;;
  data <- scope_read_raw ;;
  ret data.

Definition _dump_keysight (color : string) : M bytes :=
  let scheme := if String.eqb color "WHITE" then "INKS" else "SCR" in
  scope_write (":DISP:DATA PNG," ++ scheme ++ ",COL") ;;
  sleep 500 ;;
  scope_set_read_termination None ;;
  data <- scope_query_binary_values (":DISP:DATA? PNG," ++ scheme ++ ",COL") ;;
  ret (if nonempty data then data else []).

Definition _dump_rigol (color : string) : M bytes :=
  let arg := if String.eqb color "WHITE" then "OFF" else "ON" in
  scope_write (":DISP:DATA? ON," ++ arg ++ ",PNG") ;;
  sleep 500 ;;
  scope_set_read_termination None ;;
  data <- scope_read_raw ;;
  if negb (nonempty data) || (Z.of_nat (List.length data) <? 10) then
    scope_write ":DISP:DATA?" ;;
    sleep 500 ;;
    data <- scope_read_raw ;;
    ret data
  else ret data.

(** The [for fn in (...)] loop of [_screen_dump]: the first method that
    returns more than 100 bytes wins; a method that raises is skipped. *)
Fixpoint try_methods (fns : list (string -> M bytes)) (color : string)
  : M (option bytes) :=
  match fns with
  | [] => ret None
  | fn :: rest =>
      fun s =>
        match fn color s with
        | (Ok data, s1) =>
            if nonempty data && (100 <? Z.of_nat (List.length data))
            then (Ok (Some data), s1)
            else try_methods rest color s1
        | (Raise _, s1) => try_methods rest color s1
        end
  end.

Definition unknown_vendor_methods : list (string -> M bytes) :=
  [ _dump_keysight; _dump_rigol; _dump_lecroy; _dump_tektronix ].

Definition _screen_dump (vendor : string) : M (option bytes) :=
  let color := upper DISPLAY_COLOR in
  let color := if negb (str_in color ["WHITE"; "BLACK"]) then "WHITE" else color in
  if String.eqb vendor "LECROY" then
    data <- _dump_lecroy color ;; ret (Some data)
  else if String.eqb vendor "TEKTRONIX" then
    data <- _dump_tektronix color ;; ret (Some data)
  else if str_in vendor ["KEYSIGHT"; "AGILENT"] then
    data <- _dump_keysight color ;; ret (Some data)
  else if str_in vendor ["RIGOL"; "SIGLENT"] then
    data <- _dump_rigol color ;; ret (Some data)
  else try_methods unknown_vendor_methods color.

Definition _dump_lecroy_vicp_raw (ip color : string) (timeout_sec : Z) : M bytes :=
  create_connection ip 1861 timeout_sec ;;
  note (EvSettimeout timeout_sec) ;;
  try_finally
    (_vicp_send w (hcsu_command color) ;;
     sleep 500 ;;
     _vicp_send w "SCREEN_DUMP" ;;
     sleep 4000 ;;
     data <- on_sock _vicp_recv ;;
     ret data)
    sock_close.

Definition display_color_or_white : string :=
  if str_in (upper DISPLAY_COLOR) ["WHITE"; "BLACK"] then upper DISPLAY_COLOR
  else "WHITE".

(** The [try] block of [vicp_capture], steps 1 to 3. *)
Definition vicp_capture_body (color : string) : M block_exit :=
  _vicp_send w "*IDN?" ;;
  sleep 200 ;;
  idn_raw <- on_sock _vicp_recv ;;
  let idn := strip (decode_ascii_replace idn_raw) in
  let vendor := detect_vendor idn in
  if negb (String.eqb vendor "LECROY") then ret (Returned false)
  else
    _vicp_send w (hcsu_command color) ;;
    sleep 500 ;;
    _vicp_send w "SCREEN_DUMP" ;;
    sleep 4000 ;;
    image_data <- on_sock _vicp_recv ;;
    ret (Fell image_data).

Definition vicp_capture (ip save_path : string) (timeout_sec : Z) : M bool :=
  let color := display_color_or_white in
  connected <- try_except_only is_OSError
                 (create_connection ip 1861 timeout_sec ;;
                  note (EvSettimeout timeout_sec) ;;
                  ret true)
                 (fun _ => ret false) ;;
  if negb connected then ret false
  else
    exit <- try_finally
              (try_except (vicp_capture_body color)
                          (fun _ => ret (Returned false)))
              sock_close ;;
    match exit with
    | Returned result => ret result
    | Fell image_data =>
        if too_small image_data then ret false
        else
          let image_data := _strip_ieee_block image_data in
          _save_image image_data save_path ;;
          ret true
    end.

(** The two spellings of the resource suffix that [scpi_capture] tries. *)
Definition suffix_variants (resource_str : string) : list string :=
  resource_str ::
  (if endswith resource_str "::INSTR"
   then [drop_last 5 resource_str ++ "INST"]
   else if endswith resource_str "::INST"
   then [drop_last 4 resource_str ++ "INSTR"]
   else []).

(** The [for attempt in candidates] loop: [true] when a session is open. *)
Fixpoint open_first (candidates : list string) (timeout_ms : Z) : M bool :=
  match candidates with
  | [] => ret false
  | attempt :: rest =>
      fun s =>
        match call_unit w (EvOpenResource attempt timeout_ms) s with
        | (Ok _, s1) => (Ok true, s1)
        | (Raise e, s1) =>
            match e with
            | VisaIOError => open_first rest timeout_ms s1
            | _ => (Raise e, s1)
            end
        end
  end.

(** The identification step: the vendor tag of the open session. *)
Definition identify : M string :=
  idn <- try_except (r <- scope_query "*IDN?" ;; ret (strip r))
                    (fun _ => ret "(no IDN response)") ;;
  ret (detect_vendor idn).

(** The raw-VICP retry of [scpi_capture], entered when a LeCroy over a
    TCPIP resource returned too little. *)
Definition lecroy_fallback (resource_str save_path : string) (timeout_ms : Z)
  : M bool :=
  ip <- lift (py_index (split_dcolon resource_str) 1) ;;
  let color := display_color_or_white in
  try_except scope_close (fun _ => ret tt) ;;
  rm_close ;;
  r <- try_except
         (d <- _dump_lecroy_vicp_raw ip color (timeout_ms / 1000) ;; ret (Some d))
         (fun _ => ret None) ;;
  match r with
  | None => ret false
  | Some image_data =>
      if too_small image_data then ret false
      else
        let image_data := _strip_ieee_block image_data in
        _save_image image_data save_path ;;
        ret true
  end.

(** What [scpi_capture] does with the result of [_screen_dump]. *)
Definition validate_and_save (resource_str save_path : string) (timeout_ms : Z)
    (vendor : string) (image_data : option bytes) : M bool :=
  if too_small_opt image_data then
    if String.eqb vendor "LECROY" && contains "TCPIP::" (upper resource_str)
    then lecroy_fallback resource_str save_path timeout_ms
    else ret false
  else
    match image_data with
    | Some d =>
        let d := _strip_ieee_block d in
        _save_image d save_path ;;
        ret true
    | None => ret false
    end.

(** The [try] block of [scpi_capture], up to the screen dump: the vendor
    tag and the image received. *)
Definition scpi_acquire (timeout_ms : Z) : M (string * option bytes) :=
  call_unit w (EvSetTimeout timeout_ms) ;;
  call_unit w (EvSetReadTermination (Some newline)) ;;
  call_unit w (EvSetWriteTermination (Some newline)) ;;
  vendor <- identify ;;
  image_data <- _screen_dump vendor ;;
  ret (vendor, image_data).

Definition scpi_capture_body (resource_str save_path : string) (timeout_ms : Z)
  : M bool :=
  acquired <- scpi_acquire timeout_ms ;;
  let '(vendor, image_data) := acquired in
  validate_and_save resource_str save_path timeout_ms vendor image_data.

Definition scpi_capture (resource_str save_path : string) (timeout_ms : Z)
  : M bool :=
  call_unit w EvOpenRm ;;
  let candidates := suffix_variants resource_str in
  scope <- open_first candidates timeout_ms ;;
  if negb scope then
    rm_close ;;
    ret false
  else
    try_finally
      (try_except (scpi_capture_body resource_str save_path timeout_ms)
                  (fun _ => ret false))
      (try_except scope_close (fun _ => ret tt) ;;
       rm_close).

End Capture.


(* ================================================================== *)
(** ** Vocabulary of the properties *)

(** The frame that carries [cmd] with sequence number [seq]. *)
Definition vicp_frame (seq : Z) (cmd : string) : bytes :=
  List.app (List.app [ xc1; x01; byte_of_Z seq; x00 ]
                     (be32 (Z.of_nat (String.length cmd))))
           (list_byte_of_string cmd).

(** The successor of the sequence counter. *)
Definition next_seq (seq : Z) : Z := seq mod 255 + 1.

(** The tags [detect_vendor] can return. *)
Definition vendor_tags : list string :=
  [ "LECROY"; "TEKTRONIX"; "KEYSIGHT"; "RIGOL"; "SIGLENT"; "RNS"; "UNKNOWN" ].

(** The tags of the data model, the tag [RIGOL_SIGLENT] read as either of the
    two tags the code has for it. *)
Definition data_model_tags : list string :=
  [ "LECROY"; "TEKTRONIX"; "KEYSIGHT"; "RIGOL_SIGLENT"; "RIGOL"; "SIGLENT";
    "UNKNOWN" ].

(** The substrings [detect_vendor] looks for. *)
Definition known_vendor_substrings : list string :=
  [ "LECROY"; "TELEDYNE"; "TEKTRONIX"; "TEK"; "KEYSIGHT"; "AGILENT"; "HEWLETT";
    "RIGOL"; "SIGLENT"; "ROHDE"; "ROHDE&SCHWARZ"; "R&S" ].

Definition matches_no_vendor (idn : string) : bool :=
  negb (existsb (fun v => contains v (upper idn)) known_vendor_substrings).

(** The three address forms of a network target. *)
Definition vxi11_resource (ip : string) : string := "TCPIP::" ++ ip ++ "::inst0::INSTR".
Definition hislip_resource (ip : string) : string := "TCPIP::" ++ ip ++ "::hislip0::INSTR".
Definition socket_resource (ip : string) (p : Z) : string :=
  "TCPIP::" ++ ip ++ "::" ++ py_str_of_int p ++ "::SOCKET".

(** The port of the raw-socket form: the port given, 5025 when none is
    given ([port = 0]). *)
Definition resolved_port (port : Z) : Z := if port =? 0 then 5025 else port.

(** The two ports the resolver knows by number, and the candidate list with
    the default port read as the lower-numbered of them. *)
Definition well_known_ports : list Z := [1861; 5025].
Definition lower_well_known_port : Z := fold_right Z.min 5025 well_known_ports.
Definition candidates_lower_default (ip : string) (port : Z) : list string :=
  [ vxi11_resource ip; hislip_resource ip;
    socket_resource ip (if port =? 0 then lower_well_known_port else port) ].

(** The value of a string of decimal digits. *)
Definition decimal_value (ds : bytes) : Z :=
  fold_left (fun acc c => 10 * acc + (Z_of_byte c - 48)) ds 0.

Definition is_digit (c : byte) : bool :=
  match digit_val c with
  | Some _ => true
  | None => false
  end.

(** *** Streams of frames *)

Definition frames_bytes (fs : list frame) : bytes := List.concat (map frame_bytes fs).

(** The payloads of the DATA frames, in order. *)
Definition data_payloads (fs : list frame) : bytes :=
  List.concat (map f_payload (filter has_DATA fs)).

(** A frame is well formed when its payload length fits the 4-byte field. *)
Definition frame_wf (f : frame) : Prop :=
  Z.of_nat (List.length (f_payload f)) < 4294967296.

(** The same frame with the EOI flag set. *)
Definition with_EOI (f : frame) : frame :=
  {| f_op := byte_of_Z (Z.lor (Z_of_byte (f_op f)) 1);
     f_ver := f_ver f; f_seq := f_seq f; f_pad := f_pad f;
     f_payload := f_payload f |}.

(** [feeds sk bs rest]: the socket [sk] delivers the bytes [bs], cut into
    non-empty chunks in any way, and then goes on as [rest]. *)
Inductive feeds : sock -> bytes -> sock -> Prop :=
| feeds_done (sk : sock) : feeds sk [] sk
| feeds_whole (c : bytes) (sk : sock) (bs : bytes) (rest : sock) :
    c <> [] -> feeds sk bs rest -> feeds (RxData c :: sk) (List.app c bs) rest
| feeds_part (c1 c2 : bytes) (sk : sock) :
    c1 <> [] -> c2 <> [] ->
    feeds (RxData (List.app c1 c2) :: sk) c1 (RxData c2 :: sk).

(** The stream is over: the peer has closed, or the next [recv] raises (a
    timeout, a reset). *)
Definition stream_ends (sk : sock) : Prop :=
  sk = [] \/ exists e r, sk = RxRaise e :: r.

(** A frame that has not arrived completely (possibly not at all). *)
Definition incomplete_frame (part : bytes) : Prop :=
  exists f tail, frame_wf f /\ tail <> [] /\ frame_bytes f = List.app part tail.

(** A small stream: a DATA frame, a service-request frame and a DATA|EOI
    frame, cut into two chunks inside the second frame, and more bytes
    behind them. *)
Definition demo_frame (op : byte) (payload : string) : frame :=
  {| f_op := op; f_ver := x01; f_seq := x01; f_pad := x00;
     f_payload := ascii_bytes payload |}.

Definition demo_chunk1 : bytes :=
  List.app (frame_bytes (demo_frame x80 "ab"))
           (firstn 3 (frame_bytes (demo_frame x08 "zz"))).
Definition demo_chunk2 : bytes :=
  List.app (skipn 3 (frame_bytes (demo_frame x08 "zz")))
           (frame_bytes (demo_frame x81 "cd")).
Definition demo_stream : sock :=
  [ RxData demo_chunk1; RxData demo_chunk2; RxData (ascii_bytes "next") ].

(** A stream that times out inside its second frame. *)
Definition demo_cut_stream : sock :=
  [ RxData (List.app (frame_bytes (demo_frame x80 "ab"))
                     (firstn 10 (frame_bytes (demo_frame x80 "cdef"))));
    RxRaise SocketTimeout ].

(** *** Runs of the dispatcher *)

(** [first_accepted color fns s r s']: the methods [fns] are run in order,
    each on the state the one before it left; the run stops at the first
    method that returns more than 100 bytes, with [r] that result; it ends
    with [r = None] when every method raised or returned at most 100
    bytes. *)
Inductive first_accepted (color : string)
  : list (string -> M bytes) -> state -> option bytes -> state -> Prop :=
| fa_none (s : state) : first_accepted color [] s None s
| fa_hit (fn : string -> M bytes) (rest : list (string -> M bytes))
    (s : state) (d : bytes) (s1 : state) :
    fn color s = (Ok d, s1) ->
    100 < Z.of_nat (List.length d) ->
    first_accepted color (fn :: rest) s (Some d) s1
| fa_small (fn : string -> M bytes) (rest : list (string -> M bytes))
    (s : state) (d : bytes) (s1 : state) (r : option bytes) (s2 : state) :
    fn color s = (Ok d, s1) ->
    Z.of_nat (List.length d) <= 100 ->
    first_accepted color rest s1 r s2 ->
    first_accepted color (fn :: rest) s r s2
| fa_raise (fn : string -> M bytes) (rest : list (string -> M bytes))
    (s : state) (e : exn) (s1 : state) (r : option bytes) (s2 : state) :
    fn color s = (Raise e, s1) ->
    first_accepted color rest s1 r s2 ->
    first_accepted color (fn :: rest) s r s2.

(** A world whose binary-block query returns exactly 100 bytes and whose
    raw read returns 200 bytes. *)
Definition world_100 : world :=
  {| w_unit := fun _ _ => None;
     w_text := fun _ _ => Ok "";
     w_bytes := fun _ ev =>
                  match ev with
                  | EvQueryBinaryValues _ => Ok (repeat x42 100)
                  | _ => Ok (repeat x43 200)
                  end;
     w_conn := fun _ _ => Ok [] |}.

(** *** States of a capture *)

(** The state once the raw socket to port 1861 is connected. *)
Definition connected_state (rxs : sock) (ip : string) (timeout : Z) (s : state)
  : state :=
  add_log (EvSettimeout timeout) (set_rx rxs (add_log (EvConnect ip 1861 timeout) s)).

(** The state once the VISA session and the resource manager are closed. *)
Definition session_closed (s : state) : state :=
  add_log EvRmClose (add_log EvScopeClose s).

(** Opening the session: the resource manager, then the first suffix
    spelling that opens. *)
Definition scpi_open (w : world) (resource_str : string) (timeout_ms : Z) : M bool :=
  call_unit w EvOpenRm ;;
  open_first w (suffix_variants resource_str) timeout_ms.

(** A host name without a colon. *)
Fixpoint no_colon (s : string) : bool :=
  match s with
  | EmptyString => true
  | String c r => negb (Ascii.eqb c ":") && no_colon r
  end.

(** A world in which every call succeeds and returns nothing. *)
Definition quiet_world : world :=
  {| w_unit := fun _ _ => None;
     w_text := fun _ _ => Ok "";
     w_bytes := fun _ _ => Ok [];
     w_conn := fun _ _ => Ok [] |}.

(** A command with the non-ASCII character U+00E9. *)
Definition non_ascii_command : string := String (ascii_of_nat 233) "IDN?".

(** A raw socket that answers [*IDN?] with one DATA|EOI frame. *)
Definition idn_reply (idn : string) : sock :=
  [ RxData (frame_bytes (demo_frame x81 idn)) ].

(** A world whose port 1861 is answered by a Keysight instrument. *)
Definition world_keysight_1861 : world :=
  {| w_unit := fun _ _ => None;
     w_text := fun _ _ => Ok "";
     w_bytes := fun _ _ => Ok [];
     w_conn := fun _ _ => Ok (idn_reply "KEYSIGHT TECHNOLOGIES,DSOX1204G,CN1,02.12") |}.

(** A DATA|EOI frame with the given payload. *)
Definition data_eoi_frame (payload : bytes) : frame :=
  {| f_op := x81; f_ver := x01; f_seq := x01; f_pad := x00; f_payload := payload |}.

(** A LeCroy instrument on port 1861 that answers [*IDN?] and then sends an
    image of [n] bytes in one frame. *)
Definition lecroy_1861 (n : nat) : sock :=
  [ RxData (frame_bytes (demo_frame x81 "LECROY,WR8104,LCRY0001,9.2.0"));
    RxData (frame_bytes (data_eoi_frame (repeat x42 n))) ].

Definition world_lecroy_vicp (n : nat) : world :=
  {| w_unit := fun _ _ => None;
     w_text := fun _ _ => Ok "";
     w_bytes := fun _ _ => Ok [];
     w_conn := fun _ _ => Ok (lecroy_1861 n) |}.

(** A Tektronix instrument behind a VISA session whose raw read returns
    [n] bytes. *)
Definition world_tektronix_visa (n : nat) : world :=
  {| w_unit := fun _ _ => None;
     w_text := fun _ _ => Ok "TEKTRONIX,TDS 2024C,C000001,CF:91.1CT";
     w_bytes := fun _ _ => Ok (repeat x42 n);
     w_conn := fun _ _ => Raise OSError |}.

(** A LeCroy behind a VISA session over TCPIP: the session returns only 40
    bytes of image; port 1861 either refuses the connection or sends an
    image of [n] bytes in one frame; saving the image may fail. *)
Definition world_lecroy_visa (n : nat) (refuses save_fails : bool) : world :=
  {| w_unit := fun _ ev =>
                 match ev with
                 | EvSaveImage _ _ => if save_fails then Some OSError else None
                 | _ => None
                 end;
     w_text := fun _ _ => Ok "LECROY,WR8104,LCRY0001,9.2.0";
     w_bytes := fun _ _ => Ok (repeat x42 40);
     w_conn := fun _ _ =>
                 if refuses then Raise ConnectionError
                 else Ok [ RxData (frame_bytes (data_eoi_frame (repeat x42 n))) ] |}.

(** The state of [scpi_capture] on a resource once the screen dump over the
    session is done. *)
Definition after_acquire (w : world) (resource_str : string) : state :=
  snd (scpi_acquire w "WHITE" 15000
         (snd (scpi_open w resource_str 15000 init_state))).

(** Two raw captures, one after the other, each on a connection of its
    own. *)
Definition two_raw_captures : M unit :=
  _dump_lecroy_vicp_raw quiet_world "10.0.0.5" "WHITE" 15 ;;
  _dump_lecroy_vicp_raw quiet_world "10.0.0.5" "WHITE" 15 ;;
  ret tt.

(* ================================================================== *)
(** ** Further vocabulary *)

(** [k + 1] calls of [_vicp_next_seq], one after the other; the value is
    that of the last call. *)
Fixpoint next_seq_calls (k : nat) : M Z :=
  match k with
  | O => _vicp_next_seq
  | S k' => _vicp_next_seq ;; next_seq_calls k'
  end.

(** A world in which no VISA resource opens. *)
Definition world_no_visa : world :=
  {| w_unit := fun _ ev =>
                 match ev with
                 | EvOpenResource _ _ => Some VisaIOError
                 | _ => None
                 end;
     w_text := fun _ _ => Ok "";
     w_bytes := fun _ _ => Ok [];
     w_conn := fun _ _ => Raise OSError |}.

(** *** The discipline of the raw socket

    The calls of a raw-socket capture, in order: the connection and its
    timeout; then, while the socket is open, only sends and sleeps; then
    the closing of the socket; then nothing, or the saving of the image. *)
Definition after_close (evs : list event) : bool :=
  match evs with
  | [] => true
  | [EvSaveImage _ _] => true
  | _ => false
  end.

Fixpoint while_open (evs : list event) : bool :=
  match evs with
  | EvSendall _ :: r => while_open r
  | EvSleep _ :: r => while_open r
  | EvSockClose :: r => after_close r
  | _ => false
  end.

Definition socket_discipline (evs : list event) : bool :=
  match evs with
  | EvConnect _ _ _ :: EvSettimeout _ :: r => while_open r
  | _ => false
  end.

Definition is_scope_close (ev : event) : bool :=
  match ev with EvScopeClose => true | _ => false end.
Definition is_rm_close (ev : event) : bool :=
  match ev with EvRmClose => true | _ => false end.

(* ================================================================== *)
(** ** Device resolver: [find_usb_resource]

    [rm.list_resources(pattern)] is taken as a function of the pattern: a
    call of [find_usb_resource] asks each pattern at most once. *)

(** The inner loop: [for r in found: if r not in resources: append]. *)
Fixpoint dedup_extend (resources found : list string) : list string :=
  match found with
  | [] => resources
  | r :: rest =>
      if negb (str_in r resources)
      then dedup_extend (List.app resources [r]) rest
      else dedup_extend resources rest
  end.

Definition list_nonempty {A} (l : list A) : bool :=
  match l with
  | [] => false
  | _ :: _ => true
  end.

(** The loop over the patterns, left at the first pattern after which
    [resources] is not empty. *)
Fixpoint find_usb_loop (list_resources : string -> outcome (list string))
    (patterns : list string) (resources : list string) : list string :=
  match patterns with
  | [] => resources
  | pattern :: rest =>
      let resources :=
        match list_resources pattern with
        | Ok found => dedup_extend resources found
        | Raise _ => resources
        end in
      if list_nonempty resources then resources
      else find_usb_loop list_resources rest resources
  end.

Definition usb_patterns : list string := [ "USB?*::INSTR"; "USB?*::INST"; "USB?*" ].

Definition find_usb_resources (list_resources : string -> outcome (list string))
  : list string :=
  find_usb_loop list_resources usb_patterns [].

Definition find_usb_resource (list_resources : string -> outcome (list string))
  : option string :=
  let resources := find_usb_resources list_resources in
  if negb (list_nonempty resources) then None
  else match resources with
       | r :: _ => Some r
       | [] => None
       end.

(** A VISA library that knows instruments only under the LeCroy suffix. *)
Definition lecroy_ivi_resources (pattern : string) : outcome (list string) :=
  if String.eqb pattern "USB?*::INSTR" then Raise VisaIOError
  else if String.eqb pattern "USB?*::INST"
  then Ok [ "USB0::0x05FF::0x1023::12345::INST"; "USB0::0x05FF::0x1023::12345::INST";
            "USB0::0x05FF::0x1023::67890::INST" ]
  else Ok [ "USB0::0x0699::0x03A6::C000001::INSTR" ].

(* ================================================================== *)
(** ** The scanner, [scope_scanner.py] *)

Module Scanner.

(** The scanner's own [detect_vendor], which returns a display label. *)
Definition detect_vendor (idn : string) : string :=
  let u := upper idn in
  if contains "LECROY" u || contains "TELEDYNE" u then "LeCroy / Teledyne"
  else if contains "TEKTRONIX" u then "Tektronix"
  else if contains "KEYSIGHT" u || contains "AGILENT" u then "Keysight / Agilent"
  else if contains "RIGOL" u then "Rigol"
  else if contains "SIGLENT" u then "Siglent"
  else if contains "ROHDE" u then "Rohde & Schwarz"
  else if contains "NATIONAL" u || contains "NI" u then "National Instruments"
  else if negb (String.eqb idn "") then "Unknown"
  else "".

(** [b"\n" in chunk] *)
Definition has_newline (chunk : bytes) : bool := existsb (byte_eqb x0a) chunk.

(** The [while True] loop of [query_idn].  Every [recv] takes bytes off the
    socket or ends the loop, so the number of bytes still to come, plus
    the number of pending chunks, plus one, bounds the number of
    iterations. *)
Fixpoint query_idn_loop (fuel : nat) (chunks : list bytes) (s : state)
  : outcome (list bytes) * state :=
  match fuel with
  | O => (Raise OtherError, s)
  | S fuel' =>
      match sock_recv 4096 (st_rx s) with
      | (Ok chunk, sk) =>
          let s1 := set_rx sk s in
          if bytes_eqb chunk [] then (Ok chunks, s1)
          else
            let chunks := List.app chunks [chunk] in
            if has_newline chunk then (Ok chunks, s1)
            else query_idn_loop fuel' chunks s1
      | (Raise e, sk) =>
          match e with
          | SocketTimeout => (Ok chunks, set_rx sk s)   (* except socket.timeout: break *)
          | _ => (Raise e, set_rx sk s)
          end
      end
  end.

Definition query_idn (w : world) (ip : string) (port timeout : Z) : M string :=
  try_except
    (create_connection w ip port timeout ;;
     try_finally
       (note (EvSettimeout timeout) ;;
        sendall w (ascii_bytes ("*IDN?" ++ newline)) ;;
        sleep 200 ;;
        chunks <- (fun s =>
                     query_idn_loop (S (rx_size (st_rx s) + List.length (st_rx s)))
                       [] s) ;;
        ret (strip (decode_ascii_replace (List.concat chunks))))
       sock_close)
    (fun _ => ret "").

(** [s.ljust(w)]: [s] itself when it has [w] characters or more. *)
Definition ljust (s : string) (w : Z) : string :=
  s ++ string_of_list_ascii
         (repeat " "%char (Z.to_nat (w - Z.of_nat (String.length s)))).

(** [s[:w]] for a str *)
Definition str_upto (s : string) (w : Z) : string :=
  substring 0 (Z.to_nat (py_slice_index (Z.of_nat (String.length s)) w)) s.

(** [_row]: the values its callers pass are strings, for which [str(v)] is
    [v] itself. *)
Definition _row (values : list string) (widths : list Z) : string :=
  String.concat "  "
    (map (fun vw => str_upto (ljust (fst vw) (snd vw)) (snd vw))
         (combine values widths)).

(** [COL_W] *)
Definition COL_W : list Z := [9; 17; 8; 22; 52; 42].

End Scanner.

(** A chunk of a reply that [query_idn] keeps reading after: not empty, at
    most 4096 bytes, without a newline. *)
Definition partial_line (chunk : bytes) : Prop :=
  chunk <> [] /\ (List.length chunk <= 4096)%nat /\ Scanner.has_newline chunk = false.

(** An instrument that answers in two chunks, the second ending the line. *)
Definition world_two_chunks : world :=
  {| w_unit := fun _ _ => None;
     w_text := fun _ _ => Ok "";
     w_bytes := fun _ _ => Ok [];
     w_conn := fun _ _ =>
                 Ok [ RxData (ascii_bytes "ACME,Mod");
                      RxData (ascii_bytes ("el1,SN1,FW1" ++ newline));
                      RxData (ascii_bytes "more") ] |}.

(** An instrument whose connection is reset after the first chunk. *)
Definition world_reset : world :=
  {| w_unit := fun _ _ => None;
     w_text := fun _ _ => Ok "";
     w_bytes := fun _ _ => Ok [];
     w_conn := fun _ _ =>
                 Ok [ RxData (ascii_bytes "ACME,Mod"); RxRaise ConnectionError ] |}.


(** The [for port in (1861, 5025, 80)] loop of [check_tcp_reachable]; the
    [with] statement closes the socket before [return True]. *)
Fixpoint check_ports (w : world) (ip : string) (timeout : Z) (ports : list Z)
  : M bool :=
  match ports with
  | [] => ret false
  | port :: rest =>
      try_except_only is_OSError
        (create_connection w ip port timeout ;;
         sock_close ;;
         ret true)
        (fun _ => check_ports w ip timeout rest)
  end.

Definition check_tcp_reachable (w : world) (ip : string) (timeout : Z) : M bool :=
  check_ports w ip timeout [1861; 5025; 80].

(** Where the [i]-th column of a row starts: behind the columns before it
    and their two-space separators. *)
Fixpoint column_start (widths : list Z) (i : nat) : nat :=
  match i, widths with
  | S i', w :: ws => (Z.to_nat w + 2 + column_start ws i')%nat
  | _, _ => 0%nat
  end.

Definition spaces (n : nat) : string := string_of_list_ascii (repeat " "%char n).

Definition is_read_raw (ev : event) : bool :=
  match ev with EvReadRaw => true | _ => false end.

(** An instrument whose first raw read returns 4 bytes and whose later raw
    reads return 3 bytes. *)
Definition world_rigol_retry : world :=
  {| w_unit := fun _ _ => None;
     w_text := fun _ _ => Ok "";
     w_bytes := fun l _ =>
                  if existsb is_read_raw l then Ok (repeat x43 3)
                  else Ok (repeat x42 4);
     w_conn := fun _ _ => Ok [] |}.

(* ================================================================== *)
(** * Properties *)

(** ** Bytes and integers *)

Lemma Z_of_byte_of_Z (z : Z) : Z_of_byte (byte_of_Z z) = z mod 256.
Proof.
  unfold Z_of_byte, byte_of_Z, byte_of_N.
  assert (Hz : 0 <= z mod 256 < 256) by (apply Z.mod_pos_bound; lia).
  assert (Hn : (Z.to_N (z mod 256) mod 256 = Z.to_N (z mod 256))%N)
    by (apply N.mod_small; lia).
  rewrite Hn.
  destruct (Byte.of_N (Z.to_N (z mod 256))) as [y|] eqn:E.
  - apply Byte.to_of_N in E. rewrite E. lia.
  - apply Byte.of_N_None_iff in E. lia.
Qed.

Lemma Z_of_byte_range (c : byte) : 0 <= Z_of_byte c <= 255.
Proof.
  unfold Z_of_byte. pose proof (Byte.to_N_bounded c). lia.
Qed.

Lemma byte_of_Z_of_byte (c : byte) : byte_of_Z (Z_of_byte c) = c.
Proof.
  unfold byte_of_Z, byte_of_N.
  pose proof (Z_of_byte_range c) as Hr.
  rewrite Z.mod_small by lia.
  unfold Z_of_byte. rewrite N2Z.id.
  rewrite N.mod_small by (pose proof (Byte.to_N_bounded c); lia).
  now rewrite Byte.of_to_N.
Qed.

Lemma be32_decode (n : Z) :
  0 <= n < 4294967296 ->
  ((((n / 16777216) mod 256 * 256 + (n / 65536) mod 256) * 256
    + (n / 256) mod 256) * 256 + n mod 256) = n.
Proof.
  intros Hn.
  assert (H1 : n / 65536 = n / 256 / 256).
  { change 65536 with (256 * 256). symmetry. apply Z.div_div; lia. }
  assert (H2 : n / 16777216 = n / 256 / 256 / 256).
  { rewrite <- H1. change 16777216 with (65536 * 256).
    symmetry. apply Z.div_div; lia. }
  rewrite H2, H1.
  pose proof (Z.div_mod n 256 ltac:(lia)) as E0.
  pose proof (Z.div_mod (n / 256) 256 ltac:(lia)) as E1.
  pose proof (Z.div_mod (n / 256 / 256) 256 ltac:(lia)) as E2.
  assert (H3 : 0 <= n / 256 / 256 / 256 < 256).
  { split.
    - repeat apply Z.div_pos; lia.
    - apply Z.div_lt_upper_bound; [lia|].
      apply Z.div_lt_upper_bound; [lia|].
      apply Z.div_lt_upper_bound; lia. }
  rewrite (Z.mod_small (n / 256 / 256 / 256)) by lia.
  lia.
Qed.

Lemma unpack_header (op ver seq pad len : Z) :
  0 <= op <= 255 -> 0 <= ver <= 255 -> 0 <= seq <= 255 -> 0 <= pad <= 255 ->
  0 <= len < 4294967296 ->
  struct_unpack_BBBBI
    (List.app [byte_of_Z op; byte_of_Z ver; byte_of_Z seq; byte_of_Z pad] (be32 len))
  = Ok (op, ver, seq, pad, len).
Proof.
  intros Ho Hv Hs Hp Hl.
  unfold be32. cbn [List.app struct_unpack_BBBBI].
  rewrite !Z_of_byte_of_Z.
  rewrite (Z.mod_small op), (Z.mod_small ver), (Z.mod_small seq),
    (Z.mod_small pad) by lia.
  now rewrite be32_decode.
Qed.

Lemma list_byte_of_string_length (s : string) :
  List.length (list_byte_of_string s) = String.length s.
Proof.
  induction s as [|c s IH]; [reflexivity|].
  cbn. f_equal. exact IH.
Qed.

Lemma next_seq_range (seq : Z) : 1 <= next_seq seq <= 255.
Proof.
  unfold next_seq. pose proof (Z.mod_pos_bound seq 255 ltac:(lia)). lia.
Qed.

(* ================================================================== *)
(** ** Frame codec: encoding *)

Lemma vicp_frame_header (seq : Z) (cmd : string) :
  0 <= seq <= 255 ->
  Z.of_nat (String.length cmd) < 4294967296 ->
  struct_unpack_BBBBI (firstn 8 (vicp_frame seq cmd))
  = Ok (193, 1, seq, 0, Z.of_nat (String.length cmd))
  /\ skipn 8 (vicp_frame seq cmd) = list_byte_of_string cmd.
Proof.
  intros Hs Hl. unfold vicp_frame, be32. cbn [List.app firstn skipn].
  split; [|reflexivity].
  change xc1 with (byte_of_Z 193). change x01 with (byte_of_Z 1).
  change x00 with (byte_of_Z 0).
  apply (unpack_header 193 1 seq 0 (Z.of_nat (String.length cmd))); lia.
Qed.

Lemma vicp_send_run (w : world) (cmd : string) (s : state) :
  is_ascii cmd = true ->
  Z.of_nat (String.length cmd) < 4294967296 ->
  _vicp_send w cmd s =
    (match w_unit w (st_log s) (EvSendall (vicp_frame (next_seq (st_seq s)) cmd)) with
     | None => Ok tt
     | Some e => Raise e
     end,
     {| st_seq := next_seq (st_seq s);
        st_log := List.app (st_log s)
                    [EvSendall (vicp_frame (next_seq (st_seq s)) cmd)];
        st_rx := st_rx s |}).
Proof.
  intros Ha Hl.
  unfold _vicp_send, bind, lift, encode_ascii. rewrite Ha.
  unfold _vicp_next_seq. fold (next_seq (st_seq s)).
  pose proof (next_seq_range (st_seq s)) as Hr.
  unfold struct_pack_BBBBI, in_range.
  rewrite list_byte_of_string_length.
  change (Z.lor (Z.lor 128 64) 1) with 193.
  replace ((0 <=? 193) && (193 <=? 255) && ((0 <=? 1) && (1 <=? 255))
           && ((0 <=? next_seq (st_seq s)) && (next_seq (st_seq s) <=? 255))
           && ((0 <=? 0) && (0 <=? 255))
           && ((0 <=? Z.of_nat (String.length cmd))
               && (Z.of_nat (String.length cmd) <=? 4294967295)))
    with true.
  2:{ symmetry. rewrite !andb_true_iff, !Z.leb_le. lia. }
  reflexivity.
Qed.

(** C6 (as amended): for every ASCII command string of fewer than 2^32
    characters and every prior counter state, [_vicp_send] passes to
    [sendall] exactly an 8-byte header followed by the ASCII-encoded
    command.  The header holds the flags byte [DATA|REMOTE|EOI] (bits 7, 6
    and 0), the version 1, the next sequence number, a zero pad byte and
    the payload length as a 4-byte big-endian integer.  The next sequence
    number is [seq mod 255 + 1]: it lies in [1,255], it is the successor of
    a counter in [1,254], and it wraps from 255 to 1.  The counter belongs
    to the process, not to a connection: opening a connection leaves it as
    it is.  For every command with a non-ASCII character [_vicp_send]
    raises [UnicodeEncodeError]; nothing is sent and the counter is not
    advanced. *)
Theorem vicp_send_encodes (w : world) (cmd : string) (s : state) :
  (is_ascii cmd = true ->
   Z.of_nat (String.length cmd) < 4294967296 ->
   exists hdr payload seq,
     encode_ascii cmd = Ok payload
     /\ seq = st_seq s mod 255 + 1
     /\ snd (_vicp_send w cmd s)
        = {| st_seq := seq;
             st_log := List.app (st_log s) [EvSendall (List.app hdr payload)];
             st_rx := st_rx s |}
     /\ fst (_vicp_send w cmd s)
        = match w_unit w (st_log s) (EvSendall (List.app hdr payload)) with
          | None => Ok tt
          | Some e => Raise e
          end
     /\ List.length hdr = 8%nat
     /\ struct_unpack_BBBBI hdr
        = Ok (Z.lor (Z.lor 128 64) 1, 1, seq, 0, Z.of_nat (List.length payload))
     /\ (Z.testbit (Z.lor (Z.lor 128 64) 1) 7 = true
         /\ Z.testbit (Z.lor (Z.lor 128 64) 1) 6 = true
         /\ Z.testbit (Z.lor (Z.lor 128 64) 1) 0 = true)
     /\ 1 <= seq <= 255
     /\ (1 <= st_seq s < 255 -> seq = st_seq s + 1)
     /\ (st_seq s = 255 -> seq = 1)
     /\ (forall host port timeout,
           st_seq (snd (create_connection w host port timeout s)) = st_seq s))
  /\ (is_ascii cmd = false ->
      _vicp_send w cmd s = (Raise UnicodeEncodeError, s)).
Proof.
  split.
  2:{ intros Hna. unfold _vicp_send, bind, lift, encode_ascii.
      rewrite Hna. reflexivity. }
  intros Ha Hl.
  pose proof (next_seq_range (st_seq s)) as Hr.
  exists (firstn 8 (vicp_frame (next_seq (st_seq s)) cmd)),
         (list_byte_of_string cmd), (next_seq (st_seq s)).
  assert (Hf : List.app (firstn 8 (vicp_frame (next_seq (st_seq s)) cmd))
                        (list_byte_of_string cmd)
               = vicp_frame (next_seq (st_seq s)) cmd) by reflexivity.
  rewrite Hf, (vicp_send_run w cmd s Ha Hl).
  destruct (vicp_frame_header (next_seq (st_seq s)) cmd) as [Hu _]; [lia|lia|].
  rewrite list_byte_of_string_length.
  repeat split; try reflexivity; try lia.
  - unfold encode_ascii. now rewrite Ha.
  - exact Hu.
  - intros H. unfold next_seq. rewrite Z.mod_small; lia.
  - intros H. unfold next_seq. rewrite H. reflexivity.
  - intros host port timeout. unfold create_connection.
    destruct (w_conn w (st_log s) (EvConnect host port timeout)); reflexivity.
Qed.

Lemma vicp_send_encodes_witness :
  (exists hdr payload seq,
    encode_ascii "*IDN?" = Ok payload
    /\ seq = st_seq init_state mod 255 + 1
    /\ snd (_vicp_send quiet_world "*IDN?" init_state)
       = {| st_seq := seq;
            st_log := List.app (st_log init_state) [EvSendall (List.app hdr payload)];
            st_rx := st_rx init_state |}
    /\ fst (_vicp_send quiet_world "*IDN?" init_state)
       = match w_unit quiet_world (st_log init_state) (EvSendall (List.app hdr payload)) with
         | None => Ok tt
         | Some e => Raise e
         end
    /\ List.length hdr = 8%nat
    /\ struct_unpack_BBBBI hdr
       = Ok (Z.lor (Z.lor 128 64) 1, 1, seq, 0, Z.of_nat (List.length payload))
    /\ (Z.testbit (Z.lor (Z.lor 128 64) 1) 7 = true
        /\ Z.testbit (Z.lor (Z.lor 128 64) 1) 6 = true
        /\ Z.testbit (Z.lor (Z.lor 128 64) 1) 0 = true)
    /\ 1 <= seq <= 255
    /\ (1 <= st_seq init_state < 255 -> seq = st_seq init_state + 1)
    /\ (st_seq init_state = 255 -> seq = 1)
    /\ (forall host port timeout,
          st_seq (snd (create_connection quiet_world host port timeout init_state))
          = st_seq init_state))
  /\ _vicp_send quiet_world non_ascii_command init_state
     = (Raise UnicodeEncodeError, init_state).
Proof.
  split.
  - apply (proj1 (vicp_send_encodes quiet_world "*IDN?" init_state)).
    + reflexivity.
    + simpl. lia.
  - apply (proj2 (vicp_send_encodes quiet_world non_ascii_command init_state)).
    reflexivity.
Defined.

(** C6, as stated, fails: a command with a non-ASCII character makes
    [encode("ascii")] raise, and nothing is sent; [struct.pack] refuses a
    length of 2^32; and the counter is not one per connection: the first
    frame on a second connection carries the number 3, after the numbers 1
    and 2 on the first connection. *)
Lemma vicp_send_non_ascii_raises :
  _vicp_send quiet_world non_ascii_command init_state
  = (Raise UnicodeEncodeError, init_state)
  /\ struct_pack_BBBBI 193 1 1 0 4294967296 = Raise StructError
  /\ st_log (snd (two_raw_captures init_state))
     = [ EvConnect "10.0.0.5" 1861 15; EvSettimeout 15;
         EvSendall (vicp_frame 1 "HCSU DEV,BMP,FORMAT,PORTRAIT,BCKG,WHITE,DEST,REMOTE,PORT,NET");
         EvSleep 500; EvSendall (vicp_frame 2 "SCREEN_DUMP"); EvSleep 4000;
         EvSockClose;
         EvConnect "10.0.0.5" 1861 15; EvSettimeout 15;
         EvSendall (vicp_frame 3 "HCSU DEV,BMP,FORMAT,PORTRAIT,BCKG,WHITE,DEST,REMOTE,PORT,NET");
         EvSleep 500; EvSendall (vicp_frame 4 "SCREEN_DUMP"); EvSleep 4000;
         EvSockClose ].
Proof. repeat split; reflexivity. Qed.

(* ================================================================== *)
(** ** Vendor detection *)

(** C9 (as amended): for every identity string the tag is one of LECROY,
    TEKTRONIX, KEYSIGHT, RIGOL, SIGLENT, RNS and UNKNOWN, and it is UNKNOWN
    exactly when the upper-cased string contains none of the vendor
    substrings. *)
Theorem detect_vendor_tags (idn : string) :
  In (detect_vendor idn) vendor_tags
  /\ (matches_no_vendor idn = true <-> detect_vendor idn = "UNKNOWN").
Proof.
  unfold detect_vendor, matches_no_vendor, known_vendor_substrings, vendor_tags.
  cbn [existsb]. generalize (upper idn) as u. intros u.
  repeat
    (match goal with
     | |- context [contains ?a u] => destruct (contains a u)
     end; cbn [orb negb]);
    (split; [cbn [In]; tauto | split; intros H; (reflexivity || discriminate H)]).
Qed.

(** C9, as stated, fails: a Rohde & Schwarz identity gets the tag RNS, which
    is none of LECROY, TEKTRONIX, KEYSIGHT, RIGOL_SIGLENT (RIGOL, SIGLENT)
    and UNKNOWN. *)
Lemma detect_vendor_rohde_outside :
  detect_vendor "Rohde&Schwarz,RTB2004,1333.1005k04/101234,02.400" = "RNS"
  /\ ~ In (detect_vendor "Rohde&Schwarz,RTB2004,1333.1005k04/101234,02.400")
          data_model_tags.
Proof.
  split; [reflexivity|].
  change (detect_vendor "Rohde&Schwarz,RTB2004,1333.1005k04/101234,02.400")
    with "RNS".
  unfold data_model_tags. cbn [In].
  intros H. repeat (destruct H as [H|H]; [discriminate H|]). exact H.
Qed.

(* ================================================================== *)
(** ** Connection resolver *)

(** C8 (as amended): for every host and hinted port the candidate list is
    the VXI-11 form, then the HiSLIP form, then one raw-socket form whose
    port is the port given, or 5025 when none is given (port 0).  The list
    is a function of the target alone, so repeated calls agree. *)
Theorem build_ethernet_resources_order (ip : string) (port : Z) :
  build_ethernet_resources ip port
  = [ "TCPIP::" ++ ip ++ "::inst0::INSTR";
      "TCPIP::" ++ ip ++ "::hislip0::INSTR";
      "TCPIP::" ++ ip ++ "::" ++ py_str_of_int (resolved_port port) ++ "::SOCKET" ]
  /\ resolved_port port = (if port =? 0 then 5025 else port)
  /\ (forall l, l = build_ethernet_resources ip port ->
                build_ethernet_resources ip port = l).
Proof.
  split; [|split; [reflexivity | intros l H; now rewrite H]].
  unfold build_ethernet_resources, resolved_port, Z_in. cbn [existsb].
  destruct (Z.eqb_spec port 0) as [->|H0]; [reflexivity|].
  destruct (Z.eqb_spec port 1861) as [->|H1]; [reflexivity|].
  destruct (Z.eqb_spec port 5025) as [->|H2]; reflexivity.
Qed.

(** C8, as stated, fails: with no port given the raw-socket form is on port
    5025, not on the lower-numbered of the two ports 1861 and 5025. *)
Lemma build_ethernet_resources_default_5025 :
  build_ethernet_resources "10.0.0.5" 0
  = [ "TCPIP::10.0.0.5::inst0::INSTR"; "TCPIP::10.0.0.5::hislip0::INSTR";
      "TCPIP::10.0.0.5::5025::SOCKET" ]
  /\ lower_well_known_port = 1861
  /\ build_ethernet_resources "10.0.0.5" 0 <> candidates_lower_default "10.0.0.5" 0.
Proof.
  split; [reflexivity|]. split; [reflexivity|].
  intros H. discriminate H.
Qed.

(* ================================================================== *)
(** ** Image finalizer *)

Lemma py_slice_nonneg {A} (l : list A) (a b : Z) :
  0 <= a -> 0 <= b ->
  py_slice l a b = firstn (Z.to_nat (b - a)) (skipn (Z.to_nat a) l).
Proof.
  intros Ha Hb. unfold py_slice, py_slice_index.
  set (len := Z.of_nat (List.length l)).
  assert (Hlen : 0 <= len) by (unfold len; lia).
  destruct (Z.ltb_spec a 0) as [?|_]; [lia|].
  destruct (Z.ltb_spec b 0) as [?|_]; [lia|].
  destruct (Z_le_gt_dec a len) as [Hal|Hal].
  - rewrite (Z.min_l a len) by lia.
    destruct (Z_le_gt_dec b len) as [Hbl|Hbl].
    + now rewrite (Z.min_l b len) by lia.
    + rewrite (Z.min_r b len) by lia.
      rewrite !firstn_all2; [reflexivity| |]; rewrite length_skipn; unfold len in *; lia.
  - rewrite (Z.min_r a len) by lia.
    rewrite !skipn_all2 by (unfold len in *; lia).
    now rewrite !firstn_nil.
Qed.

Lemma digit_val_range (c : byte) (d : Z) :
  digit_val c = Some d -> 48 <= Z_of_byte c <= 57 /\ d = Z_of_byte c - 48.
Proof.
  unfold digit_val.
  destruct (Z.leb_spec 48 (Z_of_byte c)); destruct (Z.leb_spec (Z_of_byte c) 57);
    cbn [andb]; intros Hd; inversion Hd; lia.
Qed.

Lemma is_digit_val (c : byte) :
  is_digit c = true -> digit_val c = Some (Z_of_byte c - 48).
Proof.
  unfold is_digit. destruct (digit_val c) as [d|] eqn:E; [|discriminate].
  intros _. apply digit_val_range in E. destruct E as [_ ->]. reflexivity.
Qed.

Lemma byte_eqb_false (c : byte) (k : byte) :
  Z_of_byte c <> Z_of_byte k -> byte_eqb c k = false.
Proof.
  unfold byte_eqb, Z_of_byte. intros H. apply N.eqb_neq. intros E. apply H.
  now rewrite E.
Qed.

Lemma int_body_digits (ds : bytes) :
  forallb is_digit ds = true ->
  forall acc,
    int_body IDigit acc ds
    = Some (fold_left (fun a c => 10 * a + (Z_of_byte c - 48)) ds acc, []).
Proof.
  induction ds as [|c ds IH]; intros Hd acc; [reflexivity|].
  cbn [forallb] in Hd. apply andb_true_iff in Hd. destruct Hd as [Hc Hd].
  cbn [int_body fold_left]. rewrite (is_digit_val c Hc). now apply IH.
Qed.

Lemma py_int_of_digits (ds : bytes) :
  ds <> [] -> forallb is_digit ds = true ->
  py_int_of_bytes ds = Ok (decimal_value ds).
Proof.
  intros Hne Hd. destruct ds as [|c ds]; [contradiction|].
  cbn [forallb] in Hd. apply andb_true_iff in Hd. destruct Hd as [Hc Hd].
  pose proof (is_digit_val c Hc) as Hv.
  destruct (digit_val_range c _ Hv) as [Hr _].
  unfold py_int_of_bytes. cbn [skip_space].
  assert (Hsp : bytes_isspace c = false).
  { unfold bytes_isspace.
    destruct (Z.eqb_spec (Z_of_byte c) 32); [lia|].
    destruct (Z.leb_spec 9 (Z_of_byte c)); destruct (Z.leb_spec (Z_of_byte c) 13);
      cbn [andb orb]; try reflexivity; lia. }
  rewrite Hsp.
  rewrite (byte_eqb_false c x2b), (byte_eqb_false c x2d)
    by (unfold Z_of_byte at 2; cbn; lia).
  cbn [int_body]. rewrite Hv.
  rewrite (int_body_digits ds Hd). cbn [skip_space].
  unfold decimal_value. cbn [fold_left].
  f_equal. lia.
Qed.

Lemma decimal_value_nonneg_from (ds : bytes) :
  forallb is_digit ds = true ->
  forall acc, 0 <= acc ->
    0 <= fold_left (fun a c => 10 * a + (Z_of_byte c - 48)) ds acc.
Proof.
  induction ds as [|c ds IH]; intros Hd acc Hacc; [exact Hacc|].
  cbn [forallb] in Hd. apply andb_true_iff in Hd. destruct Hd as [Hc Hd].
  cbn [fold_left]. apply IH; [exact Hd|].
  destruct (digit_val_range c _ (is_digit_val c Hc)) as [Hr _]. lia.
Qed.

Lemma py_slice_first {A} (c : A) (rest : list A) : py_slice (c :: rest) 0 1 = [c].
Proof.
  rewrite py_slice_nonneg by lia. reflexivity.
Qed.

Lemma bytes_eqb_single (c k : byte) : bytes_eqb [c] [k] = byte_eqb c k.
Proof.
  cbn [bytes_eqb]. apply andb_true_r.
Qed.

Lemma strip_block_header (dn : byte) (ds rest : bytes) :
  digit_val dn = Some (Z.of_nat (List.length ds)) ->
  ds <> [] -> forallb is_digit ds = true ->
  _strip_ieee_block (x23 :: dn :: List.app ds rest)
  = firstn (Z.to_nat (decimal_value ds)) rest.
Proof.
  intros Hn Hne Hd.
  unfold _strip_ieee_block.
  rewrite py_slice_first, bytes_eqb_single.
  change (byte_eqb x23 x23) with true.
  cbn [bytes_eqb negb andb py_index nth_error obind].
  unfold py_int_of_char. rewrite Hn. cbn [obind].
  rewrite (py_slice_nonneg _ 2 (2 + Z.of_nat (List.length ds))) by lia.
  replace (Z.to_nat (2 + Z.of_nat (List.length ds) - 2)) with (List.length ds) by lia.
  change (Z.to_nat 2) with 2%nat. cbn [skipn].
  rewrite firstn_app, Nat.sub_diag, firstn_all. cbn [firstn]. rewrite app_nil_r.
  rewrite (py_int_of_digits ds Hne Hd). cbn [obind].
  pose proof (decimal_value_nonneg_from ds Hd 0 ltac:(lia)) as Hv.
  fold (decimal_value ds) in Hv.
  rewrite py_slice_nonneg by lia.
  replace (Z.to_nat (2 + Z.of_nat (List.length ds) + decimal_value ds
                     - (2 + Z.of_nat (List.length ds))))
    with (Z.to_nat (decimal_value ds)) by lia.
  replace (Z.to_nat (2 + Z.of_nat (List.length ds))) with (S (S (List.length ds))) by lia.
  cbn [skipn].
  rewrite skipn_app, Nat.sub_diag, skipn_all. reflexivity.
Qed.

(** C7 (as amended): [_strip_ieee_block] returns its input unchanged when
    the input does not begin with ['#']; when the input begins with ['#'],
    a digit [n] and [n] ASCII digits that encode a byte count, it returns
    the bytes that follow, at most that many, and exactly that many when
    the buffer holds them (so for ['#3120'] and 120 bytes, those 120
    bytes); when the second byte is missing or is no digit, or the count
    field is no integer literal, it returns the input unchanged.  It is a
    total function: it never raises. *)
Theorem strip_ieee_block_envelope :
  _strip_ieee_block [] = []
  /\ (forall c rest, c <> x23 -> _strip_ieee_block (c :: rest) = c :: rest)
  /\ (forall dn ds rest,
        digit_val dn = Some (Z.of_nat (List.length ds)) ->
        ds <> [] -> forallb is_digit ds = true ->
        _strip_ieee_block (x23 :: dn :: List.app ds rest)
        = firstn (Z.to_nat (decimal_value ds)) rest)
  /\ (forall dn ds payload trailer,
        digit_val dn = Some (Z.of_nat (List.length ds)) ->
        ds <> [] -> forallb is_digit ds = true ->
        Z.of_nat (List.length payload) = decimal_value ds ->
        _strip_ieee_block (x23 :: dn :: List.app ds (List.app payload trailer))
        = payload)
  /\ (forall payload,
        List.length payload = 120%nat ->
        _strip_ieee_block (List.app (ascii_bytes "#3120") payload) = payload)
  /\ _strip_ieee_block [x23] = [x23]
  /\ (forall c rest, digit_val c = None ->
        _strip_ieee_block (x23 :: c :: rest) = x23 :: c :: rest)
  /\ (forall c n rest e,
        digit_val c = Some n ->
        py_int_of_bytes (py_slice (x23 :: c :: rest) 2 (2 + n)) = Raise e ->
        _strip_ieee_block (x23 :: c :: rest) = x23 :: c :: rest).
Proof.
  split; [reflexivity|].
  split.
  { intros c rest Hc. unfold _strip_ieee_block.
    rewrite py_slice_first, bytes_eqb_single.
    cbn [bytes_eqb negb andb].
    rewrite byte_eqb_false; [reflexivity|].
    intros E. apply Hc.
    rewrite <- (byte_of_Z_of_byte c), E. reflexivity. }
  split; [exact strip_block_header|].
  split.
  { intros dn ds payload trailer Hn Hne Hd Hl.
    rewrite (strip_block_header dn ds _ Hn Hne Hd).
    rewrite <- Hl, Nat2Z.id, firstn_app, Nat.sub_diag, firstn_all.
    cbn [firstn]. now rewrite app_nil_r. }
  split.
  { intros payload Hl.
    change (List.app (ascii_bytes "#3120") payload)
      with (x23 :: x33 :: List.app [x31; x32; x30] payload).
    rewrite strip_block_header; try reflexivity; [|discriminate].
    change (Z.to_nat (decimal_value [x31; x32; x30])) with 120%nat.
    rewrite <- Hl. apply firstn_all. }
  split; [reflexivity|].
  split.
  { intros c rest Hc. unfold _strip_ieee_block.
    cbn [bytes_eqb negb andb]. 
    destruct (bytes_eqb (py_slice (x23 :: c :: rest) 0 1) [x23]); [|reflexivity].
    cbn [py_index nth_error obind]. unfold py_int_of_char. rewrite Hc.
    reflexivity. }
  intros c n rest e Hc He. unfold _strip_ieee_block.
  cbn [bytes_eqb negb andb].
  destruct (bytes_eqb (py_slice (x23 :: c :: rest) 0 1) [x23]); [|reflexivity].
  cbn [py_index nth_error obind]. unfold py_int_of_char. rewrite Hc.
  cbn [obind]. rewrite He. reflexivity.
Qed.

Lemma strip_ieee_block_envelope_witness :
  _strip_ieee_block (List.app (ascii_bytes "#3120") (repeat x42 120)) = repeat x42 120
  /\ _strip_ieee_block (ascii_bytes "BM6") = ascii_bytes "BM6"
  /\ _strip_ieee_block (ascii_bytes "#15hello
") = ascii_bytes "hello"
  /\ _strip_ieee_block (ascii_bytes "#15ab") = ascii_bytes "ab"
  /\ _strip_ieee_block (ascii_bytes "#x5hello") = ascii_bytes "#x5hello"
  /\ _strip_ieee_block (ascii_bytes "#2x5hello") = ascii_bytes "#2x5hello".
Proof.
  destruct strip_ieee_block_envelope
    as (_ & Hnomark & Hcut & Hexact & H120 & _ & Hnodigit & Hnocount).
  split; [apply H120; reflexivity|].
  split; [apply Hnomark; discriminate|].
  split; [apply (Hexact x31 [x35] (ascii_bytes "hello") [x0a]);
          (reflexivity || discriminate)|].
  split; [apply (Hcut x31 [x35] (ascii_bytes "ab")); (reflexivity || discriminate)|].
  split; [apply Hnodigit; reflexivity|].
  apply (Hnocount x32 2 (ascii_bytes "x5hello") ValueError); reflexivity.
Defined.

(** C7, as stated, fails: when fewer bytes follow the header than it
    announces, the result is neither the announced number of bytes nor the
    input unchanged. *)
Lemma strip_ieee_block_short_payload :
  _strip_ieee_block (ascii_bytes "#15ab") = ascii_bytes "ab"
  /\ List.length (_strip_ieee_block (ascii_bytes "#15ab")) <> 5%nat
  /\ _strip_ieee_block (ascii_bytes "#15ab") <> ascii_bytes "#15ab".
Proof.
  split; [reflexivity|]. split; [|intros H; discriminate H].
  intros H. discriminate H.
Qed.

(* ================================================================== *)
(** ** Frame codec: decoding a stream *)

Lemma bytes_eqb_nil (c : bytes) : bytes_eqb c [] = true <-> c = [].
Proof.
  destruct c; cbn; split; intros H; (reflexivity || discriminate H).
Qed.

Lemma bytes_eqb_nil_false (c : bytes) : c <> [] -> bytes_eqb c [] = false.
Proof.
  destruct c; [contradiction | reflexivity].
Qed.

Lemma feeds_size (sk : sock) (bs : bytes) (rest : sock) :
  feeds sk bs rest -> rx_size sk = (List.length bs + rx_size rest)%nat.
Proof.
  induction 1 as [sk | c sk bs rest Hc Hf IH | c1 c2 sk H1 H2].
  - reflexivity.
  - cbn [rx_size]. rewrite IH, length_app. lia.
  - cbn [rx_size]. rewrite length_app. lia.
Qed.

Lemma feeds_nil_inv (sk rest : sock) : feeds sk [] rest -> rest = sk.
Proof.
  intros H. remember [] as bs eqn:E in H.
  destruct H as [sk | c sk bs rest Hc Hf | c1 c2 sk H1 H2].
  - reflexivity.
  - apply app_eq_nil in E. destruct E as [E _]. contradiction.
  - contradiction.
Qed.

(** Cutting a delivery in two. *)
Lemma feeds_split (sk : sock) (bs : bytes) (rest : sock) :
  feeds sk bs rest ->
  forall a b, bs = List.app a b ->
    exists mid, feeds sk a mid /\ feeds mid b rest.
Proof.
  induction 1 as [sk | c sk bs rest Hc Hf IH | c1 c2 sk H1 H2]; intros a b Heq.
  - symmetry in Heq. apply app_eq_nil in Heq. destruct Heq as [-> ->].
    exists sk. split; constructor.
  - destruct (Nat.le_gt_cases (List.length c) (List.length a)) as [Hle|Hgt].
    + (* the chunk lies inside [a] *)
      assert (Ha : a = List.app c (skipn (List.length c) a)).
      { rewrite <- (firstn_skipn (List.length c) a) at 1. f_equal.
        apply (f_equal (firstn (List.length c))) in Heq.
        rewrite firstn_app, Nat.sub_diag, firstn_all in Heq. cbn [firstn] in Heq.
        rewrite app_nil_r in Heq.
        rewrite firstn_app in Heq.
        replace (List.length c - List.length a)%nat with 0%nat in Heq by lia.
        cbn [firstn] in Heq. rewrite app_nil_r in Heq. now symmetry. }
      rewrite Ha in Heq. rewrite <- app_assoc in Heq.
      apply app_inv_head in Heq.
      destruct (IH _ _ Heq) as (mid & Hm1 & Hm2).
      exists mid. split; [|exact Hm2].
      rewrite Ha. now constructor.
    + (* [a] ends inside the chunk *)
      assert (Hc' : c = List.app a (skipn (List.length a) c)).
      { rewrite <- (firstn_skipn (List.length a) c) at 1. f_equal.
        apply (f_equal (firstn (List.length a))) in Heq.
        rewrite !firstn_app, Nat.sub_diag, firstn_all in Heq.
        replace (List.length a - List.length c)%nat with 0%nat in Heq by lia.
        cbn [firstn] in Heq. rewrite !app_nil_r in Heq. exact Heq. }
      set (c2 := skipn (List.length a) c) in *.
      assert (Hc2 : c2 <> []).
      { intros E. rewrite E, app_nil_r in Hc'. rewrite Hc' in Hgt. lia. }
      rewrite Hc' in Heq. rewrite <- app_assoc in Heq. apply app_inv_head in Heq.
      destruct a as [|x a].
      * exists (RxData c :: sk). split; [constructor|].
        cbn [List.app] in Heq. subst b. rewrite Hc'. cbn [List.app].
        now constructor.
      * exists (RxData c2 :: sk). split.
        -- rewrite Hc'. constructor; [discriminate | exact Hc2].
        -- subst b. now constructor.
  - destruct (Nat.eq_dec (List.length a) (List.length c1)) as [He|Hne].
    + assert (b = []).
      { apply (f_equal (@List.length _)) in Heq. rewrite length_app in Heq.
        destruct b; [reflexivity | cbn in Heq; lia]. }
      subst b. rewrite app_nil_r in Heq. subst a.
      exists (RxData c2 :: sk). split; constructor; assumption.
    + assert (Hlt : (List.length a < List.length c1)%nat).
      { apply (f_equal (@List.length _)) in Heq. rewrite length_app in Heq. lia. }
      assert (Hb : b <> []).
      { intros E. subst b. rewrite app_nil_r in Heq. subst a. lia. }
      destruct a as [|x a].
      * cbn [List.app] in Heq. subst b.
        exists (RxData (List.app c1 c2) :: sk). split; constructor; assumption.
      * exists (RxData (List.app b c2) :: sk). split.
        -- rewrite Heq, <- app_assoc. constructor; [discriminate|].
           intros E. apply app_eq_nil in E. destruct E as [E _]. contradiction.
        -- constructor; assumption.
Qed.

Lemma recv_exact_loop_eq (fuel n : nat) (buf : bytes) (sk : sock) :
  recv_exact_loop fuel n buf sk =
  if (List.length buf <? n)%nat then
    match fuel with
    | O => (Raise OtherError, sk)
    | S fuel' =>
        match sock_recv (n - List.length buf) sk with
        | (Ok chunk, sk1) =>
            if bytes_eqb chunk [] then (Raise ConnectionError, sk1)
            else recv_exact_loop fuel' n (List.app buf chunk) sk1
        | (Raise e, sk1) => (Raise e, sk1)
        end
    end
  else (Ok buf, sk).
Proof.
  destruct fuel; reflexivity.
Qed.

(** [recv_exact] puts the chunks together again. *)
Lemma recv_exact_loop_feeds (sk : sock) (a : bytes) (mid : sock) :
  feeds sk a mid ->
  forall fuel n buf,
    (List.length sk < fuel)%nat ->
    n = (List.length buf + List.length a)%nat ->
    recv_exact_loop fuel n buf sk = (Ok (List.app buf a), mid).
Proof.
  induction 1 as [sk | c sk bs rest Hc Hf IH | c1 c2 sk H1 H2];
    intros fuel n buf Hfuel Hn; rewrite recv_exact_loop_eq.
  - cbn [List.length] in Hn.
    destruct (Nat.ltb_spec (List.length buf) n); [lia|].
    now rewrite app_nil_r.
  - rewrite length_app in Hn.
    assert (Hlc : (0 < List.length c)%nat) by (destruct c; [contradiction | cbn; lia]).
    destruct (Nat.ltb_spec (List.length buf) n); [|lia].
    cbn [List.length] in Hfuel.
    destruct fuel as [|fuel]; [lia|].
    cbn [sock_recv].
    destruct (Nat.leb_spec (List.length c) (n - List.length buf)); [|lia].
    rewrite (bytes_eqb_nil_false c Hc).
    rewrite (IH fuel n (List.app buf c)).
    + now rewrite <- app_assoc.
    + lia.
    + rewrite length_app. lia.
  - assert (Hl1 : (0 < List.length c1)%nat) by (destruct c1; [contradiction | cbn; lia]).
    assert (Hl2 : (0 < List.length c2)%nat) by (destruct c2; [contradiction | cbn; lia]).
    destruct (Nat.ltb_spec (List.length buf) n); [|lia].
    destruct fuel as [|fuel]; [lia|].
    cbn [sock_recv]. rewrite length_app.
    destruct (Nat.leb_spec (List.length c1 + List.length c2) (n - List.length buf));
      [lia|].
    replace (n - List.length buf)%nat with (List.length c1) by lia.
    rewrite firstn_app, Nat.sub_diag, firstn_all. cbn [firstn]. rewrite app_nil_r.
    rewrite skipn_app, Nat.sub_diag, skipn_all. cbn [skipn List.app].
    rewrite (bytes_eqb_nil_false c1 H1).
    rewrite recv_exact_loop_eq. rewrite length_app.
    destruct (Nat.ltb_spec (List.length buf + List.length c1) n); [lia|].
    reflexivity.
Qed.

Lemma recv_exact_feeds (sk : sock) (a : bytes) (mid : sock) :
  feeds sk a mid -> recv_exact (List.length a) sk = (Ok a, mid).
Proof.
  intros H. unfold recv_exact.
  now rewrite (recv_exact_loop_feeds sk a mid H _ (List.length a) []) by (cbn; lia).
Qed.

(** When the stream ends before [n] bytes have come, [recv_exact] raises. *)
Lemma recv_exact_loop_short (sk : sock) (a : bytes) (ending : sock) :
  feeds sk a ending -> stream_ends ending ->
  forall fuel n buf,
    (List.length sk < fuel)%nat ->
    (List.length buf + List.length a < n)%nat ->
    exists e sk', recv_exact_loop fuel n buf sk = (Raise e, sk').
Proof.
  induction 1 as [sk | c sk bs rest Hc Hf IH | c1 c2 sk H1 H2];
    intros Hend fuel n buf Hfuel Hn; rewrite recv_exact_loop_eq.
  - cbn [List.length] in Hn.
    destruct (Nat.ltb_spec (List.length buf) n); [|lia].
    destruct fuel as [|fuel]; [lia|].
    destruct Hend as [-> | (e & r & ->)]; cbn [sock_recv bytes_eqb]; eauto.
  - rewrite length_app in Hn.
    destruct (Nat.ltb_spec (List.length buf) n); [|lia].
    cbn [List.length] in Hfuel.
    destruct fuel as [|fuel]; [lia|].
    cbn [sock_recv].
    destruct (Nat.leb_spec (List.length c) (n - List.length buf)); [|lia].
    rewrite (bytes_eqb_nil_false c Hc).
    apply IH; [exact Hend | lia | rewrite length_app; lia].
  - destruct Hend as [E | (e & r & E)]; discriminate E.
Qed.

Lemma recv_exact_short (sk : sock) (a : bytes) (ending : sock) (n : nat) :
  feeds sk a ending -> stream_ends ending -> (List.length a < n)%nat ->
  exists e sk', recv_exact n sk = (Raise e, sk').
Proof.
  intros Hf He Hn. unfold recv_exact.
  apply (recv_exact_loop_short sk a ending Hf He); cbn; lia.
Qed.

Lemma frame_header_length (f : frame) : List.length (frame_header f) = 8%nat.
Proof. reflexivity. Qed.

Lemma unpack_frame_header (f : frame) :
  frame_wf f ->
  struct_unpack_BBBBI (frame_header f)
  = Ok (Z_of_byte (f_op f), Z_of_byte (f_ver f), Z_of_byte (f_seq f),
        Z_of_byte (f_pad f), Z.of_nat (List.length (f_payload f))).
Proof.
  intros Hwf. unfold frame_wf in Hwf. unfold frame_header.
  rewrite <- (byte_of_Z_of_byte (f_op f)) at 1.
  rewrite <- (byte_of_Z_of_byte (f_ver f)) at 1.
  rewrite <- (byte_of_Z_of_byte (f_seq f)) at 1.
  rewrite <- (byte_of_Z_of_byte (f_pad f)) at 1.
  apply unpack_header; try apply Z_of_byte_range. lia.
Qed.

Lemma frames_bytes_cons (f : frame) (fs : list frame) :
  frames_bytes (f :: fs)
  = List.app (frame_header f) (List.app (f_payload f) (frames_bytes fs)).
Proof.
  unfold frames_bytes, frame_bytes. cbn [map List.concat].
  now rewrite <- app_assoc.
Qed.

Lemma frames_bytes_app (fs gs : list frame) :
  frames_bytes (List.app fs gs) = List.app (frames_bytes fs) (frames_bytes gs).
Proof.
  unfold frames_bytes. now rewrite map_app, concat_app.
Qed.

Lemma frames_bytes_length (fs : list frame) :
  (List.length fs <= List.length (frames_bytes fs))%nat.
Proof.
  induction fs as [|f fs IH]; [cbn; lia|].
  rewrite frames_bytes_cons, !length_app, frame_header_length. cbn [List.length]. lia.
Qed.

Lemma data_payloads_cons (f : frame) (fs : list frame) :
  data_payloads (f :: fs)
  = List.app (if has_DATA f then f_payload f else []) (data_payloads fs).
Proof.
  unfold data_payloads. cbn [filter]. destruct (has_DATA f); reflexivity.
Qed.

Lemma data_payloads_app (fs gs : list frame) :
  data_payloads (List.app fs gs) = List.app (data_payloads fs) (data_payloads gs).
Proof.
  unfold data_payloads. now rewrite filter_app, map_app, concat_app.
Qed.

Lemma data_payloads_single (f : frame) :
  data_payloads [f] = (if has_DATA f then f_payload f else []).
Proof.
  rewrite data_payloads_cons. apply app_nil_r.
Qed.

Lemma vicp_recv_loop_eq (fuel : nat) (image : bytes) (sk : sock) :
  vicp_recv_loop (S fuel) image sk =
  match recv_exact _VICP_HLEN sk with
  | (Raise e, sk1) => (Raise e, image, sk1)
  | (Ok raw_hdr, sk1) =>
      match struct_unpack_BBBBI raw_hdr with
      | Raise e => (Raise e, image, sk1)
      | Ok (op, _, _, _, length) =>
          let is_data := negb (Z.land op 128 =? 0) in
          let eoi := negb (Z.land op 1 =? 0) in
          let '(r, image1, sk2) :=
            if negb (length =? 0) then
              match recv_exact (Z.to_nat length) sk1 with
              | (Raise e, sk2) => (Raise e, image, sk2)
              | (Ok payload, sk2) =>
                  (Ok tt, if is_data then List.app image payload else image, sk2)
              end
            else (Ok tt, image, sk1) in
          match r with
          | Raise e => (Raise e, image1, sk2)
          | Ok _ =>
              if eoi then (Ok tt, image1, sk2)
              else vicp_recv_loop fuel image1 sk2
          end
      end
  end.
Proof. reflexivity. Qed.

(** One iteration of the loop on a complete frame. *)
Lemma vicp_recv_loop_frame (f : frame) (sk : sock) (bs : bytes) (rest : sock) :
  frame_wf f ->
  feeds sk (List.app (frame_header f) (List.app (f_payload f) bs)) rest ->
  exists sk2,
    feeds sk2 bs rest
    /\ forall fuel image,
         vicp_recv_loop (S fuel) image sk =
         let image1 := List.app image (if has_DATA f then f_payload f else []) in
         if has_EOI f then (Ok tt, image1, sk2)
         else vicp_recv_loop fuel image1 sk2.
Proof.
  intros Hwf Hf.
  destruct (feeds_split _ _ _ Hf _ _ eq_refl) as (sk1 & Hh & Hp).
  destruct (feeds_split _ _ _ Hp _ _ eq_refl) as (sk2 & Hpay & Hrest).
  pose proof (recv_exact_feeds _ _ _ Hh) as Rh.
  rewrite frame_header_length in Rh.
  destruct (Z.eqb_spec (Z.of_nat (List.length (f_payload f))) 0) as [Hz|Hnz].
  - (* no payload: nothing more is read *)
    assert (Hnil : f_payload f = []) by (destruct (f_payload f); [reflexivity | cbn in Hz; lia]).
    rewrite Hnil in Hpay. apply feeds_nil_inv in Hpay. subst sk2.
    exists sk1. split; [exact Hrest|].
    intros fuel image. rewrite vicp_recv_loop_eq.
    change _VICP_HLEN with 8%nat. rewrite Rh, (unpack_frame_header f Hwf).
    rewrite Hnil. cbn [List.length Z.of_nat Z.eqb negb].
    unfold has_DATA, has_EOI. cbv zeta.
    destruct (negb (Z.land (Z_of_byte (f_op f)) 128 =? 0)); rewrite ?app_nil_r;
      reflexivity.
  - exists sk2. split; [exact Hrest|].
    pose proof (recv_exact_feeds _ _ _ Hpay) as Rp.
    intros fuel image. rewrite vicp_recv_loop_eq.
    change _VICP_HLEN with 8%nat. rewrite Rh, (unpack_frame_header f Hwf).
    cbv zeta.
    destruct (Z.eqb_spec (Z.of_nat (List.length (f_payload f))) 0) as [?|_]; [lia|].
    cbn [negb]. rewrite Nat2Z.id, Rp.
    unfold has_DATA, has_EOI.
    destruct (negb (Z.land (Z_of_byte (f_op f)) 128 =? 0)); rewrite ?app_nil_r;
      reflexivity.
Qed.

(** The loop on a run of complete frames, none of which has EOI. *)
Lemma vicp_recv_loop_frames (pre : list frame) :
  Forall frame_wf pre ->
  Forall (fun f => has_EOI f = false) pre ->
  forall sk bs rest image k,
    feeds sk (List.app (frames_bytes pre) bs) rest ->
    exists mid,
      feeds mid bs rest
      /\ vicp_recv_loop (List.length pre + k) image sk
         = vicp_recv_loop k (List.app image (data_payloads pre)) mid.
Proof.
  induction pre as [|f pre IH]; intros Hwf Hno sk bs rest image k Hf.
  - exists sk. split; [exact Hf|]. cbn [List.length Nat.add].
    unfold data_payloads. cbn. now rewrite app_nil_r.
  - inversion Hwf as [|? ? Hwf1 Hwf2]; subst.
    inversion Hno as [|? ? Hno1 Hno2]; subst.
    rewrite frames_bytes_cons, <- !app_assoc in Hf.
    destruct (vicp_recv_loop_frame f sk _ rest Hwf1 Hf) as (sk2 & Hf2 & Hstep).
    destruct (IH Hwf2 Hno2 sk2 bs rest
                 (List.app image (if has_DATA f then f_payload f else [])) k Hf2)
      as (mid & Hmid & Hrun).
    exists mid. split; [exact Hmid|].
    cbn [List.length Nat.add]. rewrite Hstep. cbv zeta. rewrite Hno1, Hrun.
    now rewrite data_payloads_cons, app_assoc.
Qed.

(** One iteration of the loop when the stream ends inside a frame. *)
Lemma vicp_recv_loop_incomplete (part : bytes) (sk ending : sock) :
  incomplete_frame part -> feeds sk part ending -> stream_ends ending ->
  forall fuel image,
    exists e sk', vicp_recv_loop (S fuel) image sk = (Raise e, image, sk').
Proof.
  intros (f & tail & Hwf & Htail & Hbytes) Hf Hend fuel image.
  rewrite vicp_recv_loop_eq. change _VICP_HLEN with 8%nat.
  destruct (Nat.lt_ge_cases (List.length part) 8) as [Hlt|Hge].
  - destruct (recv_exact_short sk part ending 8 Hf Hend Hlt) as (e & sk' & ->).
    eauto.
  - (* the header has come, the payload has not *)
    unfold frame_bytes in Hbytes.
    assert (Hpart : part = List.app (frame_header f) (skipn 8 part)).
    { rewrite <- (firstn_skipn 8 part) at 1. f_equal.
      apply (f_equal (firstn 8)) in Hbytes.
      rewrite !firstn_app, frame_header_length in Hbytes.
      rewrite firstn_all2 in Hbytes by (rewrite frame_header_length; lia).
      replace (8 - List.length part)%nat with 0%nat in Hbytes by lia.
      cbn [firstn Nat.sub] in Hbytes. rewrite !app_nil_r in Hbytes.
      now symmetry. }
    set (p := skipn 8 part) in *.
    assert (Hpay : f_payload f = List.app p tail).
    { rewrite Hpart, <- app_assoc in Hbytes. now apply app_inv_head in Hbytes. }
    rewrite Hpart in Hf.
    destruct (feeds_split _ _ _ Hf _ _ eq_refl) as (sk1 & Hh & Hp).
    pose proof (recv_exact_feeds _ _ _ Hh) as Rh.
    rewrite frame_header_length in Rh.
    rewrite Rh, (unpack_frame_header f Hwf). cbv zeta.
    assert (Hlen : (List.length p < List.length (f_payload f))%nat).
    { rewrite Hpay, length_app. destruct tail; [contradiction | cbn; lia]. }
    destruct (Z.eqb_spec (Z.of_nat (List.length (f_payload f))) 0) as [?|_]; [lia|].
    cbn [negb]. rewrite Nat2Z.id.
    destruct (recv_exact_short sk1 p ending _ Hp Hend Hlen) as (e & sk' & ->).
    eauto.
Qed.

(** The decoder on a run of frames that ends with the first EOI frame. *)
Lemma vicp_recv_eoi_run (pre : list frame) (last : frame) (sk rest : sock) :
  Forall frame_wf (List.app pre [last]) ->
  Forall (fun f => has_EOI f = false) pre ->
  has_EOI last = true ->
  feeds sk (frames_bytes (List.app pre [last])) rest ->
  _vicp_recv sk = (data_payloads (List.app pre [last]), rest).
Proof.
  intros Hwf Hno Heoi Hf.
  apply Forall_app in Hwf. destruct Hwf as [Hwf1 Hwf2].
  inversion Hwf2 as [|? ? Hwfl _]; subst.
  pose proof (feeds_size _ _ _ Hf) as Hsize.
  pose proof (frames_bytes_length (List.app pre [last])) as Hlen.
  rewrite length_app in Hlen. cbn [List.length] in Hlen.
  rewrite frames_bytes_app in Hf.
  unfold _vicp_recv.
  replace (S (rx_size sk)) with (List.length pre + S (rx_size sk - List.length pre))%nat
    by lia.
  destruct (vicp_recv_loop_frames pre Hwf1 Hno sk _ rest []
              (S (rx_size sk - List.length pre)) Hf) as (mid & Hmid & ->).
  unfold frames_bytes in Hmid. cbn [map List.concat] in Hmid.
  unfold frame_bytes in Hmid. rewrite <- app_assoc in Hmid.
  destruct (vicp_recv_loop_frame last mid [] rest Hwfl Hmid) as (sk2 & Hsk2 & Hstep).
  apply feeds_nil_inv in Hsk2. subst sk2.
  rewrite Hstep. cbv zeta. rewrite Heoi. cbn [List.app].
  now rewrite data_payloads_app, data_payloads_single.
Qed.

(** The decoder on a run of complete frames without EOI, after which the
    stream ends, possibly inside a further frame. *)
Lemma vicp_recv_ended_run (fs : list frame) (part : bytes) (sk ending : sock) :
  Forall frame_wf fs ->
  Forall (fun f => has_EOI f = false) fs ->
  incomplete_frame part ->
  feeds sk (List.app (frames_bytes fs) part) ending ->
  stream_ends ending ->
  fst (_vicp_recv sk) = data_payloads fs.
Proof.
  intros Hwf Hno Hpart Hf Hend.
  pose proof (feeds_size _ _ _ Hf) as Hsize.
  pose proof (frames_bytes_length fs) as Hlen.
  rewrite length_app in Hsize.
  unfold _vicp_recv.
  replace (S (rx_size sk)) with (List.length fs + S (rx_size sk - List.length fs))%nat
    by lia.
  destruct (vicp_recv_loop_frames fs Hwf Hno sk _ ending []
              (S (rx_size sk - List.length fs)) Hf) as (mid & Hmid & ->).
  destruct (vicp_recv_loop_incomplete part mid ending Hpart Hmid Hend
              (rx_size sk - List.length fs) (List.app [] (data_payloads fs)))
    as (e & sk' & ->).
  destruct (is_OSError e); reflexivity.
Qed.

Lemma with_EOI_flags (f : frame) :
  has_EOI (with_EOI f) = true /\ has_DATA (with_EOI f) = has_DATA f
  /\ f_payload (with_EOI f) = f_payload f.
Proof.
  unfold has_EOI, has_DATA, with_EOI. cbn [f_op f_payload].
  destruct (f_op f); vm_compute; repeat split.
Qed.

(** C1: for frames that arrive in order, cut into chunks in any way, none
    with EOI but the last, [_vicp_recv] returns the payloads of the DATA
    frames in arrival order and nothing of the other frames.  It stops at
    the EOI frame, what follows on the socket is left unread, and the EOI
    frame's payload is part of the result exactly when its DATA flag is
    set. *)
Theorem vicp_recv_concatenates_data (pre : list frame) (last : frame)
    (sk rest : sock) :
  Forall frame_wf (List.app pre [last]) ->
  Forall (fun f => has_EOI f = false) pre ->
  has_EOI last = true ->
  feeds sk (frames_bytes (List.app pre [last])) rest ->
  _vicp_recv sk = (data_payloads (List.app pre [last]), rest)
  /\ data_payloads (List.app pre [last])
     = List.app (List.concat (map f_payload (filter has_DATA pre)))
                (if has_DATA last then f_payload last else []).
Proof.
  intros Hwf Hno Heoi Hf. split.
  - now apply vicp_recv_eoi_run.
  - now rewrite data_payloads_app, data_payloads_single.
Qed.

Lemma vicp_recv_concatenates_data_witness :
  _vicp_recv demo_stream
  = (data_payloads [demo_frame x80 "ab"; demo_frame x08 "zz"; demo_frame x81 "cd"],
     [RxData (ascii_bytes "next")])
  /\ data_payloads [demo_frame x80 "ab"; demo_frame x08 "zz"; demo_frame x81 "cd"]
     = ascii_bytes "abcd".
Proof.
  split; [|reflexivity].
  apply (vicp_recv_concatenates_data
           [demo_frame x80 "ab"; demo_frame x08 "zz"] (demo_frame x81 "cd")).
  - repeat constructor; unfold frame_wf; simpl; lia.
  - repeat constructor.
  - reflexivity.
  - unfold demo_stream.
    change (frames_bytes
              (List.app [demo_frame x80 "ab"; demo_frame x08 "zz"] [demo_frame x81 "cd"]))
      with (List.app demo_chunk1 (List.app demo_chunk2 [])).
    repeat constructor; discriminate.
Defined.

(** C2: when the stream ends (the peer closes, or a read times out or
    fails) before an EOI frame has come, [_vicp_recv] returns the payloads
    of the DATA frames that arrived completely.  It returns the empty
    byte string when no frame arrived completely, and after at least one
    complete frame it returns what it would return had the last complete
    frame carried EOI.  [_vicp_recv] has no exceptional result: both of its
    handlers return the accumulated image. *)
Theorem vicp_recv_accepts_early_close (fs : list frame) (part : bytes)
    (sk ending : sock) :
  Forall frame_wf fs ->
  Forall (fun f => has_EOI f = false) fs ->
  incomplete_frame part ->
  feeds sk (List.app (frames_bytes fs) part) ending ->
  stream_ends ending ->
  fst (_vicp_recv sk) = data_payloads fs
  /\ (fs = [] -> fst (_vicp_recv sk) = [])
  /\ (forall init l sk' rest',
        fs = List.app init [l] ->
        feeds sk' (frames_bytes (List.app init [with_EOI l])) rest' ->
        fst (_vicp_recv sk') = fst (_vicp_recv sk)).
Proof.
  intros Hwf Hno Hpart Hf Hend.
  pose proof (vicp_recv_ended_run fs part sk ending Hwf Hno Hpart Hf Hend) as Hrun.
  split; [exact Hrun|]. split.
  - intros ->. exact Hrun.
  - intros init l sk' rest' -> Hf'.
    apply Forall_app in Hwf. destruct Hwf as [Hwf1 Hwf2].
    apply Forall_app in Hno. destruct Hno as [Hno1 _].
    destruct (with_EOI_flags l) as (He & Hd & Hp).
    rewrite (vicp_recv_eoi_run init (with_EOI l) sk' rest'); [| |exact Hno1|exact He|exact Hf'].
    + cbn [fst]. rewrite Hrun, !data_payloads_app, !data_payloads_single.
      now rewrite Hd, Hp.
    + apply Forall_app. split; [exact Hwf1|].
      inversion Hwf2; subst. constructor; [|constructor]. assumption.
Qed.

Lemma vicp_recv_accepts_early_close_witness :
  fst (_vicp_recv demo_cut_stream) = data_payloads [demo_frame x80 "ab"]
  /\ data_payloads [demo_frame x80 "ab"] = ascii_bytes "ab".
Proof.
  split; [|reflexivity].
  apply (vicp_recv_accepts_early_close
           [demo_frame x80 "ab"] (firstn 10 (frame_bytes (demo_frame x80 "cdef")))
           demo_cut_stream [RxRaise SocketTimeout]).
  - repeat constructor; unfold frame_wf; simpl; lia.
  - repeat constructor.
  - exists (demo_frame x80 "cdef"), (skipn 10 (frame_bytes (demo_frame x80 "cdef"))).
    split; [unfold frame_wf; simpl; lia|].
    split; [discriminate | reflexivity].
  - unfold demo_cut_stream.
    change (List.app (frames_bytes [demo_frame x80 "ab"])
                     (firstn 10 (frame_bytes (demo_frame x80 "cdef"))))
      with (List.app (List.app (frame_bytes (demo_frame x80 "ab"))
                               (firstn 10 (frame_bytes (demo_frame x80 "cdef")))) []).
    repeat constructor; discriminate.
  - right. eauto.
Defined.

(** *** The bounds on the loops are enough

    The two loops of the decoder are run with a bound computed from the
    socket.  More iterations change nothing, so the bound is never what
    ends a loop. *)

Lemma recv_exact_loop_fuel (sk : sock) :
  forall fuel1 fuel2 n buf,
    (List.length sk < fuel1)%nat -> (List.length sk < fuel2)%nat ->
    recv_exact_loop fuel1 n buf sk = recv_exact_loop fuel2 n buf sk.
Proof.
  induction sk as [|ev sk IH]; intros fuel1 fuel2 n buf H1 H2;
    rewrite (recv_exact_loop_eq fuel1), (recv_exact_loop_eq fuel2);
    destruct (Nat.ltb_spec (List.length buf) n) as [Hlt|Hge]; try reflexivity;
    (destruct fuel1 as [|f1]; [cbn in H1; lia|]);
    (destruct fuel2 as [|f2]; [cbn in H2; lia|]).
  - reflexivity.
  - cbn [List.length] in H1, H2. destruct ev as [c|e]; cbn [sock_recv]; [|reflexivity].
    destruct (Nat.leb_spec (List.length c) (n - List.length buf)) as [Hle|Hgt].
    + destruct (bytes_eqb c []); [reflexivity|]. apply IH; lia.
    + destruct (bytes_eqb (firstn (n - List.length buf) c) []); [reflexivity|].
      rewrite (recv_exact_loop_eq f1), (recv_exact_loop_eq f2).
      rewrite length_app, length_firstn.
      destruct (Nat.ltb_spec (List.length buf + Nat.min (n - List.length buf) (List.length c)) n);
        [lia | reflexivity].
Qed.

Lemma recv_exact_loop_size (fuel : nat) :
  forall n buf sk out sk1,
    recv_exact_loop fuel n buf sk = (Ok out, sk1) ->
    (List.length buf <= n)%nat ->
    (rx_size sk1 + (n - List.length buf) = rx_size sk)%nat.
Proof.
  induction fuel as [|fuel IH]; intros n buf sk out sk1 Hrun Hle;
    rewrite recv_exact_loop_eq in Hrun;
    destruct (Nat.ltb_spec (List.length buf) n) as [Hlt|Hge];
    try (inversion Hrun; subst; lia); try discriminate Hrun.
  destruct sk as [|[c|e] sk]; cbn [sock_recv] in Hrun.
  - cbn [bytes_eqb] in Hrun. discriminate Hrun.
  - destruct (Nat.leb_spec (List.length c) (n - List.length buf)) as [Hc|Hc].
    + destruct (bytes_eqb c []); [discriminate Hrun|].
      apply IH in Hrun; rewrite ?length_app in *; cbn [rx_size]; lia.
    + destruct (bytes_eqb (firstn (n - List.length buf) c) []); [discriminate Hrun|].
      apply IH in Hrun; rewrite ?length_app, ?length_firstn in *; [|lia].
      cbn [rx_size] in *. rewrite length_skipn in Hrun. lia.
  - discriminate Hrun.
Qed.

Lemma recv_exact_size (n : nat) (sk : sock) (out : bytes) (sk1 : sock) :
  recv_exact n sk = (Ok out, sk1) -> (rx_size sk1 + n = rx_size sk)%nat.
Proof.
  intros H. apply recv_exact_loop_size in H; cbn [List.length] in *; lia.
Qed.

Lemma vicp_recv_loop_fuel (fuel1 : nat) :
  forall fuel2 image sk,
    (rx_size sk < fuel1)%nat -> (rx_size sk < fuel2)%nat ->
    vicp_recv_loop fuel1 image sk = vicp_recv_loop fuel2 image sk.
Proof.
  induction fuel1 as [|f1 IH]; intros fuel2 image sk H1 H2; [lia|].
  destruct fuel2 as [|f2]; [lia|].
  rewrite !vicp_recv_loop_eq.
  destruct (recv_exact _VICP_HLEN sk) as [[raw_hdr|e] sk1] eqn:Eh; [|reflexivity].
  apply recv_exact_size in Eh. change _VICP_HLEN with 8%nat in Eh.
  destruct (struct_unpack_BBBBI raw_hdr) as [[[[[op ?] ?] ?] len]|e]; [|reflexivity].
  cbv zeta.
  destruct (negb (len =? 0)).
  - destruct (recv_exact (Z.to_nat len) sk1) as [[payload|e] sk2] eqn:Ep; [|reflexivity].
    apply recv_exact_size in Ep.
    destruct (negb (Z.land op 1 =? 0)); [reflexivity|]. apply IH; lia.
  - destruct (negb (Z.land op 1 =? 0)); [reflexivity|]. apply IH; lia.
Qed.

(** [_vicp_recv] is the run of its loop with any larger bound. *)
Lemma vicp_recv_fuel_enough (sk : sock) (fuel : nat) :
  (rx_size sk < fuel)%nat ->
  _vicp_recv sk
  = (snd (fst (vicp_recv_loop fuel [] sk)), snd (vicp_recv_loop fuel [] sk)).
Proof.
  intros H. unfold _vicp_recv.
  rewrite (vicp_recv_loop_fuel (S (rx_size sk)) fuel [] sk) by lia.
  destruct (vicp_recv_loop fuel [] sk) as [[r image] sk1].
  destruct r as [u|e]; [reflexivity|]. destruct (is_OSError e); reflexivity.
Qed.

(* ================================================================== *)
(** ** Vendor dispatcher *)

Lemma str_in_white_black (c : string) :
  str_in c ["WHITE"; "BLACK"] = true -> c = "WHITE" \/ c = "BLACK".
Proof.
  unfold str_in. cbn [existsb]. rewrite !orb_true_iff, !String.eqb_eq.
  intros [H|[H|H]]; [now left | now right | discriminate H].
Qed.

Lemma display_color_cases (DC : string) :
  display_color_or_white DC = "WHITE" \/ display_color_or_white DC = "BLACK".
Proof.
  unfold display_color_or_white.
  destruct (str_in (upper DC) ["WHITE"; "BLACK"]) eqn:E; [|now left].
  now apply str_in_white_black.
Qed.

Lemma try_methods_first_accepted (fns : list (string -> M bytes))
    (color : string) :
  forall s, exists r s',
    try_methods fns color s = (Ok r, s') /\ first_accepted color fns s r s'.
Proof.
  induction fns as [|fn rest IH]; intros s.
  - exists None, s. split; [reflexivity | constructor].
  - cbn [try_methods].
    destruct (fn color s) as [[d|e] s1] eqn:Efn.
    + destruct (nonempty d && (100 <? Z.of_nat (List.length d))) eqn:Eacc.
      * exists (Some d), s1. split; [reflexivity|].
        apply andb_true_iff in Eacc. destruct Eacc as [_ Hl].
        apply Z.ltb_lt in Hl. now apply fa_hit with (1 := Efn).
      * destruct (IH s1) as (r & s' & Hrun & Hfa).
        exists r, s'. split; [exact Hrun|].
        apply fa_small with (1 := Efn); [|exact Hfa].
        apply andb_false_iff in Eacc. destruct Eacc as [Hn|Hl].
        -- unfold nonempty in Hn. apply negb_false_iff in Hn.
           apply bytes_eqb_nil in Hn. subst d. cbn. lia.
        -- apply Z.ltb_ge in Hl. exact Hl.
    + destruct (IH s1) as (r & s' & Hrun & Hfa).
      exists r, s'. split; [exact Hrun|].
      now apply fa_raise with (1 := Efn).
Qed.

Lemma first_accepted_unique (color : string) (fns : list (string -> M bytes))
    (s : state) (r1 : option bytes) (s1 : state) :
  first_accepted color fns s r1 s1 ->
  forall r2 s2, first_accepted color fns s r2 s2 -> r1 = r2 /\ s1 = s2.
Proof.
  induction 1 as [s | fn rest s d s1 Hfn Hl | fn rest s d s1 r s2 Hfn Hl Hfa IH
                 | fn rest s e s1 r s2 Hfn Hfa IH];
    intros r2 s2' H2; inversion H2; subst;
    try (match goal with
         | A : ?f color s = _, B : ?f color s = _ |- _ =>
             rewrite A in B; inversion B; subst
         end);
    try lia; try (split; reflexivity); try (now apply IH).
Qed.

(** C5 (as amended): when the identity query raises or returns an empty
    string the vendor tag is UNKNOWN; for that tag the dispatcher runs the
    KEYSIGHT, RIGOL, LECROY and TEKTRONIX methods in that order, each on the
    session as the one before left it, and returns the result of the first
    one that returns more than 100 bytes; it returns no data exactly when
    every method raised or returned at most 100 bytes.  It never raises. *)
Theorem screen_dump_unknown_vendor (w : world) (DISPLAY_COLOR : string) (s : state) :
  (forall e, w_text w (st_log s) (EvQuery "*IDN?") = Raise e ->
             identify w s = (Ok "UNKNOWN", add_log (EvQuery "*IDN?") s))
  /\ (w_text w (st_log s) (EvQuery "*IDN?") = Ok "" ->
      identify w s = (Ok "UNKNOWN", add_log (EvQuery "*IDN?") s))
  /\ exists r s',
       _screen_dump w DISPLAY_COLOR "UNKNOWN" s = (Ok r, s')
       /\ first_accepted (display_color_or_white DISPLAY_COLOR)
            [ _dump_keysight w; _dump_rigol w; _dump_lecroy w; _dump_tektronix w ]
            s r s'
       /\ (forall r2 s2,
             first_accepted (display_color_or_white DISPLAY_COLOR)
               [ _dump_keysight w; _dump_rigol w; _dump_lecroy w; _dump_tektronix w ]
               s r2 s2 -> r = r2 /\ s' = s2).
Proof.
  split; [|split].
  - intros e He. unfold identify, bind, try_except, scope_query, call_text.
    rewrite He. reflexivity.
  - intros He. unfold identify, bind, try_except, scope_query, call_text.
    rewrite He. reflexivity.
  - destruct (try_methods_first_accepted
                [ _dump_keysight w; _dump_rigol w; _dump_lecroy w; _dump_tektronix w ]
                (display_color_or_white DISPLAY_COLOR) s) as (r & s' & Hrun & Hfa).
    exists r, s'. split; [|split].
    + unfold _screen_dump, unknown_vendor_methods.
      replace (if negb (str_in (upper DISPLAY_COLOR) ["WHITE"; "BLACK"])
               then "WHITE" else upper DISPLAY_COLOR)
        with (display_color_or_white DISPLAY_COLOR).
      * cbn [String.eqb Ascii.eqb Bool.eqb str_in existsb orb]. exact Hrun.
      * unfold display_color_or_white.
        now destruct (str_in (upper DISPLAY_COLOR) ["WHITE"; "BLACK"]).
    + exact Hfa.
    + now apply first_accepted_unique.
Qed.

Lemma screen_dump_unknown_vendor_witness :
  identify quiet_world init_state = (Ok "UNKNOWN", add_log (EvQuery "*IDN?") init_state).
Proof.
  apply (proj1 (proj2 (screen_dump_unknown_vendor quiet_world "WHITE" init_state))).
  reflexivity.
Defined.

(** C5, as stated, fails: a method that returns exactly 100 bytes is passed
    over, and the result is that of a later method. *)
Lemma screen_dump_skips_100_bytes :
  fst (_dump_keysight world_100 "WHITE" init_state) = Ok (repeat x42 100)
  /\ 100 <= Z.of_nat (List.length (repeat x42 100))
  /\ fst (_screen_dump world_100 "WHITE" "UNKNOWN" init_state)
     = Ok (Some (repeat x43 200)).
Proof.
  split; [reflexivity|]. split; [vm_compute; discriminate | reflexivity].
Qed.

(* ================================================================== *)
(** ** Native VICP capture *)

Lemma vicp_frame_payload (seq : Z) (cmd : string) :
  skipn 8 (vicp_frame seq cmd) = list_byte_of_string cmd.
Proof. reflexivity. Qed.

Lemma vicp_frame_command (seq1 seq2 : Z) (cmd1 cmd2 : string) :
  vicp_frame seq1 cmd1 = vicp_frame seq2 cmd2 -> cmd1 = cmd2.
Proof.
  intros H. apply (f_equal (skipn 8)) in H. rewrite !vicp_frame_payload in H.
  apply (f_equal string_of_list_byte) in H.
  now rewrite !string_of_list_byte_of_string in H.
Qed.

Lemma log_app_cons (l : list event) (ev : event) (evs : list event) :
  List.app (List.app l [ev]) evs = List.app l (ev :: evs).
Proof. now rewrite <- app_assoc. Qed.

(** C10: when the socket to port 1861 is connected and the reply to
    [*IDN?] does not make [detect_vendor] answer LECROY, [vicp_capture]
    returns [False]; the only frame it has sent is the [*IDN?] frame, so no
    HCSU command and no SCREEN_DUMP trigger went over the socket, and no
    image was saved. *)
Theorem vicp_capture_not_lecroy (w : world) (DISPLAY_COLOR ip save_path : string)
    (timeout_sec : Z) (s : state) (rxs : sock) :
  w_conn w (st_log s) (EvConnect ip 1861 timeout_sec) = Ok rxs ->
  detect_vendor (strip (decode_ascii_replace (fst (_vicp_recv rxs)))) <> "LECROY" ->
  exists s' evs,
    vicp_capture w DISPLAY_COLOR ip save_path timeout_sec s = (Ok false, s')
    /\ st_log s' = List.app (st_log s) evs
    /\ evs = List.app
               [ EvConnect ip 1861 timeout_sec; EvSettimeout timeout_sec;
                 EvSendall (vicp_frame (next_seq (st_seq s)) "*IDN?") ]
               (List.app
                  match w_unit w (st_log (connected_state rxs ip timeout_sec s))
                          (EvSendall (vicp_frame (next_seq (st_seq s)) "*IDN?")) with
                  | None => [EvSleep 200]
                  | Some _ => []
                  end
                  [EvSockClose])
    /\ (forall data, In (EvSendall data) evs ->
          data = vicp_frame (next_seq (st_seq s)) "*IDN?")
    /\ (forall seq color,
          ~ In (EvSendall (vicp_frame seq (hcsu_command color))) evs
          /\ ~ In (EvSendall (vicp_frame seq "SCREEN_DUMP")) evs)
    /\ (forall data path, ~ In (EvSaveImage data path) evs).
Proof.
  intros Hconn Hvendor.
  apply String.eqb_neq in Hvendor.
  set (frame := vicp_frame (next_seq (st_seq s)) "*IDN?").
  set (s1 := connected_state rxs ip timeout_sec s).
  assert (Hsends : forall tail,
             (forall data, In (EvSendall data) tail -> False) ->
             forall data,
               In (EvSendall data)
                  (List.app [ EvConnect ip 1861 timeout_sec; EvSettimeout timeout_sec;
                              EvSendall frame ] tail) ->
               data = frame).
  { intros tail Ht data Hin. cbn [List.app In] in Hin.
    destruct Hin as [H|[H|[H|H]]]; try discriminate H.
    - now inversion H.
    - destruct (Ht _ H). }
  assert (Hrun : exists s',
             vicp_capture w DISPLAY_COLOR ip save_path timeout_sec s = (Ok false, s')
             /\ st_log s'
                = List.app (st_log s)
                    (List.app
                       [ EvConnect ip 1861 timeout_sec; EvSettimeout timeout_sec;
                         EvSendall frame ]
                       (List.app
                          match w_unit w (st_log s1) (EvSendall frame) with
                          | None => [EvSleep 200]
                          | Some _ => []
                          end
                          [EvSockClose]))).
  { unfold vicp_capture, bind at 1, try_except_only, bind at 1, create_connection.
    rewrite Hconn. unfold bind at 1, note, ret. cbn [negb].
    fold (connected_state rxs ip timeout_sec s). fold s1.
    unfold bind at 1, try_finally, try_except, vicp_capture_body, bind at 1.
    rewrite (vicp_send_run w "*IDN?" s1) by (reflexivity || (cbn; lia)).
    change (st_seq s1) with (st_seq s). fold frame.
    destruct (w_unit w (st_log s1) (EvSendall frame)) as [e|].
    - eexists. split; [reflexivity|].
      cbn [st_log sock_close note add_log]. unfold s1, connected_state.
      cbn [st_log add_log set_rx]. now rewrite <- !app_assoc.
    - unfold bind at 1, sleep, note, bind at 1, on_sock.
      cbn [st_rx add_log]. change (st_rx s1) with rxs.
      destruct (_vicp_recv rxs) as [idn_raw sk] eqn:Erecv.
      cbn [fst] in Hvendor. rewrite Hvendor. cbn [negb ret].
      eexists. split; [reflexivity|].
      cbn [st_log sock_close note add_log set_rx]. unfold s1, connected_state.
      cbn [st_log add_log set_rx]. now rewrite <- !app_assoc. }
  destruct Hrun as (s' & Hrun & Hlog).
  exists s'. eexists. split; [exact Hrun|]. split; [exact Hlog|].
  split; [reflexivity|].
  assert (Htail : forall data,
             In (EvSendall data)
                (List.app match w_unit w (st_log s1) (EvSendall frame) with
                          | None => [EvSleep 200]
                          | Some _ => []
                          end [EvSockClose]) -> False).
  { intros data. destruct (w_unit w (st_log s1) (EvSendall frame)); cbn [List.app In];
      intros H; repeat (destruct H as [H|H]; [discriminate H|]); exact H. }
  split; [exact (Hsends _ Htail)|].
  split.
  - intros seq color. split; intros Hin; apply (Hsends _ Htail) in Hin;
      apply vicp_frame_command in Hin; discriminate Hin.
  - intros data path Hin. cbn [List.app In] in Hin.
    destruct Hin as [H|[H|[H|H]]]; try discriminate H.
    destruct (w_unit w (st_log s1) (EvSendall frame)); cbn [List.app In] in H;
      repeat (destruct H as [H|H]; [discriminate H|]); exact H.
Qed.

Lemma vicp_capture_not_lecroy_witness :
  fst (vicp_capture world_keysight_1861 "WHITE" "10.0.0.5" "scope.png" 15 init_state)
  = Ok false.
Proof.
  destruct (vicp_capture_not_lecroy world_keysight_1861 "WHITE" "10.0.0.5"
              "scope.png" 15 init_state
              (idn_reply "KEYSIGHT TECHNOLOGIES,DSOX1204G,CN1,02.12"))
    as (s' & evs & Hrun & _).
  - reflexivity.
  - vm_compute. discriminate.
  - rewrite Hrun. reflexivity.
Defined.

(* ================================================================== *)
(** ** Validation of the received image *)

Lemma too_small_ltb (d : bytes) :
  too_small d = (Z.of_nat (List.length d) <? 100).
Proof.
  unfold too_small, nonempty. destruct d as [|c d]; reflexivity.
Qed.

Lemma too_small_leb (d : bytes) :
  too_small d = negb (100 <=? Z.of_nat (List.length d)).
Proof.
  rewrite too_small_ltb.
  destruct (Z.ltb_spec (Z.of_nat (List.length d)) 100);
    destruct (Z.leb_spec 100 (Z.of_nat (List.length d))); (reflexivity || lia).
Qed.

(** [vicp_capture] once its [try] block has delivered an image. *)
Lemma vicp_capture_after_body (w : world) (DISPLAY_COLOR ip save_path : string)
    (timeout_sec : Z) (s : state) (rxs : sock) (image_data : bytes) (s2 : state) :
  w_conn w (st_log s) (EvConnect ip 1861 timeout_sec) = Ok rxs ->
  vicp_capture_body w (display_color_or_white DISPLAY_COLOR)
    (connected_state rxs ip timeout_sec s) = (Ok (Fell image_data), s2) ->
  vicp_capture w DISPLAY_COLOR ip save_path timeout_sec s =
    if 100 <=? Z.of_nat (List.length image_data)
    then (match w_unit w (st_log (add_log EvSockClose s2))
                  (EvSaveImage (_strip_ieee_block image_data) save_path) with
          | None => Ok true
          | Some e => Raise e
          end,
          add_log (EvSaveImage (_strip_ieee_block image_data) save_path)
                  (add_log EvSockClose s2))
    else (Ok false, add_log EvSockClose s2).
Proof.
  intros Hconn Hbody.
  unfold vicp_capture, bind at 1, try_except_only, bind at 1, create_connection.
  rewrite Hconn. unfold bind at 1, note, ret. cbn [negb].
  fold (connected_state rxs ip timeout_sec s).
  unfold bind at 1, try_finally, try_except. rewrite Hbody.
  unfold sock_close, note. rewrite too_small_leb.
  destruct (100 <=? Z.of_nat (List.length image_data)); cbn [negb]; [|reflexivity].
  unfold bind, _save_image, call_unit.
  destruct (w_unit w (st_log (add_log EvSockClose s2))
              (EvSaveImage (_strip_ieee_block image_data) save_path)); reflexivity.
Qed.

(** [scpi_capture] once the session is open and the screen dump is done:
    the rest is [validate_and_save], with its exceptions turned into
    [False], then the closing of the session. *)
Lemma scpi_capture_after_acquire (w : world)
    (DISPLAY_COLOR resource_str save_path : string) (timeout_ms : Z)
    (s s1 : state) (vendor : string) (image_data : option bytes) (s2 : state) :
  scpi_open w resource_str timeout_ms s = (Ok true, s1) ->
  scpi_acquire w DISPLAY_COLOR timeout_ms s1 = (Ok (vendor, image_data), s2) ->
  scpi_capture w DISPLAY_COLOR resource_str save_path timeout_ms s =
    (Ok match fst (validate_and_save w DISPLAY_COLOR resource_str save_path
                     timeout_ms vendor image_data s2) with
        | Ok result => result
        | Raise _ => false
        end,
     session_closed
       (snd (validate_and_save w DISPLAY_COLOR resource_str save_path
               timeout_ms vendor image_data s2))).
Proof.
  intros Hopen Hacq.
  unfold scpi_open, bind in Hopen. unfold scpi_capture, bind at 1.
  destruct (call_unit w EvOpenRm s) as [[u|e] s0]; [|discriminate Hopen].
  unfold bind at 1. rewrite Hopen. cbn [negb].
  unfold try_finally, try_except at 1, scpi_capture_body, bind at 1.
  rewrite Hacq.
  destruct (validate_and_save w DISPLAY_COLOR resource_str save_path timeout_ms
              vendor image_data s2) as [[result|e] s3]; cbn [fst snd ret];
    unfold bind, try_except, scope_close, call_unit, rm_close, note, session_closed;
    destruct (w_unit w (st_log s3) EvScopeClose); reflexivity.
Qed.

(** C4 (as amended): on both paths a received image buffer is accepted, that
    is stripped of its envelope and handed to [_save_image], if and only if
    it has at least 100 bytes; a 100-byte buffer is accepted.  A buffer of
    fewer than 100 bytes, an empty buffer and no buffer at all are never
    saved: [vicp_capture] returns [False]; [scpi_capture] returns [False],
    or, for a LeCroy on a TCPIP resource, the result of the raw-VICP
    retry, with any exception of the retry turned into [False]. *)
Theorem image_accepted_from_100_bytes (w : world) (DISPLAY_COLOR : string) :
  (forall ip save_path timeout_sec s rxs image_data s2,
     w_conn w (st_log s) (EvConnect ip 1861 timeout_sec) = Ok rxs ->
     vicp_capture_body w (display_color_or_white DISPLAY_COLOR)
       (connected_state rxs ip timeout_sec s) = (Ok (Fell image_data), s2) ->
     vicp_capture w DISPLAY_COLOR ip save_path timeout_sec s =
       if 100 <=? Z.of_nat (List.length image_data)
       then (match w_unit w (st_log (add_log EvSockClose s2))
                     (EvSaveImage (_strip_ieee_block image_data) save_path) with
             | None => Ok true
             | Some e => Raise e
             end,
             add_log (EvSaveImage (_strip_ieee_block image_data) save_path)
                     (add_log EvSockClose s2))
       else (Ok false, add_log EvSockClose s2))
  /\
  (forall resource_str save_path timeout_ms s s1 vendor image_data s2,
     scpi_open w resource_str timeout_ms s = (Ok true, s1) ->
     scpi_acquire w DISPLAY_COLOR timeout_ms s1 = (Ok (vendor, image_data), s2) ->
     (forall d,
        image_data = Some d -> 100 <= Z.of_nat (List.length d) ->
        scpi_capture w DISPLAY_COLOR resource_str save_path timeout_ms s =
          (Ok match w_unit w (st_log s2)
                      (EvSaveImage (_strip_ieee_block d) save_path) with
              | None => true
              | Some _ => false
              end,
           session_closed
             (add_log (EvSaveImage (_strip_ieee_block d) save_path) s2)))
     /\
     ((image_data = None
       \/ exists d, image_data = Some d /\ Z.of_nat (List.length d) < 100) ->
      scpi_capture w DISPLAY_COLOR resource_str save_path timeout_ms s =
        if String.eqb vendor "LECROY" && contains "TCPIP::" (upper resource_str)
        then (Ok match fst (lecroy_fallback w DISPLAY_COLOR resource_str save_path
                              timeout_ms s2) with
                 | Ok result => result
                 | Raise _ => false
                 end,
              session_closed
                (snd (lecroy_fallback w DISPLAY_COLOR resource_str save_path
                        timeout_ms s2)))
        else (Ok false, session_closed s2))).
Proof.
  split.
  - intros. now apply vicp_capture_after_body with (rxs := rxs).
  - intros resource_str save_path timeout_ms s s1 vendor image_data s2 Hopen Hacq.
    rewrite (scpi_capture_after_acquire _ _ _ _ _ _ _ _ _ _ Hopen Hacq).
    unfold validate_and_save. split.
    + intros d -> Hlen. cbn [too_small_opt]. rewrite too_small_leb.
      destruct (Z.leb_spec 100 (Z.of_nat (List.length d))); [|lia]. cbn [negb].
      unfold bind, _save_image, call_unit, ret.
      destruct (w_unit w (st_log s2) (EvSaveImage (_strip_ieee_block d) save_path));
        reflexivity.
    + intros Hsmall.
      assert (Ht : too_small_opt image_data = true).
      { destruct Hsmall as [->|(d & -> & Hlen)]; [reflexivity|].
        cbn [too_small_opt]. rewrite too_small_ltb. now apply Z.ltb_lt. }
      rewrite Ht.
      destruct (String.eqb vendor "LECROY" && contains "TCPIP::" (upper resource_str));
        reflexivity.
Qed.

Lemma image_accepted_from_100_bytes_witness :
  fst (vicp_capture (world_lecroy_vicp 120) "WHITE" "10.0.0.5" "scope.png" 15 init_state)
  = Ok true
  /\ fst (vicp_capture (world_lecroy_vicp 40) "WHITE" "10.0.0.5" "scope.png" 15 init_state)
     = Ok false
  /\ fst (scpi_capture (world_tektronix_visa 120) "WHITE" "USB0::0x0699::0x03A6::C000001::INSTR"
            "scope.png" 15000 init_state)
     = Ok true
  /\ fst (scpi_capture (world_tektronix_visa 40) "WHITE" "USB0::0x0699::0x03A6::C000001::INSTR"
            "scope.png" 15000 init_state)
     = Ok false.
Proof.
  split; [|split; [|split]].
  - rewrite (proj1 (image_accepted_from_100_bytes (world_lecroy_vicp 120) "WHITE")
               "10.0.0.5" "scope.png" 15 init_state (lecroy_1861 120)
               (repeat x42 120)
               (snd (vicp_capture_body (world_lecroy_vicp 120) "WHITE"
                       (connected_state (lecroy_1861 120) "10.0.0.5" 15 init_state))));
      reflexivity.
  - rewrite (proj1 (image_accepted_from_100_bytes (world_lecroy_vicp 40) "WHITE")
               "10.0.0.5" "scope.png" 15 init_state (lecroy_1861 40)
               (repeat x42 40)
               (snd (vicp_capture_body (world_lecroy_vicp 40) "WHITE"
                       (connected_state (lecroy_1861 40) "10.0.0.5" 15 init_state))));
      reflexivity.
  - destruct (proj2 (image_accepted_from_100_bytes (world_tektronix_visa 120) "WHITE")
                "USB0::0x0699::0x03A6::C000001::INSTR" "scope.png" 15000 init_state
                (snd (scpi_open (world_tektronix_visa 120)
                        "USB0::0x0699::0x03A6::C000001::INSTR" 15000 init_state))
                "TEKTRONIX" (Some (repeat x42 120))
                (snd (scpi_acquire (world_tektronix_visa 120) "WHITE" 15000
                        (snd (scpi_open (world_tektronix_visa 120)
                                "USB0::0x0699::0x03A6::C000001::INSTR" 15000 init_state)))))
      as [Hacc _]; [reflexivity | reflexivity |].
    rewrite (Hacc (repeat x42 120)); [reflexivity | reflexivity | vm_compute; discriminate].
  - destruct (proj2 (image_accepted_from_100_bytes (world_tektronix_visa 40) "WHITE")
                "USB0::0x0699::0x03A6::C000001::INSTR" "scope.png" 15000 init_state
                (snd (scpi_open (world_tektronix_visa 40)
                        "USB0::0x0699::0x03A6::C000001::INSTR" 15000 init_state))
                "TEKTRONIX" (Some (repeat x42 40))
                (snd (scpi_acquire (world_tektronix_visa 40) "WHITE" 15000
                        (snd (scpi_open (world_tektronix_visa 40)
                                "USB0::0x0699::0x03A6::C000001::INSTR" 15000 init_state)))))
      as [_ Hrej]; [reflexivity | reflexivity |].
    rewrite Hrej; [reflexivity|].
    right. exists (repeat x42 40). split; [reflexivity | vm_compute; reflexivity].
Defined.

(** C4, as stated, fails: a buffer of exactly 100 bytes, whose length does
    not exceed 100, is accepted and saved on both paths. *)
Lemma image_of_100_bytes_accepted :
  Z.of_nat (List.length (repeat x42 100)) = 100
  /\ fst (vicp_capture (world_lecroy_vicp 100) "WHITE" "10.0.0.5" "scope.png" 15 init_state)
     = Ok true
  /\ In (EvSaveImage (repeat x42 100) "scope.png")
        (st_log (snd (vicp_capture (world_lecroy_vicp 100) "WHITE" "10.0.0.5"
                        "scope.png" 15 init_state)))
  /\ fst (scpi_capture (world_tektronix_visa 100) "WHITE"
            "USB0::0x0699::0x03A6::C000001::INSTR" "scope.png" 15000 init_state)
     = Ok true
  /\ In (EvSaveImage (repeat x42 100) "scope.png")
        (st_log (snd (scpi_capture (world_tektronix_visa 100) "WHITE"
                        "USB0::0x0699::0x03A6::C000001::INSTR" "scope.png" 15000
                        init_state))).
Proof.
  split; [reflexivity|].
  split; [vm_compute; reflexivity|].
  split; [vm_compute; tauto|].
  split; [vm_compute; reflexivity|].
  vm_compute. tauto.
Qed.

(* ================================================================== *)
(** ** Strings *)

Lemma append_assoc (a b c : string) : (a ++ b) ++ c = a ++ (b ++ c).
Proof.
  induction a as [|x a IH]; cbn [append]; [reflexivity | now rewrite IH].
Qed.

Lemma append_nil_r (a : string) : a ++ "" = a.
Proof.
  induction a as [|x a IH]; cbn [append]; [reflexivity | now rewrite IH].
Qed.

Lemma length_append (a b : string) :
  String.length (a ++ b) = (String.length a + String.length b)%nat.
Proof.
  induction a as [|x a IH]; cbn [append String.length Nat.add];
    [reflexivity | now rewrite IH].
Qed.

Lemma substring_append_head (a b : string) :
  substring 0 (String.length a) (a ++ b) = a.
Proof.
  induction a as [|x a IH]; cbn [append String.length substring].
  - destruct b; reflexivity.
  - now rewrite IH.
Qed.

Lemma prefix_append (a b : string) : prefix a (a ++ b) = true.
Proof.
  apply prefix_correct. apply substring_append_head.
Qed.

Lemma rev_string_acc_append (s acc : string) :
  rev_string_acc s acc = rev_string s ++ acc.
Proof.
  unfold rev_string. revert acc.
  induction s as [|x s IH]; intros acc; cbn [rev_string_acc]; [reflexivity|].
  rewrite (IH (String x acc)), (IH (String x "")), append_assoc. reflexivity.
Qed.

Lemma rev_string_append (a b : string) :
  rev_string (a ++ b) = rev_string b ++ rev_string a.
Proof.
  induction a as [|x a IH]; cbn [append].
  - now rewrite append_nil_r.
  - unfold rev_string at 1 3. cbn [rev_string_acc].
    rewrite !rev_string_acc_append, IH, append_assoc. reflexivity.
Qed.

Lemma endswith_append (base suffix : string) :
  endswith (base ++ suffix) suffix = true.
Proof.
  unfold endswith. rewrite rev_string_append. apply prefix_append.
Qed.

Lemma drop_last_append (base keep gone : string) :
  drop_last (String.length gone) (base ++ keep ++ gone) = base ++ keep.
Proof.
  unfold drop_last. rewrite <- append_assoc, length_append.
  replace (String.length (base ++ keep) + String.length gone - String.length gone)%nat
    with (String.length (base ++ keep)) by lia.
  apply substring_append_head.
Qed.

Lemma rev_string_involutive (s : string) : rev_string (rev_string s) = s.
Proof.
  induction s as [|x s IH]; [reflexivity|].
  change (String x s) with (String x "" ++ s) at 1.
  rewrite rev_string_append, rev_string_append, IH. reflexivity.
Qed.

Lemma prefix_inv (a : string) :
  forall b, prefix a b = true -> exists c, b = a ++ c.
Proof.
  induction a as [|x a IH]; intros b H.
  - now exists b.
  - destruct b as [|y b]; [discriminate H|].
    cbn [prefix] in H. destruct (ascii_dec x y) as [->|]; [|discriminate H].
    destruct (IH b H) as [c ->]. now exists c.
Qed.

(** [s.endswith(suffix)] holds exactly for the strings [base + suffix]. *)
Lemma endswith_inv (s suffix : string) :
  endswith s suffix = true -> exists base, s = base ++ suffix.
Proof.
  unfold endswith. intros H. destruct (prefix_inv _ _ H) as [c Hc].
  exists (rev_string c).
  rewrite <- (rev_string_involutive s), Hc, rev_string_append,
    rev_string_involutive. reflexivity.
Qed.

(* ================================================================== *)
(** ** The raw-VICP retry of the structured path *)

Lemma split_dcolon_aux_step (c : ascii) (s : string) :
  Ascii.eqb c ":" = false -> s <> "" ->
  split_dcolon_aux (String c s)
  = let '(h, t) := split_dcolon_aux s in (String c h, t).
Proof.
  intros Hc Hs. destruct s as [|c2 s]; [contradiction|].
  cbn [split_dcolon_aux]. rewrite Hc. reflexivity.
Qed.

Lemma split_dcolon_aux_host (ip tail : string) :
  no_colon ip = true ->
  split_dcolon_aux (ip ++ "::" ++ tail)
  = let '(h, t) := split_dcolon_aux tail in (ip, h :: t).
Proof.
  induction ip as [|c ip IH]; intros Hn.
  - reflexivity.
  - cbn [no_colon] in Hn. apply andb_true_iff in Hn. destruct Hn as [Hc Hn].
    apply negb_true_iff in Hc.
    change (String c ip ++ "::" ++ tail) with (String c (ip ++ "::" ++ tail)).
    rewrite split_dcolon_aux_step; [|exact Hc|destruct ip; discriminate].
    rewrite (IH Hn). now destruct (split_dcolon_aux tail).
Qed.

Lemma split_dcolon_host (ip tail : string) :
  no_colon ip = true ->
  py_index (split_dcolon ("TCPIP::" ++ ip ++ "::" ++ tail)) 1 = Ok ip.
Proof.
  intros Hn. unfold split_dcolon.
  change ("TCPIP::" ++ ip ++ "::" ++ tail)
    with (String "T" (String "C" (String "P" (String "I" (String "P"
            (String ":" (String ":" (ip ++ "::" ++ tail)))))))).
  rewrite !split_dcolon_aux_step by (reflexivity || discriminate).
  cbn [split_dcolon_aux Ascii.eqb Bool.eqb andb].
  rewrite (split_dcolon_aux_host ip tail Hn).
  now destruct (split_dcolon_aux tail).
Qed.

Lemma tcpip_resource_recognised (rest : string) :
  contains "TCPIP::" (upper ("TCPIP::" ++ rest)) = true.
Proof.
  change (upper ("TCPIP::" ++ rest)) with ("TCPIP::" ++ upper rest).
  change ("TCPIP::" ++ upper rest)
    with (String "T" (String "C" (String "P" (String "I" (String "P"
            (String ":" (String ":" (upper rest)))))))).
  unfold contains at 1. apply orb_true_iff. left.
  apply prefix_correct. cbn [String.length substring].
  destruct (upper rest); reflexivity.
Qed.

Lemma contains_unfold (needle hay : string) :
  contains needle hay
  = prefix needle hay
    || match hay with
       | EmptyString => false
       | String _ r => contains needle r
       end.
Proof. destruct hay; reflexivity. Qed.

Lemma prefix_dcolon (s : string) :
  prefix "::" s
  = match s with
    | String c (String c2 _) => Ascii.eqb c ":" && Ascii.eqb c2 ":"
    | _ => false
    end.
Proof.
  destruct s as [|c [|c2 s]]; cbn [prefix].
  - reflexivity.
  - destruct (ascii_dec ":" c); reflexivity.
  - destruct (ascii_dec ":" c) as [<-|Hc].
    + destruct (ascii_dec ":" c2) as [<-|Hc2].
      * destruct s; reflexivity.
      * cbn [Ascii.eqb Bool.eqb andb]. symmetry. apply Ascii.eqb_neq. congruence.
    + replace (Ascii.eqb c ":") with false; [reflexivity|].
      symmetry. apply Ascii.eqb_neq. congruence.
Qed.

Lemma upper_char_colon (c : ascii) :
  Ascii.eqb (upper_char c) ":" = Ascii.eqb c ":".
Proof. destruct c as [[] [] [] [] [] [] [] []]; reflexivity. Qed.

(** Upper-casing neither makes nor removes a [::]. *)
Lemma contains_dcolon_upper (s : string) :
  contains "::" (upper s) = contains "::" s.
Proof.
  induction s as [|c s IH]; [reflexivity|].
  cbn [upper].
  rewrite (contains_unfold "::" (String c s)),
    (contains_unfold "::" (String (upper_char c) (upper s))), IH.
  f_equal. rewrite !prefix_dcolon.
  destruct s as [|c2 s]; cbn [upper]; [reflexivity|].
  now rewrite !upper_char_colon.
Qed.

Lemma contains_after (a b : string) :
  forall hay, contains (a ++ b) hay = true -> contains b hay = true.
Proof.
  assert (Hin : forall c, contains b (a ++ b ++ c) = true).
  { intros c. induction a as [|x a IH]; cbn [append].
    - rewrite contains_unfold, prefix_append. reflexivity.
    - rewrite contains_unfold, IH. apply orb_true_r. }
  induction hay as [|y hay IH]; intros H; rewrite contains_unfold in H;
    apply orb_true_iff in H; destruct H as [H|H].
  - destruct (prefix_inv _ _ H) as [c Hc]. rewrite Hc, append_assoc. apply Hin.
  - discriminate H.
  - destruct (prefix_inv _ _ H) as [c Hc]. rewrite Hc, append_assoc. apply Hin.
  - rewrite contains_unfold, (IH H). apply orb_true_r.
Qed.

Lemma split_dcolon_aux_eq (c c2 : ascii) (s : string) :
  split_dcolon_aux (String c (String c2 s))
  = if Ascii.eqb c ":" && Ascii.eqb c2 ":"
    then let '(h, t) := split_dcolon_aux s in (EmptyString, h :: t)
    else let '(h, t) := split_dcolon_aux (String c2 s) in (String c h, t).
Proof. reflexivity. Qed.

(** A string with a [::] in it splits into two fields at least. *)
Lemma split_dcolon_aux_second (s : string) :
  contains "::" s = true -> exists h x t, split_dcolon_aux s = (h, x :: t).
Proof.
  induction s as [|c s IH]; intros H; [discriminate H|].
  rewrite contains_unfold, prefix_dcolon in H.
  destruct s as [|c2 s]; [discriminate H|].
  rewrite split_dcolon_aux_eq.
  destruct (Ascii.eqb c ":" && Ascii.eqb c2 ":").
  - destruct (split_dcolon_aux s) as [h t]. now exists "", h, t.
  - cbn [orb] in H. destruct (IH H) as (h & x & t & E). rewrite E.
    now exists (String c h), x, t.
Qed.

(** So [resource_str.split("::")[1]] never raises on the retry path. *)
Lemma tcpip_second_field (resource_str : string) :
  contains "TCPIP::" (upper resource_str) = true ->
  exists host, py_index (split_dcolon resource_str) 1 = Ok host.
Proof.
  intros H. apply (contains_after "TCPIP" "::") in H.
  rewrite contains_dcolon_upper in H.
  destruct (split_dcolon_aux_second resource_str H) as (h & x & t & E).
  exists x. unfold split_dcolon. rewrite E. reflexivity.
Qed.





(** The run of [_dump_lecroy_vicp_raw], by the answers of the world. *)
Lemma dump_lecroy_vicp_raw_run (w : world) (ip color : string) (timeout_sec : Z)
    (s : state) :
  color = "WHITE" \/ color = "BLACK" ->
  _dump_lecroy_vicp_raw w ip color timeout_sec s =
  match w_conn w (st_log s) (EvConnect ip 1861 timeout_sec) with
  | Raise e => (Raise e, add_log (EvConnect ip 1861 timeout_sec) s)
  | Ok rxs =>
      let s1 := connected_state rxs ip timeout_sec s in
      let f1 := vicp_frame (next_seq (st_seq s)) (hcsu_command color) in
      let f2 := vicp_frame (next_seq (next_seq (st_seq s))) "SCREEN_DUMP" in
      match w_unit w (st_log s1) (EvSendall f1) with
      | Some e =>
          (Raise e,
           {| st_seq := next_seq (st_seq s);
              st_log := List.app (st_log s1) [EvSendall f1; EvSockClose];
              st_rx := rxs |})
      | None =>
          match w_unit w (List.app (st_log s1) [EvSendall f1; EvSleep 500])
                  (EvSendall f2) with
          | Some e =>
              (Raise e,
               {| st_seq := next_seq (next_seq (st_seq s));
                  st_log := List.app (st_log s1)
                              [EvSendall f1; EvSleep 500; EvSendall f2; EvSockClose];
                  st_rx := rxs |})
          | None =>
              (Ok (fst (_vicp_recv rxs)),
               {| st_seq := next_seq (next_seq (st_seq s));
                  st_log := List.app (st_log s1)
                              [EvSendall f1; EvSleep 500; EvSendall f2; EvSleep 4000;
                               EvSockClose];
                  st_rx := snd (_vicp_recv rxs) |})
          end
      end
  end.
Proof.
  intros Hcolor.
  unfold _dump_lecroy_vicp_raw, bind at 1, create_connection.
  destruct (w_conn w (st_log s) (EvConnect ip 1861 timeout_sec)) as [rxs|e];
    [|reflexivity].
  unfold bind at 1, note. fold (connected_state rxs ip timeout_sec s).
  cbv zeta. set (s1 := connected_state rxs ip timeout_sec s).
  unfold try_finally, bind at 1.
  rewrite (vicp_send_run w (hcsu_command color) s1)
    by (destruct Hcolor as [->| ->]; (reflexivity || (cbn; lia))).
  change (st_seq s1) with (st_seq s). change (st_rx s1) with rxs.
  destruct (w_unit w (st_log s1)
              (EvSendall (vicp_frame (next_seq (st_seq s)) (hcsu_command color))))
    as [e|].
  - unfold sock_close, note, add_log. cbn [st_log st_seq st_rx].
    now rewrite <- app_assoc.
  - unfold bind at 1, sleep, note, bind at 1.
    match goal with
    | |- context [_vicp_send w "SCREEN_DUMP" ?st] =>
        rewrite (vicp_send_run w "SCREEN_DUMP" st) by (reflexivity || (cbn; lia))
    end.
    unfold add_log. cbn [st_log st_seq st_rx]. rewrite <- !app_assoc. cbn [List.app].
    destruct (w_unit w (List.app (st_log s1)
                 [EvSendall (vicp_frame (next_seq (st_seq s)) (hcsu_command color));
                  EvSleep 500])
                (EvSendall (vicp_frame (next_seq (next_seq (st_seq s))) "SCREEN_DUMP")))
      as [e|].
    + unfold sock_close, note, add_log. cbn [st_log st_seq st_rx].
      now rewrite <- !app_assoc.
    + unfold bind at 1, bind at 1, on_sock.
      cbn [st_log st_seq st_rx].
      destruct (_vicp_recv rxs) as [d sk].
      unfold ret, sock_close, note, add_log, set_rx.
      cbn [st_log st_seq st_rx fst snd].
      now rewrite <- !app_assoc.
Qed.

(** The run of the retry, by the result of the raw capture. *)
Lemma lecroy_fallback_run (w : world)
    (DISPLAY_COLOR resource_str ip save_path : string)
    (timeout_ms : Z) (s2 : state) :
  py_index (split_dcolon resource_str) 1 = Ok ip ->
  lecroy_fallback w DISPLAY_COLOR resource_str save_path timeout_ms s2 =
  match _dump_lecroy_vicp_raw w ip (display_color_or_white DISPLAY_COLOR)
          (timeout_ms / 1000) (session_closed s2) with
  | (Raise _, sB) => (Ok false, sB)
  | (Ok d, sB) =>
      if 100 <=? Z.of_nat (List.length d)
      then (match w_unit w (st_log sB)
                    (EvSaveImage (_strip_ieee_block d) save_path) with
            | None => Ok true
            | Some e => Raise e
            end,
            add_log (EvSaveImage (_strip_ieee_block d) save_path) sB)
      else (Ok false, sB)
  end.
Proof.
  intros Hn.
  unfold lecroy_fallback, bind at 1, lift. rewrite Hn.
  unfold bind at 1, try_except at 1, scope_close, call_unit.
  assert (Hclose :
            (let (o, s1) :=
               (match w_unit w (st_log s2) EvScopeClose with
                | Some e => Raise e
                | None => Ok tt
                end, add_log EvScopeClose s2) in
             match o with
             | Ok a => (Ok a, s1)
             | Raise e => ret tt s1
             end) = (Ok tt, add_log EvScopeClose s2))
    by (destruct (w_unit w (st_log s2) EvScopeClose); reflexivity).
  cbv zeta in Hclose. rewrite Hclose. clear Hclose.
  unfold bind at 1, rm_close, note. fold (session_closed s2).
  unfold bind at 1, try_except, bind at 1.
  destruct (_dump_lecroy_vicp_raw w ip (display_color_or_white DISPLAY_COLOR)
              (timeout_ms / 1000) (session_closed s2)) as [[d|e] sB];
    [|reflexivity].
  unfold ret. rewrite too_small_leb.
  destruct (100 <=? Z.of_nat (List.length d)); cbn [negb]; [|reflexivity].
  unfold bind, _save_image, call_unit.
  destruct (w_unit w (st_log sB) (EvSaveImage (_strip_ieee_block d) save_path));
    reflexivity.
Qed.




(* ================================================================== *)
(** * Further properties of the frame codec *)

Lemma vicp_frame_as_frame (seq : Z) (cmd : string) :
  vicp_frame seq cmd
  = frame_bytes {| f_op := xc1; f_ver := x01; f_seq := byte_of_Z seq; f_pad := x00;
                   f_payload := list_byte_of_string cmd |}.
Proof.
  unfold vicp_frame, frame_bytes, frame_header. cbn [f_op f_ver f_seq f_pad f_payload].
  now rewrite list_byte_of_string_length.
Qed.

(** X1: what [_vicp_send] puts on the wire for an ASCII command, fed back
    to [_vicp_recv] in chunks cut in any way, is decoded to exactly the
    bytes of the command, and nothing behind the frame is read. *)
Theorem vicp_send_recv_round_trip (w : world) (cmd : string) (s : state) :
  is_ascii cmd = true ->
  Z.of_nat (String.length cmd) < 4294967296 ->
  exists data,
    st_log (snd (_vicp_send w cmd s)) = List.app (st_log s) [EvSendall data]
    /\ forall sk rest,
         feeds sk data rest -> _vicp_recv sk = (list_byte_of_string cmd, rest).
Proof.
  intros Ha Hl. exists (vicp_frame (next_seq (st_seq s)) cmd).
  split; [now rewrite (vicp_send_run w cmd s Ha Hl)|].
  intros sk rest Hf. rewrite vicp_frame_as_frame in Hf.
  set (f := {| f_op := xc1; f_ver := x01; f_seq := byte_of_Z (next_seq (st_seq s));
               f_pad := x00; f_payload := list_byte_of_string cmd |}) in *.
  rewrite (vicp_recv_eoi_run [] f sk rest).
  - cbn [List.app]. now rewrite data_payloads_single.
  - constructor; [|constructor]. unfold frame_wf, f. cbn [f_payload].
    now rewrite list_byte_of_string_length.
  - constructor.
  - reflexivity.
  - unfold frames_bytes. cbn [List.app map List.concat]. now rewrite app_nil_r.
Qed.

Lemma vicp_send_recv_round_trip_witness :
  _vicp_recv [ RxData (firstn 5 (vicp_frame 1 "*IDN?"));
               RxData (skipn 5 (vicp_frame 1 "*IDN?")) ]
  = (ascii_bytes "*IDN?", []).
Proof.
  destruct (vicp_send_recv_round_trip quiet_world "*IDN?" init_state)
    as (data & Hlog & Hback); [reflexivity | simpl; lia |].
  assert (Hdata : data = vicp_frame 1 "*IDN?").
  { change (st_log (snd (_vicp_send quiet_world "*IDN?" init_state)))
      with [EvSendall (vicp_frame 1 "*IDN?")] in Hlog.
    cbn [st_log init_state List.app] in Hlog. now inversion Hlog. }
  apply Hback. rewrite Hdata.
  change (vicp_frame 1 "*IDN?")
    with (List.app (firstn 5 (vicp_frame 1 "*IDN?"))
                   (List.app (skipn 5 (vicp_frame 1 "*IDN?")) [])) at 3.
  repeat constructor; discriminate.
Defined.

Lemma sock_recv_size (n : nat) (sk : sock) :
  (rx_size (snd (sock_recv n sk)) <= rx_size sk)%nat.
Proof.
  destruct sk as [|[c|e] sk]; cbn [sock_recv]; [cbn; lia| |cbn; lia].
  destruct (Nat.leb_spec (List.length c) n); cbn [snd rx_size]; [lia|].
  rewrite length_skipn. lia.
Qed.

Lemma recv_exact_loop_shrinks (fuel : nat) :
  forall n buf sk,
    (rx_size (snd (recv_exact_loop fuel n buf sk)) <= rx_size sk)%nat.
Proof.
  induction fuel as [|fuel IH]; intros n buf sk; rewrite recv_exact_loop_eq;
    destruct (Nat.ltb_spec (List.length buf) n); cbn [snd]; try lia.
  pose proof (sock_recv_size (n - List.length buf) sk) as Hs.
  destruct (sock_recv (n - List.length buf) sk) as [[chunk|e] sk1]; cbn [snd] in *;
    [|lia].
  destruct (bytes_eqb chunk []); cbn [snd]; [lia|].
  specialize (IH n (List.app buf chunk) sk1). lia.
Qed.

Lemma recv_exact_loop_length (fuel : nat) :
  forall n buf sk out sk1,
    recv_exact_loop fuel n buf sk = (Ok out, sk1) ->
    (List.length buf <= n)%nat -> List.length out = n.
Proof.
  induction fuel as [|fuel IH]; intros n buf sk out sk1 Hrun Hle;
    rewrite recv_exact_loop_eq in Hrun;
    destruct (Nat.ltb_spec (List.length buf) n) as [Hlt|Hge];
    try (inversion Hrun; subst; lia); try discriminate Hrun.
  destruct sk as [|[c|e] sk]; cbn [sock_recv] in Hrun.
  - cbn [bytes_eqb] in Hrun. discriminate Hrun.
  - destruct (Nat.leb_spec (List.length c) (n - List.length buf)) as [Hc|Hc].
    + destruct (bytes_eqb c []); [discriminate Hrun|].
      apply IH in Hrun; [exact Hrun|]. rewrite length_app. lia.
    + destruct (bytes_eqb (firstn (n - List.length buf) c) []); [discriminate Hrun|].
      apply IH in Hrun; [exact Hrun|]. rewrite length_app, length_firstn. lia.
  - discriminate Hrun.
Qed.

(** X2: when [recv_exact(n)] returns, it returns exactly [n] bytes and has
    taken exactly [n] bytes off the socket, however the bytes were cut into
    chunks; on a connection the peer has closed it raises
    [ConnectionError] for every [n > 0]; and whatever its result, it never
    puts bytes back. *)
Theorem recv_exact_returns_n_bytes (n : nat) (sk : sock) :
  (forall out sk1,
     recv_exact n sk = (Ok out, sk1) ->
     List.length out = n /\ (rx_size sk1 + n = rx_size sk)%nat)
  /\ ((0 < n)%nat -> recv_exact n [] = (Raise ConnectionError, []))
  /\ (rx_size (snd (recv_exact n sk)) <= rx_size sk)%nat.
Proof.
  split; [|split].
  - intros out sk1 H. split.
    + apply (recv_exact_loop_length _ _ _ _ _ _ H). cbn. lia.
    + now apply recv_exact_size in H.
  - intros Hn. unfold recv_exact. rewrite recv_exact_loop_eq. cbn [List.length].
    destruct (Nat.ltb_spec 0 n); [reflexivity | lia].
  - apply recv_exact_loop_shrinks.
Qed.

Lemma recv_exact_returns_n_bytes_witness :
  List.length (ascii_bytes "abcd") = 4%nat
  /\ recv_exact 3 [] = (Raise ConnectionError, []).
Proof.
  destruct (recv_exact_returns_n_bytes 4 [RxData (ascii_bytes "ab"); RxData (ascii_bytes "cdef")])
    as (Hok & _ & _).
  destruct (recv_exact_returns_n_bytes 3 []) as (_ & Hclosed & _).
  split.
  - apply (Hok (ascii_bytes "abcd") [RxData (ascii_bytes "ef")]). reflexivity.
  - apply Hclosed. lia.
Defined.

Lemma vicp_recv_loop_bound (fuel : nat) :
  forall image sk,
    (List.length (snd (fst (vicp_recv_loop fuel image sk)))
     + rx_size (snd (vicp_recv_loop fuel image sk))
     <= List.length image + rx_size sk)%nat.
Proof.
  induction fuel as [|fuel IH]; intros image sk; [cbn; lia|].
  rewrite vicp_recv_loop_eq.
  pose proof (recv_exact_loop_shrinks (S (List.length sk)) _VICP_HLEN [] sk) as Hs.
  fold (recv_exact _VICP_HLEN sk) in Hs.
  destruct (recv_exact _VICP_HLEN sk) as [[raw_hdr|e] sk1] eqn:Eh; cbn [snd] in Hs;
    [|cbn [fst snd]; lia].
  destruct (struct_unpack_BBBBI raw_hdr) as [[[[[op ?] ?] ?] len]|e];
    [|cbn [fst snd]; lia].
  cbv zeta.
  destruct (negb (len =? 0)).
  - destruct (recv_exact (Z.to_nat len) sk1) as [[payload|e] sk2] eqn:Ep.
    + pose proof (recv_exact_size _ _ _ _ Ep) as Hsz.
      pose proof (recv_exact_loop_length _ _ _ _ _ _ Ep ltac:(cbn; lia)) as Hlen.
      destruct (negb (Z.land op 1 =? 0)).
      * cbn [fst snd]. destruct (negb (Z.land op 128 =? 0)); rewrite ?length_app; lia.
      * specialize (IH (if negb (Z.land op 128 =? 0) then List.app image payload
                        else image) sk2).
        destruct (negb (Z.land op 128 =? 0)); rewrite ?length_app in IH; lia.
    + pose proof (recv_exact_loop_shrinks (S (List.length sk1)) (Z.to_nat len) [] sk1)
        as Hs2.
      fold (recv_exact (Z.to_nat len) sk1) in Hs2. rewrite Ep in Hs2.
      cbn [fst snd] in *. lia.
  - destruct (negb (Z.land op 1 =? 0)); [cbn [fst snd]; lia|].
    specialize (IH image sk1). lia.
Qed.

(** X3: on any byte stream whatever, also a malformed one, [_vicp_recv]
    returns no more bytes than it took off the socket. *)
Theorem vicp_recv_returns_at_most_received (sk : sock) :
  (List.length (fst (_vicp_recv sk)) + rx_size (snd (_vicp_recv sk))
   <= rx_size sk)%nat.
Proof.
  unfold _vicp_recv.
  pose proof (vicp_recv_loop_bound (S (rx_size sk)) [] sk) as H.
  destruct (vicp_recv_loop (S (rx_size sk)) [] sk) as [[r image] sk1].
  cbn [fst snd List.length] in H.
  destruct r as [u|e]; [|destruct (is_OSError e)]; cbn [fst snd]; lia.
Qed.

Lemma next_seq_step (x : Z) : (x mod 255 + 1) mod 255 = (x + 1) mod 255.
Proof.
  rewrite <- (Z.add_mod_idemp_l x 1 255) by lia. reflexivity.
Qed.

(** X4: the [k]-th frame number after a counter value [c] is
    [(c + k - 1) mod 255 + 1]: the numbers lie in [1,255], follow each other
    in steps of one, and repeat with period 255. *)
Theorem vicp_next_seq_period (k : nat) (s : state) :
  next_seq_calls k s
  = (Ok ((st_seq s + Z.of_nat k) mod 255 + 1),
     set_seq ((st_seq s + Z.of_nat k) mod 255 + 1) s)
  /\ 1 <= (st_seq s + Z.of_nat k) mod 255 + 1 <= 255
  /\ next_seq_calls (k + 255) s = next_seq_calls k s.
Proof.
  assert (Hrun : forall k s,
             next_seq_calls k s
             = (Ok ((st_seq s + Z.of_nat k) mod 255 + 1),
                set_seq ((st_seq s + Z.of_nat k) mod 255 + 1) s)).
  { clear k s. induction k as [|k IH]; intros s.
    - cbn [next_seq_calls]. unfold _vicp_next_seq. cbv zeta.
      now rewrite Z.add_0_r.
    - cbn [next_seq_calls]. unfold bind, _vicp_next_seq at 1. cbv zeta.
      rewrite IH. cbn [st_seq set_seq].
      replace ((st_seq s mod 255 + 1 + Z.of_nat k) mod 255)
        with ((st_seq s + Z.of_nat (S k)) mod 255); [reflexivity|].
      rewrite Nat2Z.inj_succ.
      replace (st_seq s mod 255 + 1 + Z.of_nat k)
        with (st_seq s mod 255 + (1 + Z.of_nat k)) by lia.
      rewrite Z.add_mod_idemp_l by lia. f_equal. lia. }
  split; [apply Hrun|]. split.
  - pose proof (Z.mod_pos_bound (st_seq s + Z.of_nat k) 255 ltac:(lia)). lia.
  - rewrite !Hrun.
    replace ((st_seq s + Z.of_nat (k + 255)) mod 255)
      with ((st_seq s + Z.of_nat k) mod 255); [reflexivity|].
    rewrite Nat2Z.inj_add.
    replace (st_seq s + (Z.of_nat k + Z.of_nat 255))
      with (st_seq s + Z.of_nat k + 1 * 255) by lia.
    now rewrite Z.mod_add by lia.
Qed.

(* ================================================================== *)
(** * Further properties of the structured-session capture *)

Lemma state_eta (s : state) :
  {| st_seq := st_seq s; st_log := st_log s; st_rx := st_rx s |} = s.
Proof. destruct s; reflexivity. Qed.

Lemma open_first_all_fail (w : world) (timeout_ms : Z) (candidates : list string) :
  (forall l a, w_unit w l (EvOpenResource a timeout_ms) = Some VisaIOError) ->
  forall s,
    open_first w candidates timeout_ms s
    = (Ok false,
       {| st_seq := st_seq s;
          st_log := List.app (st_log s)
                      (map (fun a => EvOpenResource a timeout_ms) candidates);
          st_rx := st_rx s |}).
Proof.
  intros Hfail. induction candidates as [|a rest IH]; intros s.
  - cbn [open_first map]. unfold ret. now rewrite app_nil_r, state_eta.
  - cbn [open_first map]. unfold call_unit. rewrite Hfail, IH.
    unfold add_log. cbn [st_seq st_log st_rx]. now rewrite <- app_assoc.
Qed.

(** X5: [scpi_capture] raises only when opening raises, that is when
    [_open_rm] raises or [open_resource] raises something other than a
    [VisaIOError]; when no spelling of the resource opens it closes the
    resource manager and returns [False]; and once a session is open it
    always returns a result, and the last two calls it makes are
    [scope.close()] and [rm.close()]. *)
Theorem scpi_capture_raises_only_on_open (w : world)
    (DISPLAY_COLOR resource_str save_path : string) (timeout_ms : Z) (s : state) :
  match scpi_open w resource_str timeout_ms s with
  | (Raise e, s1) =>
      scpi_capture w DISPLAY_COLOR resource_str save_path timeout_ms s = (Raise e, s1)
  | (Ok false, s1) =>
      scpi_capture w DISPLAY_COLOR resource_str save_path timeout_ms s
      = (Ok false, add_log EvRmClose s1)
  | (Ok true, s1) =>
      exists result s3,
        scpi_capture w DISPLAY_COLOR resource_str save_path timeout_ms s
        = (Ok result, session_closed s3)
  end.
Proof.
  unfold scpi_open, scpi_capture, bind.
  destruct (call_unit w EvOpenRm s) as [[u|e] s0]; [|reflexivity].
  destruct (open_first w (suffix_variants resource_str) timeout_ms s0)
    as [[[|]|e] s1]; cbn [negb]; [|reflexivity|reflexivity].
  unfold try_finally, try_except at 1.
  destruct (scpi_capture_body w DISPLAY_COLOR resource_str save_path timeout_ms s1)
    as [[result|e] s3].
  - exists result, s3.
    unfold try_except, scope_close, call_unit, rm_close, note, session_closed.
    destruct (w_unit w (st_log s3) EvScopeClose); reflexivity.
  - exists false, s3.
    unfold ret, try_except, scope_close, call_unit, rm_close, note, session_closed.
    destruct (w_unit w (st_log s3) EvScopeClose); reflexivity.
Qed.

(** X6: when the resource manager opens and every attempt to open the
    resource raises [VisaIOError], [scpi_capture] returns [False] after
    trying the spellings of the resource in order and closing the resource
    manager; it has made no other call: no query, no write, no connection,
    nothing saved. *)
Theorem scpi_capture_nothing_opens (w : world)
    (DISPLAY_COLOR resource_str save_path : string) (timeout_ms : Z) (s : state) :
  (forall l, w_unit w l EvOpenRm = None) ->
  (forall l a, w_unit w l (EvOpenResource a timeout_ms) = Some VisaIOError) ->
  scpi_capture w DISPLAY_COLOR resource_str save_path timeout_ms s
  = (Ok false,
     {| st_seq := st_seq s;
        st_log := List.app (st_log s)
                    (List.app
                       (EvOpenRm :: map (fun a => EvOpenResource a timeout_ms)
                                        (suffix_variants resource_str))
                       [EvRmClose]);
        st_rx := st_rx s |}).
Proof.
  intros Hrm Hopen.
  unfold scpi_capture, bind at 1, call_unit. rewrite Hrm.
  unfold bind at 1. rewrite (open_first_all_fail w timeout_ms _ Hopen).
  cbn [negb]. unfold bind, rm_close, note, ret, add_log.
  cbn [st_seq st_log st_rx]. rewrite <- !app_assoc. reflexivity.
Qed.

Lemma scpi_capture_nothing_opens_witness :
  scpi_capture world_no_visa "WHITE" "USB0::0x05FF::0x1023::12345::INSTR"
    "scope.png" 15000 init_state
  = (Ok false,
     {| st_seq := 0;
        st_log := [ EvOpenRm;
                    EvOpenResource "USB0::0x05FF::0x1023::12345::INSTR" 15000;
                    EvOpenResource "USB0::0x05FF::0x1023::12345::INST" 15000;
                    EvRmClose ];
        st_rx := [] |}).
Proof.
  apply (scpi_capture_nothing_opens world_no_visa "WHITE"
           "USB0::0x05FF::0x1023::12345::INSTR" "scope.png" 15000 init_state);
    reflexivity.
Defined.

(** X7: the two suffix spellings are each other's alternative: for a
    resource that ends in [::INSTR] the second attempt is the same resource
    ending in [::INST], and the other way round; every resource that ends
    in neither is tried once, as it is. *)
Theorem suffix_variants_swap (resource_str : string) :
  (forall base, resource_str = base ++ "::INSTR" ->
     suffix_variants resource_str = [ resource_str; base ++ "::INST" ])
  /\ (forall base, resource_str = base ++ "::INST" ->
        suffix_variants resource_str = [ resource_str; base ++ "::INSTR" ])
  /\ ((forall base, resource_str <> base ++ "::INSTR") ->
      (forall base, resource_str <> base ++ "::INST") ->
      suffix_variants resource_str = [ resource_str ]).
Proof.
  unfold suffix_variants. split; [|split].
  - intros base ->. rewrite endswith_append.
    change (drop_last 5 (base ++ "::INSTR"))
      with (drop_last (String.length "INSTR") (base ++ "::" ++ "INSTR")).
    rewrite (drop_last_append base "::" "INSTR"), append_assoc. reflexivity.
  - intros base ->.
    assert (Hno : endswith (base ++ "::INST") "::INSTR" = false).
    { unfold endswith. rewrite rev_string_append. reflexivity. }
    rewrite Hno, endswith_append.
    change (drop_last 4 (base ++ "::INST"))
      with (drop_last (String.length "INST") (base ++ "::" ++ "INST")).
    rewrite (drop_last_append base "::" "INST"), append_assoc. reflexivity.
  - intros H1 H2.
    destruct (endswith resource_str "::INSTR") eqn:E1.
    { destruct (endswith_inv _ _ E1) as [base Hb]. now destruct (H1 base). }
    destruct (endswith resource_str "::INST") eqn:E2.
    { destruct (endswith_inv _ _ E2) as [base Hb]. now destruct (H2 base). }
    reflexivity.
Qed.

Lemma suffix_variants_swap_witness :
  suffix_variants "TCPIP::10.0.0.5::inst0::INSTR"
  = [ "TCPIP::10.0.0.5::inst0::INSTR"; "TCPIP::10.0.0.5::inst0::INST" ]
  /\ suffix_variants "USB0::0x05FF::0x1023::LCRY0001::INST"
     = [ "USB0::0x05FF::0x1023::LCRY0001::INST";
         "USB0::0x05FF::0x1023::LCRY0001::INSTR" ]
  /\ suffix_variants "TCPIP::10.0.0.5::5025::SOCKET"
     = [ "TCPIP::10.0.0.5::5025::SOCKET" ].
Proof.
  split; [|split].
  - apply (proj1 (suffix_variants_swap "TCPIP::10.0.0.5::inst0::INSTR")
             "TCPIP::10.0.0.5::inst0").
    reflexivity.
  - apply (proj1 (proj2 (suffix_variants_swap "USB0::0x05FF::0x1023::LCRY0001::INST"))
             "USB0::0x05FF::0x1023::LCRY0001").
    reflexivity.
  - apply (proj2 (proj2 (suffix_variants_swap "TCPIP::10.0.0.5::5025::SOCKET"))).
    + intros base Hb.
      apply (f_equal (fun r => endswith r "::INSTR")) in Hb.
      rewrite endswith_append in Hb. discriminate Hb.
    + intros base Hb.
      apply (f_equal (fun r => endswith r "::INST")) in Hb.
      rewrite endswith_append in Hb. discriminate Hb.
Defined.

Lemma build_ethernet_resources_list (ip : string) (port : Z) :
  build_ethernet_resources ip port
  = [ "TCPIP::" ++ ip ++ "::" ++ "inst0::INSTR";
      "TCPIP::" ++ ip ++ "::" ++ "hislip0::INSTR";
      "TCPIP::" ++ ip ++ "::" ++ (py_str_of_int (resolved_port port) ++ "::SOCKET") ].
Proof.
  unfold build_ethernet_resources, resolved_port, Z_in. cbn [existsb].
  destruct (Z.eqb_spec port 0) as [->|H0]; [reflexivity|].
  destruct (Z.eqb_spec port 1861) as [->|H1]; [reflexivity|].
  destruct (Z.eqb_spec port 5025) as [->|H2]; reflexivity.
Qed.

(** X8: every candidate the resolver builds for a host without a colon is
    one that [scpi_capture] takes for a TCPIP resource, and the host its
    LeCroy fallback reads back out of the candidate,
    [resource_str.split("::")[1]], is the host the candidate was built
    for. *)
Theorem candidates_carry_their_host (ip : string) (port : Z) (r : string) :
  no_colon ip = true ->
  In r (build_ethernet_resources ip port) ->
  contains "TCPIP::" (upper r) = true
  /\ py_index (split_dcolon r) 1 = Ok ip.
Proof.
  intros Hn Hin. rewrite build_ethernet_resources_list in Hin.
  cbn [In] in Hin.
  destruct Hin as [<-|[<-|[<-|[]]]];
    (split; [apply tcpip_resource_recognised | now apply split_dcolon_host]).
Qed.

Lemma candidates_carry_their_host_witness :
  contains "TCPIP::" (upper "TCPIP::10.0.0.5::5025::SOCKET") = true
  /\ py_index (split_dcolon "TCPIP::10.0.0.5::5025::SOCKET") 1 = Ok "10.0.0.5".
Proof.
  apply (candidates_carry_their_host "10.0.0.5" 0 "TCPIP::10.0.0.5::5025::SOCKET").
  - reflexivity.
  - right. right. left. reflexivity.
Defined.

(* ================================================================== *)
(** * Further properties of the image finalizer *)

Lemma py_slice_length {A} (l : list A) (a b : Z) :
  0 <= a ->
  (List.length (py_slice l a b) + Z.to_nat (Z.min a (Z.of_nat (List.length l)))
   <= List.length l)%nat.
Proof.
  intros Ha. unfold py_slice.
  set (len := Z.of_nat (List.length l)).
  assert (Hidx : py_slice_index len a = Z.min a len).
  { unfold py_slice_index. destruct (Z.ltb_spec a 0); [lia | reflexivity]. }
  rewrite Hidx.
  rewrite length_firstn, length_skipn. unfold len in *. lia.
Qed.

(** X9: [_strip_ieee_block] either returns its input unchanged or removes
    at least the two bytes ['#'] and the digit that follows: its result is
    never longer than its input. *)
Theorem strip_ieee_block_shortens (data : bytes) :
  _strip_ieee_block data = data
  \/ (List.length (_strip_ieee_block data) + 2 <= List.length data)%nat.
Proof.
  unfold _strip_ieee_block.
  destruct (negb (bytes_eqb data []) && bytes_eqb (py_slice data 0 1) [x23]);
    [|now left].
  destruct data as [|c0 [|c1 rest]]; [now left | now left |].
  cbn [py_index nth_error obind]. unfold py_int_of_char.
  destruct (digit_val c1) as [n|] eqn:Ed; [|now left].
  cbn [obind].
  destruct (py_int_of_bytes (py_slice (c0 :: c1 :: rest) 2 (2 + n))) as [count|e];
    [|now left].
  cbn [obind]. right.
  apply digit_val_range in Ed.
  pose proof (Z_of_byte_range c1).
  pose proof (py_slice_length (c0 :: c1 :: rest) (2 + n) (2 + n + count) ltac:(lia))
    as Hlen.
  cbn [List.length] in *. lia.
Qed.

(* ================================================================== *)
(** * Further properties of the vendor dispatcher *)

Lemma screen_dump_color (DISPLAY_COLOR : string) :
  (if negb (str_in (upper DISPLAY_COLOR) ["WHITE"; "BLACK"])
   then "WHITE" else upper DISPLAY_COLOR)
  = display_color_or_white DISPLAY_COLOR.
Proof.
  unfold display_color_or_white.
  now destruct (str_in (upper DISPLAY_COLOR) ["WHITE"; "BLACK"]).
Qed.

Lemma display_color_idempotent (DISPLAY_COLOR : string) :
  display_color_or_white (display_color_or_white DISPLAY_COLOR)
  = display_color_or_white DISPLAY_COLOR.
Proof.
  destruct (display_color_cases DISPLAY_COLOR) as [H|H]; rewrite H; reflexivity.
Qed.

(** X10: the configured colour matters only through its upper-cased form,
    and only if that is WHITE or BLACK: for every configured colour the
    dispatcher and the native VICP capture behave as with WHITE or as with
    BLACK, and a colour that is neither behaves as WHITE. *)
Theorem display_color_coerced (w : world) (DISPLAY_COLOR : string) :
  (display_color_or_white DISPLAY_COLOR = "WHITE"
   \/ display_color_or_white DISPLAY_COLOR = "BLACK")
  /\ (str_in (upper DISPLAY_COLOR) ["WHITE"; "BLACK"] = false ->
      display_color_or_white DISPLAY_COLOR = "WHITE")
  /\ (forall vendor s,
        _screen_dump w DISPLAY_COLOR vendor s
        = _screen_dump w (display_color_or_white DISPLAY_COLOR) vendor s)
  /\ (forall ip save_path timeout_sec s,
        vicp_capture w DISPLAY_COLOR ip save_path timeout_sec s
        = vicp_capture w (display_color_or_white DISPLAY_COLOR) ip save_path
            timeout_sec s).
Proof.
  split; [apply display_color_cases|]. split.
  { intros H. unfold display_color_or_white. now rewrite H. }
  split.
  - intros vendor s. unfold _screen_dump.
    rewrite !screen_dump_color, display_color_idempotent. reflexivity.
  - intros ip save_path timeout_sec s. unfold vicp_capture.
    rewrite display_color_idempotent. reflexivity.
Qed.

Lemma display_color_coerced_witness :
  display_color_or_white "GREEN" = "WHITE"
  /\ display_color_or_white "black" = "BLACK".
Proof.
  split.
  - apply (proj1 (proj2 (display_color_coerced quiet_world "GREEN"))). reflexivity.
  - reflexivity.
Defined.

Lemma detect_vendor_cases (idn : string) :
  detect_vendor idn = "LECROY" \/ detect_vendor idn = "TEKTRONIX"
  \/ detect_vendor idn = "KEYSIGHT" \/ detect_vendor idn = "RIGOL"
  \/ detect_vendor idn = "SIGLENT" \/ detect_vendor idn = "RNS"
  \/ detect_vendor idn = "UNKNOWN".
Proof.
  unfold detect_vendor. generalize (upper idn) as u. intros u.
  repeat
    (match goal with
     | |- context [contains ?a u] => destruct (contains a u)
     end; cbn [orb]);
    tauto.
Qed.

(** X11: how the dispatcher treats the tags [detect_vendor] gives: LECROY,
    TEKTRONIX and KEYSIGHT each have their method, RIGOL and SIGLENT share
    one, and a Rohde & Schwarz identity (tag RNS) is treated like an unknown
    one: all four methods are tried in turn. *)
Theorem screen_dump_of_detected_vendor (w : world) (DISPLAY_COLOR idn : string)
    (s : state) :
  let color := display_color_or_white DISPLAY_COLOR in
  let run := _screen_dump w DISPLAY_COLOR (detect_vendor idn) s in
  (detect_vendor idn = "LECROY"
   /\ run = (data <- _dump_lecroy w color ;; ret (Some data)) s)
  \/ (detect_vendor idn = "TEKTRONIX"
      /\ run = (data <- _dump_tektronix w color ;; ret (Some data)) s)
  \/ (detect_vendor idn = "KEYSIGHT"
      /\ run = (data <- _dump_keysight w color ;; ret (Some data)) s)
  \/ ((detect_vendor idn = "RIGOL" \/ detect_vendor idn = "SIGLENT")
      /\ run = (data <- _dump_rigol w color ;; ret (Some data)) s)
  \/ ((detect_vendor idn = "RNS" \/ detect_vendor idn = "UNKNOWN")
      /\ run = try_methods
                 [ _dump_keysight w; _dump_rigol w; _dump_lecroy w; _dump_tektronix w ]
                 color s).
Proof.
  cbv zeta. unfold _screen_dump. rewrite screen_dump_color.
  destruct (detect_vendor_cases idn) as [H|[H|[H|[H|[H|[H|H]]]]]]; rewrite H.
  - left. split; reflexivity.
  - right. left. split; reflexivity.
  - right. right. left. split; reflexivity.
  - right. right. right. left. split; [now left | reflexivity].
  - right. right. right. left. split; [now right | reflexivity].
  - right. right. right. right. split; [now left | reflexivity].
  - right. right. right. right. split; [now right | reflexivity].
Qed.

(** X12: when [_dump_rigol] returns, it has either read once, got at least
    10 bytes and returned them, or read once, got fewer than 10 bytes (or
    none), sent the plain [:DISP:DATA?] query and returned what the second
    read gave, whatever its length. *)
Theorem dump_rigol_falls_back (w : world) (color : string) (s : state)
    (d : bytes) (s' : state) :
  _dump_rigol w color s = (Ok d, s') ->
  let query := ":DISP:DATA? ON," ++ (if String.eqb color "WHITE" then "OFF" else "ON")
               ++ ",PNG" in
  let first_read := [ EvWrite query; EvSleep 500; EvSetReadTermination None ] in
  let retry := [ EvReadRaw; EvWrite ":DISP:DATA?"; EvSleep 500 ] in
  (st_log s' = List.app (st_log s) (List.app first_read [EvReadRaw])
   /\ w_bytes w (List.app (st_log s) first_read) EvReadRaw = Ok d
   /\ 10 <= Z.of_nat (List.length d))
  \/ (st_log s'
      = List.app (st_log s) (List.app first_read (List.app retry [EvReadRaw]))
      /\ (exists first,
            w_bytes w (List.app (st_log s) first_read) EvReadRaw = Ok first
            /\ Z.of_nat (List.length first) < 10)
      /\ w_bytes w (List.app (st_log s) (List.app first_read retry)) EvReadRaw
         = Ok d).
Proof.
  intros H. cbv zeta.
  unfold _dump_rigol, bind, scope_write, call_unit, sleep, note,
    scope_set_read_termination, call_unit, scope_read_raw, call_bytes in H.
  unfold add_log in H. cbn [st_log st_seq st_rx] in H.
  rewrite <- !app_assoc in H. cbn [List.app] in H.
  set (query := ":DISP:DATA? ON," ++ (if String.eqb color "WHITE" then "OFF" else "ON")
                ++ ",PNG") in *.
  destruct (w_unit w (st_log s) (EvWrite query)); cbv beta iota in H;
    [discriminate H|].
  destruct (w_unit w (List.app (st_log s) [EvWrite query; EvSleep 500])
              (EvSetReadTermination None)); cbv beta iota in H; [discriminate H|].
  destruct (w_bytes w
              (List.app (st_log s)
                 [EvWrite query; EvSleep 500; EvSetReadTermination None]) EvReadRaw)
    as [first|e] eqn:Efirst; cbv beta iota in H; [|discriminate H].
  destruct (negb (nonempty first) || (Z.of_nat (List.length first) <? 10)) eqn:Esmall;
    cbv beta iota in H.
  - right.
    cbn [st_log st_seq st_rx] in H. rewrite <- !app_assoc in H. cbn [List.app] in H.
    destruct (w_unit w
                (List.app (st_log s)
                   [EvWrite query; EvSleep 500; EvSetReadTermination None; EvReadRaw])
                (EvWrite ":DISP:DATA?")); cbv beta iota in H; [discriminate H|].
    destruct (w_bytes w
                (List.app (st_log s)
                   [EvWrite query; EvSleep 500; EvSetReadTermination None; EvReadRaw;
                    EvWrite ":DISP:DATA?"; EvSleep 500]) EvReadRaw)
      as [second|e] eqn:Esecond; cbv beta iota in H; [|discriminate H].
    unfold ret in H. inversion H; subst. cbn [st_log List.app].
    split; [reflexivity|]. split; [|first [reflexivity | exact Esecond]].
    exists first. split; [reflexivity|].
    apply orb_true_iff in Esmall. destruct Esmall as [Hn|Hl].
    + unfold nonempty in Hn. apply negb_true_iff, negb_false_iff in Hn.
      apply bytes_eqb_nil in Hn. subst first. cbn. lia.
    + now apply Z.ltb_lt in Hl.
  - left. unfold ret in H. inversion H; subst. cbn [st_log List.app].
    split; [reflexivity|]. split; [first [reflexivity | exact Efirst]|].
    apply orb_false_iff in Esmall. destruct Esmall as [_ Hl].
    now apply Z.ltb_ge in Hl.
Qed.

(* ================================================================== *)
(** * Further properties of the raw-socket captures *)

Ltac send_step :=
  match goal with
  | |- context [_vicp_send ?w ?c ?st] =>
      rewrite (vicp_send_run w c st) by (reflexivity || (cbn; lia))
  end.

Ltac normal_log :=
  unfold connected_state, session_closed, sock_close, note, ret;
  unfold add_log, set_rx;
  cbn [st_log st_seq st_rx fst snd];
  rewrite <- ?app_assoc; cbn [List.app].

Ltac closed_leaf :=
  do 3 eexists; split; [reflexivity|];
  split; [normal_log; reflexivity|];
  split; [reflexivity|];
  try (intros Hf; discriminate Hf).

Lemma vicp_capture_connected_run (w : world) (DISPLAY_COLOR ip save_path : string)
    (timeout_sec : Z) (s : state) (rxs : sock) :
  w_conn w (st_log s) (EvConnect ip 1861 timeout_sec) = Ok rxs ->
  exists r s' evs,
    vicp_capture w DISPLAY_COLOR ip save_path timeout_sec s = (r, s')
    /\ st_log s' = List.app (st_log s) evs
    /\ socket_discipline evs = true
    /\ (r = Ok true -> exists d, In (EvSaveImage d save_path) evs).
Proof.
  intros Hconn.
  unfold vicp_capture, bind at 1, try_except_only, bind at 1, create_connection.
  rewrite Hconn. unfold bind at 1, note at 1, ret at 1. cbn [negb].
  unfold bind at 1, try_finally, try_except, vicp_capture_body, bind at 1.
  send_step.
  match goal with
  | |- context [w_unit w ?l (EvSendall ?d)] => destruct (w_unit w l (EvSendall d))
  end; [closed_leaf|].
  unfold bind at 1, sleep at 1, note at 1, bind at 1, on_sock at 1.
  cbn [st_rx add_log set_rx].
  destruct (_vicp_recv rxs) as [idn_raw sk].
  destruct (String.eqb (detect_vendor (strip (decode_ascii_replace idn_raw))) "LECROY");
    cbn [negb]; [|closed_leaf].
  unfold bind at 1.
  destruct (display_color_cases DISPLAY_COLOR) as [Hc|Hc]; rewrite Hc;
    (send_step;
     match goal with
     | |- context [w_unit w ?l (EvSendall ?d)] => destruct (w_unit w l (EvSendall d))
     end; [closed_leaf|];
     unfold bind at 1, sleep at 1, note at 1, bind at 1;
     send_step;
     match goal with
     | |- context [w_unit w ?l (EvSendall (vicp_frame ?q "SCREEN_DUMP"))] =>
         destruct (w_unit w l (EvSendall (vicp_frame q "SCREEN_DUMP")))
     end; [closed_leaf|];
     unfold bind at 1, sleep at 1, note at 1, bind at 1, on_sock at 1;
     cbn [st_rx add_log set_rx];
     destruct (_vicp_recv sk) as [image_data sk2];
     unfold ret at 1; cbv beta iota;
     unfold sock_close at 1, note at 1;
     destruct (too_small image_data); [closed_leaf|];
     unfold bind at 1, _save_image, call_unit;
     match goal with
     | |- context [w_unit w ?l (EvSaveImage ?d ?p)] =>
         destruct (w_unit w l (EvSaveImage d p))
     end;
     [closed_leaf
     |do 3 eexists; split; [reflexivity|];
      split; [normal_log; reflexivity|];
      split; [reflexivity|];
      intros _; eexists; cbn [In]; do 9 right; left; reflexivity]).
Qed.

(** X13: in both raw-socket captures, once the connection to port 1861 is
    made, the socket is closed exactly once on every path, also when a send
    or the capture raises; while it is open only sends and sleeps happen;
    after the close nothing happens but, in [vicp_capture], the saving of
    the image, and [vicp_capture] returns [True] only after a save.  When
    the connection is refused nothing is closed and nothing else is
    called: [vicp_capture] returns [False] for an [OSError], and
    [_dump_lecroy_vicp_raw] raises. *)
Theorem raw_socket_closed_once (w : world) (DISPLAY_COLOR ip save_path : string)
    (timeout_sec : Z) (s : state) :
  match w_conn w (st_log s) (EvConnect ip 1861 timeout_sec) with
  | Raise e =>
      vicp_capture w DISPLAY_COLOR ip save_path timeout_sec s
      = (if is_OSError e then Ok false else Raise e,
         add_log (EvConnect ip 1861 timeout_sec) s)
      /\ _dump_lecroy_vicp_raw w ip (display_color_or_white DISPLAY_COLOR)
           timeout_sec s
         = (Raise e, add_log (EvConnect ip 1861 timeout_sec) s)
  | Ok rxs =>
      (exists r s' evs,
         vicp_capture w DISPLAY_COLOR ip save_path timeout_sec s = (r, s')
         /\ st_log s' = List.app (st_log s) evs
         /\ socket_discipline evs = true
         /\ (r = Ok true -> exists d, In (EvSaveImage d save_path) evs))
      /\ (exists r s' evs,
            _dump_lecroy_vicp_raw w ip (display_color_or_white DISPLAY_COLOR)
              timeout_sec s = (r, s')
            /\ st_log s' = List.app (st_log s) evs
            /\ socket_discipline evs = true)
  end.
Proof.
  pose proof (dump_lecroy_vicp_raw_run w ip (display_color_or_white DISPLAY_COLOR)
                timeout_sec s (display_color_cases DISPLAY_COLOR)) as Hraw.
  destruct (w_conn w (st_log s) (EvConnect ip 1861 timeout_sec)) as [rxs|e] eqn:Hconn.
  - split; [now apply vicp_capture_connected_run with (rxs := rxs)|].
    rewrite Hraw. cbv zeta.
    repeat match goal with
           | |- context [match w_unit w ?l ?ev with _ => _ end] =>
               destruct (w_unit w l ev)
           end;
      (do 3 eexists; split; [reflexivity|];
       split; [normal_log; reflexivity | reflexivity]).
  - split; [|exact Hraw].
    unfold vicp_capture, bind at 1, try_except_only, bind at 1, create_connection.
    rewrite Hconn. destruct (is_OSError e); reflexivity.
Qed.

(** X14: on its LeCroy fallback path, that is when a LeCroy returned too
    little over a resource whose string contains [TCPIP::] in any letter
    case, [scpi_capture] closes the session and the resource manager
    twice: once before the raw socket is connected and once more as its
    last two calls; between the two, whatever the raw capture did, neither
    is closed. *)
Theorem lecroy_fallback_closes_twice (w : world)
    (DISPLAY_COLOR resource_str save_path : string) (timeout_ms : Z)
    (s s1 s2 : state) (image_data : option bytes) :
  scpi_open w resource_str timeout_ms s = (Ok true, s1) ->
  scpi_acquire w DISPLAY_COLOR timeout_ms s1 = (Ok ("LECROY", image_data), s2) ->
  too_small_opt image_data = true ->
  contains "TCPIP::" (upper resource_str) = true ->
  exists ip raw_events,
    py_index (split_dcolon resource_str) 1 = Ok ip
    /\ st_log (snd (scpi_capture w DISPLAY_COLOR resource_str save_path
                      timeout_ms s))
       = List.app (st_log s2)
           (List.app [EvScopeClose; EvRmClose]
              (List.app (EvConnect ip 1861 (timeout_ms / 1000) :: raw_events)
                 [EvScopeClose; EvRmClose]))
    /\ filter is_scope_close raw_events = []
    /\ filter is_rm_close raw_events = [].
Proof.
  intros Hopen Hacq Hsmall Hyes.
  destruct (tcpip_second_field resource_str Hyes) as [ip Hip].
  exists ip.
  rewrite (scpi_capture_after_acquire _ _ _ _ _ _ _ _ _ _ Hopen Hacq).
  unfold validate_and_save. rewrite Hsmall, Hyes.
  change (String.eqb "LECROY" "LECROY") with true. cbn [andb snd].
  rewrite (lecroy_fallback_run w DISPLAY_COLOR resource_str ip save_path
             timeout_ms s2 Hip).
  rewrite (dump_lecroy_vicp_raw_run w ip (display_color_or_white DISPLAY_COLOR)
             (timeout_ms / 1000) (session_closed s2)
             (display_color_cases DISPLAY_COLOR)).
  cbv zeta.
  set (t := timeout_ms / 1000).
  set (f1 := vicp_frame (next_seq (st_seq (session_closed s2)))
               (hcsu_command (display_color_or_white DISPLAY_COLOR))).
  set (f2 := vicp_frame (next_seq (next_seq (st_seq (session_closed s2))))
               "SCREEN_DUMP").
  destruct (w_conn w (st_log (session_closed s2)) (EvConnect ip 1861 t)) as [rxs|e].
  - set (received := [ EvSettimeout t; EvSendall f1; EvSleep 500; EvSendall f2;
                       EvSleep 4000; EvSockClose ]).
    repeat match goal with
           | |- context [match w_unit w ?l (EvSendall ?d) with _ => _ end] =>
               destruct (w_unit w l (EvSendall d))
           end;
      try (destruct (100 <=? Z.of_nat (List.length (fst (_vicp_recv rxs)))));
      first
        [ exists [ EvSettimeout t; EvSendall f1; EvSockClose ];
          split; [exact Hip|];
          split; [unfold session_closed; normal_log; reflexivity | split; reflexivity]
        | exists [ EvSettimeout t; EvSendall f1; EvSleep 500; EvSendall f2;
                   EvSockClose ];
          split; [exact Hip|];
          split; [unfold session_closed; normal_log; reflexivity | split; reflexivity]
        | exists received;
          split; [exact Hip|];
          split; [unfold session_closed; normal_log; reflexivity | split; reflexivity]
        | exists (List.app received
                    [ EvSaveImage (_strip_ieee_block (fst (_vicp_recv rxs)))
                        save_path ]);
          split; [exact Hip|];
          split; [unfold session_closed; normal_log; reflexivity | split; reflexivity] ].
  - exists []. split; [exact Hip|].
    split; [unfold session_closed; normal_log; reflexivity | split; reflexivity].
Qed.

Lemma lecroy_fallback_closes_twice_witness :
  exists ip raw_events,
    py_index (split_dcolon "tcpip::10.0.0.5::inst0::INSTR") 1 = Ok ip
    /\ st_log (snd (scpi_capture (world_lecroy_visa 120 false false) "WHITE"
                      "tcpip::10.0.0.5::inst0::INSTR" "scope.png" 15000
                      init_state))
       = List.app (st_log (after_acquire (world_lecroy_visa 120 false false)
                             "tcpip::10.0.0.5::inst0::INSTR"))
           (List.app [EvScopeClose; EvRmClose]
              (List.app (EvConnect ip 1861 (15000 / 1000) :: raw_events)
                 [EvScopeClose; EvRmClose]))
    /\ filter is_scope_close raw_events = []
    /\ filter is_rm_close raw_events = [].
Proof.
  apply (lecroy_fallback_closes_twice (world_lecroy_visa 120 false false)
           "WHITE" "tcpip::10.0.0.5::inst0::INSTR" "scope.png" 15000 init_state
           (snd (scpi_open (world_lecroy_visa 120 false false)
                   "tcpip::10.0.0.5::inst0::INSTR" 15000 init_state))
           (after_acquire (world_lecroy_visa 120 false false)
              "tcpip::10.0.0.5::inst0::INSTR")
           (Some (repeat x42 40))); reflexivity.
Defined.

Lemma dump_rigol_falls_back_witness :
  (st_log (snd (_dump_rigol world_rigol_retry "WHITE" init_state))
   = List.app (st_log init_state)
       (List.app [ EvWrite ":DISP:DATA? ON,OFF,PNG"; EvSleep 500;
                   EvSetReadTermination None ] [EvReadRaw])
   /\ w_bytes world_rigol_retry
        (List.app (st_log init_state)
           [ EvWrite ":DISP:DATA? ON,OFF,PNG"; EvSleep 500;
             EvSetReadTermination None ]) EvReadRaw = Ok (repeat x43 3)
   /\ 10 <= Z.of_nat (List.length (repeat x43 3)))
  \/ (st_log (snd (_dump_rigol world_rigol_retry "WHITE" init_state))
      = List.app (st_log init_state)
          (List.app [ EvWrite ":DISP:DATA? ON,OFF,PNG"; EvSleep 500;
                      EvSetReadTermination None ]
             (List.app [EvReadRaw; EvWrite ":DISP:DATA?"; EvSleep 500] [EvReadRaw]))
      /\ (exists first,
            w_bytes world_rigol_retry
              (List.app (st_log init_state)
                 [ EvWrite ":DISP:DATA? ON,OFF,PNG"; EvSleep 500;
                   EvSetReadTermination None ]) EvReadRaw = Ok first
            /\ Z.of_nat (List.length first) < 10)
      /\ w_bytes world_rigol_retry
           (List.app (st_log init_state)
              (List.app [ EvWrite ":DISP:DATA? ON,OFF,PNG"; EvSleep 500;
                          EvSetReadTermination None ]
                 [EvReadRaw; EvWrite ":DISP:DATA?"; EvSleep 500])) EvReadRaw
         = Ok (repeat x43 3)).
Proof.
  apply (dump_rigol_falls_back world_rigol_retry "WHITE" init_state (repeat x43 3)
           (snd (_dump_rigol world_rigol_retry "WHITE" init_state))).
  reflexivity.
Defined.

(* ================================================================== *)
(** * Properties of the device resolver *)

Lemma str_in_In (x : string) (l : list string) : str_in x l = true <-> In x l.
Proof.
  unfold str_in. rewrite existsb_exists. split.
  - intros (y & Hy & E). apply String.eqb_eq in E. now subst.
  - intros H. exists x. split; [exact H | apply String.eqb_refl].
Qed.

Lemma dedup_extend_head (found : list string) :
  forall x resources, exists tl, dedup_extend (x :: resources) found = x :: tl.
Proof.
  induction found as [|r found IH]; intros x resources; cbn [dedup_extend].
  - now exists resources.
  - destruct (negb (str_in r (x :: resources))); [|apply IH].
    change (List.app (x :: resources) [r]) with (x :: List.app resources [r]).
    apply IH.
Qed.

Lemma dedup_extend_NoDup (found : list string) :
  forall resources, NoDup resources -> NoDup (dedup_extend resources found).
Proof.
  induction found as [|r found IH]; intros resources Hnd; cbn [dedup_extend];
    [exact Hnd|].
  destruct (str_in r resources) eqn:E; cbn [negb]; [now apply IH|].
  apply IH. apply NoDup_app; [exact Hnd | repeat constructor; intros [] |].
  intros x Hx [<-|[]]. apply str_in_In in Hx. congruence.
Qed.

Lemma dedup_extend_from_nil (found : list string) :
  match found with
  | [] => dedup_extend [] found = []
  | r :: _ => exists tl, dedup_extend [] found = r :: tl
  end.
Proof.
  destruct found as [|r found]; [reflexivity|].
  cbn [dedup_extend str_in existsb negb List.app]. apply dedup_extend_head.
Qed.

Lemma dedup_extend_subset (found : list string) :
  forall resources r,
    In r (dedup_extend resources found) -> In r resources \/ In r found.
Proof.
  induction found as [|x found IH]; intros resources r Hin;
    cbn [dedup_extend] in Hin; [now left|].
  destruct (negb (str_in x resources)).
  - apply IH in Hin. destruct Hin as [Hin|Hin]; [|right; now right].
    apply in_app_or in Hin. destruct Hin as [Hin|[<-|[]]];
      [now left | right; now left].
  - apply IH in Hin. destruct Hin as [Hin|Hin]; [now left | right; now right].
Qed.

Lemma find_usb_loop_step (list_resources : string -> outcome (list string))
    (pattern : string) (rest : list string) :
  find_usb_loop list_resources (pattern :: rest) []
  = match list_resources pattern with
    | Ok (r :: found) => dedup_extend [] (r :: found)
    | _ => find_usb_loop list_resources rest []
    end.
Proof.
  cbn [find_usb_loop].
  destruct (list_resources pattern) as [[|r found]|e]; try reflexivity.
  destruct (dedup_extend_from_nil (r :: found)) as (tl & ->). reflexivity.
Qed.

(** X15: [find_usb_resource] returns the first resource that the first
    pattern with any match lists, the patterns taken in the order
    [USB?*::INSTR], [USB?*::INST], [USB?*]; a pattern whose listing raises
    counts as one without a match; matches of later patterns are never
    mixed in; it returns [None] exactly when no pattern has a match.  The
    list of resources it reports has no duplicates. *)
Theorem find_usb_resource_first_match
    (list_resources : string -> outcome (list string)) :
  find_usb_resource list_resources
  = match list_resources "USB?*::INSTR" with
    | Ok (r :: _) => Some r
    | _ =>
        match list_resources "USB?*::INST" with
        | Ok (r :: _) => Some r
        | _ =>
            match list_resources "USB?*" with
            | Ok (r :: _) => Some r
            | _ => None
            end
        end
    end
  /\ NoDup (find_usb_resources list_resources)
  /\ (forall r, In r (find_usb_resources list_resources) ->
        exists pattern found,
          In pattern usb_patterns /\ list_resources pattern = Ok found /\ In r found).
Proof.
  unfold find_usb_resource, find_usb_resources, usb_patterns.
  rewrite !find_usb_loop_step. cbn [find_usb_loop].
  assert (Hfound : forall pattern r found,
             In pattern usb_patterns ->
             list_resources pattern = Ok (r :: found) ->
             (if negb (list_nonempty (dedup_extend [] (r :: found))) then None
              else match dedup_extend [] (r :: found) with
                   | x :: _ => Some x
                   | [] => None
                   end) = Some r
             /\ NoDup (dedup_extend [] (r :: found))
             /\ (forall x, In x (dedup_extend [] (r :: found)) ->
                   exists pattern found,
                     In pattern usb_patterns /\ list_resources pattern = Ok found
                     /\ In x found)).
  { intros pattern r found Hp E.
    split; [|split].
    - destruct (dedup_extend_from_nil (r :: found)) as (tl & ->). reflexivity.
    - apply dedup_extend_NoDup. constructor.
    - intros x Hx. apply dedup_extend_subset in Hx. destruct Hx as [[]|Hx].
      now exists pattern, (r :: found). }
  assert (Hnone : (if negb (@list_nonempty string []) then None
                   else match @nil string with x :: _ => Some x | [] => None end)
                  = None
                  /\ NoDup (@nil string)
                  /\ (forall x, In x (@nil string) ->
                        exists pattern found,
                          In pattern usb_patterns /\ list_resources pattern = Ok found
                          /\ In x found)).
  { split; [reflexivity|]. split; [constructor | intros x []]. }
  destruct (list_resources "USB?*::INSTR") as [[|r1 f1]|e1] eqn:E1;
    try (apply (Hfound "USB?*::INSTR" r1 f1); [cbn; tauto | exact E1]);
    (destruct (list_resources "USB?*::INST") as [[|r2 f2]|e2] eqn:E2;
     try (apply (Hfound "USB?*::INST" r2 f2); [cbn; tauto | exact E2]);
     (destruct (list_resources "USB?*") as [[|r3 f3]|e3] eqn:E3;
      try (apply (Hfound "USB?*" r3 f3); [cbn; tauto | exact E3]);
      exact Hnone)).
Qed.

Lemma find_usb_resource_first_match_witness :
  find_usb_resource lecroy_ivi_resources = Some "USB0::0x05FF::0x1023::12345::INST"
  /\ find_usb_resources lecroy_ivi_resources
     = [ "USB0::0x05FF::0x1023::12345::INST"; "USB0::0x05FF::0x1023::67890::INST" ].
Proof.
  split; [|reflexivity].
  rewrite (proj1 (find_usb_resource_first_match lecroy_ivi_resources)). reflexivity.
Defined.

(* ================================================================== *)
(** * Properties of the scanner *)

(** X16: the scanner's [detect_vendor] returns the empty label exactly for
    the empty identity, so a non-empty identity always gets a label; it
    agrees with the capture script on what is a LeCroy, and every identity
    the capture script takes for a Rigol or a Siglent gets the same vendor
    from the scanner. *)
Theorem scanner_detect_vendor_labels (idn : string) :
  (Scanner.detect_vendor idn = "" <-> idn = "")
  /\ (Scanner.detect_vendor idn = "LeCroy / Teledyne" <-> detect_vendor idn = "LECROY")
  /\ (detect_vendor idn = "RIGOL" -> Scanner.detect_vendor idn = "Rigol")
  /\ (detect_vendor idn = "SIGLENT" -> Scanner.detect_vendor idn = "Siglent").
Proof.
  split.
  { split.
    - unfold Scanner.detect_vendor. generalize (upper idn) as u. intros u.
      repeat
        (match goal with
         | |- context [contains ?a u] => destruct (contains a u)
         end; cbn [orb]); try (intros H; discriminate H).
      destruct (String.eqb_spec idn ""); cbn [negb]; [auto | intros H; discriminate H].
    - intros ->. reflexivity. }
  unfold Scanner.detect_vendor, detect_vendor. generalize (upper idn) as u. intros u.
  destruct (String.eqb idn ""); cbn [negb];
    repeat
      (match goal with
       | |- context [contains ?a u] => destruct (contains a u)
       end; cbn [orb]);
    (split; [split; intros H; (reflexivity || discriminate H)|]);
    (split; intros H; (reflexivity || discriminate H)).
Qed.

Lemma scanner_detect_vendor_labels_witness :
  Scanner.detect_vendor "RIGOL TECHNOLOGIES,DS1054Z,DS1ZA0,00.04.04" = "Rigol".
Proof.
  apply (proj1 (proj2 (proj2 (scanner_detect_vendor_labels
                                "RIGOL TECHNOLOGIES,DS1054Z,DS1ZA0,00.04.04")))).
  reflexivity.
Defined.

Lemma set_rx_same (s : state) : set_rx (st_rx s) s = s.
Proof. destruct s; reflexivity. Qed.

Lemma query_idn_loop_partial (pre : list bytes) :
  Forall partial_line pre ->
  forall chunks k s rest,
    st_rx s = List.app (map RxData pre) rest ->
    Scanner.query_idn_loop (List.length pre + k) chunks s
    = Scanner.query_idn_loop k (List.app chunks pre) (set_rx rest s).
Proof.
  induction pre as [|c pre IH]; intros Hp chunks k s rest Hrx.
  - cbn [map List.app List.length Nat.add] in *.
    now rewrite app_nil_r, <- Hrx, set_rx_same.
  - inversion Hp as [|? ? (Hne & Hlen & Hnl) Hp']; subst.
    cbn [map List.app List.length Nat.add Scanner.query_idn_loop] in *.
    rewrite Hrx. cbn [sock_recv].
    destruct (Nat.leb_spec (List.length c) 4096); [|lia].
    rewrite (bytes_eqb_nil_false c Hne), Hnl.
    rewrite (IH Hp' (List.app chunks [c]) k
               (set_rx (List.app (map RxData pre) rest) s) rest eq_refl).
    now rewrite <- app_assoc.
Qed.

Lemma query_idn_connected (w : world) (ip : string) (port timeout : Z) (s : state)
    (rxs : sock) :
  w_conn w (st_log s) (EvConnect ip port timeout) = Ok rxs ->
  (forall l, w_unit w l (EvSendall (ascii_bytes ("*IDN?" ++ newline))) = None) ->
  forall pre rest k,
    Forall partial_line pre ->
    rxs = List.app (map RxData pre) rest ->
    S (rx_size rxs + List.length rxs) = (List.length pre + S k)%nat ->
    exists s1,
      st_rx s1 = rxs
      /\ Scanner.query_idn w ip port timeout s
         = match Scanner.query_idn_loop (S k) pre (set_rx rest s1) with
           | (Ok chunks, s2) =>
               (Ok (strip (decode_ascii_replace (List.concat chunks))),
                add_log EvSockClose s2)
           | (Raise _, s2) => (Ok "", add_log EvSockClose s2)
           end.
Proof.
  intros Hconn Hsend pre rest k Hp Hrxs Hfuel.
  exists (add_log (EvSleep 200)
            (add_log (EvSendall (ascii_bytes ("*IDN?" ++ newline)))
               (add_log (EvSettimeout timeout)
                  (set_rx rxs (add_log (EvConnect ip port timeout) s))))).
  split; [reflexivity|].
  unfold Scanner.query_idn, try_except, bind at 1, create_connection.
  rewrite Hconn. unfold try_finally, bind at 1, note at 1.
  unfold bind at 1, sendall, call_unit. rewrite Hsend.
  unfold bind at 1, sleep, note at 1. unfold bind at 1.
  match goal with
  | |- context [Scanner.query_idn_loop _ [] ?st] =>
      change (st_rx st) with rxs;
      rewrite Hfuel;
      rewrite (query_idn_loop_partial pre Hp [] (S k) st rest Hrxs)
  end.
  cbn [List.app].
  match goal with
  | |- context [Scanner.query_idn_loop (S k) pre ?st] =>
      destruct (Scanner.query_idn_loop (S k) pre st) as [[chunks|e] s2]
  end; reflexivity.
Qed.

(** X17: [query_idn], once connected and with [*IDN?] sent: it reads until
    the first chunk that holds a newline and returns the text received up
    to and including that chunk, decoded and stripped, leaving what follows
    unread; when the peer closes or a read times out before a newline it
    returns the text received so far; when a read fails in any other way it
    returns the empty string and what was received is dropped. *)
Theorem query_idn_reads_one_line (w : world) (ip : string) (port timeout : Z)
    (s : state) (rxs : sock) (pre : list bytes) :
  w_conn w (st_log s) (EvConnect ip port timeout) = Ok rxs ->
  (forall l, w_unit w l (EvSendall (ascii_bytes ("*IDN?" ++ newline))) = None) ->
  Forall partial_line pre ->
  (forall last rest,
     rxs = List.app (map RxData pre) (RxData last :: rest) ->
     last <> [] -> (List.length last <= 4096)%nat -> Scanner.has_newline last = true ->
     fst (Scanner.query_idn w ip port timeout s)
     = Ok (strip (decode_ascii_replace (List.concat (List.app pre [last]))))
     /\ st_rx (snd (Scanner.query_idn w ip port timeout s)) = rest)
  /\ (rxs = map RxData pre ->
      fst (Scanner.query_idn w ip port timeout s)
      = Ok (strip (decode_ascii_replace (List.concat pre))))
  /\ (forall rest,
        rxs = List.app (map RxData pre) (RxRaise SocketTimeout :: rest) ->
        fst (Scanner.query_idn w ip port timeout s)
        = Ok (strip (decode_ascii_replace (List.concat pre))))
  /\ (forall e rest,
        e <> SocketTimeout ->
        rxs = List.app (map RxData pre) (RxRaise e :: rest) ->
        fst (Scanner.query_idn w ip port timeout s) = Ok "").
Proof.
  intros Hconn Hsend Hp.
  assert (Hk : forall rest,
             rxs = List.app (map RxData pre) rest ->
             exists k, S (rx_size rxs + List.length rxs) = (List.length pre + S k)%nat).
  { intros rest ->. exists (rx_size (List.app (map RxData pre) rest)
                            + List.length rest)%nat.
    rewrite length_app, length_map. lia. }
  split; [|split; [|split]].
  - intros last rest Hrxs Hne Hlen Hnl.
    destruct (Hk _ Hrxs) as (k & Hfuel).
    destruct (query_idn_connected w ip port timeout s rxs Hconn Hsend pre _ k Hp
                Hrxs Hfuel) as (s1 & _ & ->).
    cbn [Scanner.query_idn_loop st_rx set_rx sock_recv].
    destruct (Nat.leb_spec (List.length last) 4096); [|lia].
    rewrite (bytes_eqb_nil_false last Hne), Hnl. split; reflexivity.
  - intros Hrxs. rewrite <- (app_nil_r (map RxData pre)) in Hrxs.
    destruct (Hk _ Hrxs) as (k & Hfuel).
    destruct (query_idn_connected w ip port timeout s rxs Hconn Hsend pre _ k Hp
                Hrxs Hfuel) as (s1 & _ & ->).
    reflexivity.
  - intros rest Hrxs.
    destruct (Hk _ Hrxs) as (k & Hfuel).
    destruct (query_idn_connected w ip port timeout s rxs Hconn Hsend pre _ k Hp
                Hrxs Hfuel) as (s1 & _ & ->).
    reflexivity.
  - intros e rest He Hrxs.
    destruct (Hk _ Hrxs) as (k & Hfuel).
    destruct (query_idn_connected w ip port timeout s rxs Hconn Hsend pre _ k Hp
                Hrxs Hfuel) as (s1 & _ & ->).
    cbn [Scanner.query_idn_loop st_rx set_rx sock_recv].
    destruct e; try reflexivity. contradiction.
Qed.

Lemma query_idn_reads_one_line_witness :
  (fst (Scanner.query_idn world_two_chunks "10.0.0.5" 5025 3 init_state)
   = Ok "ACME,Model1,SN1,FW1"
   /\ st_rx (snd (Scanner.query_idn world_two_chunks "10.0.0.5" 5025 3 init_state))
      = [RxData (ascii_bytes "more")])
  /\ fst (Scanner.query_idn world_reset "10.0.0.5" 5025 3 init_state) = Ok "".
Proof.
  assert (Hp : Forall partial_line [ascii_bytes "ACME,Mod"]).
  { constructor; [|constructor].
    unfold partial_line. split; [discriminate|]. split; [cbn; lia | reflexivity]. }
  split.
  - destruct (query_idn_reads_one_line world_two_chunks "10.0.0.5" 5025 3 init_state
                [ RxData (ascii_bytes "ACME,Mod");
                  RxData (ascii_bytes ("el1,SN1,FW1" ++ newline));
                  RxData (ascii_bytes "more") ]
                [ascii_bytes "ACME,Mod"]) as (Hline & _);
      [reflexivity | reflexivity | exact Hp |].
    apply (Hline (ascii_bytes ("el1,SN1,FW1" ++ newline)) [RxData (ascii_bytes "more")]);
      [reflexivity | discriminate | cbn; lia | reflexivity].
  - destruct (query_idn_reads_one_line world_reset "10.0.0.5" 5025 3 init_state
                [ RxData (ascii_bytes "ACME,Mod"); RxRaise ConnectionError ]
                [ascii_bytes "ACME,Mod"]) as (_ & _ & _ & Herr);
      [reflexivity | reflexivity | exact Hp |].
    apply (Herr ConnectionError []); [discriminate | reflexivity].
Defined.

(** The bound on the loop of [query_idn] is never what ends it. *)
Lemma query_idn_loop_fuel (fuel1 : nat) :
  forall fuel2 chunks s,
    (rx_size (st_rx s) + List.length (st_rx s) < fuel1)%nat ->
    (rx_size (st_rx s) + List.length (st_rx s) < fuel2)%nat ->
    Scanner.query_idn_loop fuel1 chunks s = Scanner.query_idn_loop fuel2 chunks s.
Proof.
  induction fuel1 as [|f1 IH]; intros fuel2 chunks s H1 H2; [lia|].
  destruct fuel2 as [|f2]; [lia|].
  cbn [Scanner.query_idn_loop].
  destruct (st_rx s) as [|[c|e] r] eqn:Erx; cbn [sock_recv]; try reflexivity.
  cbn [rx_size List.length] in H1, H2.
  destruct (Nat.leb_spec (List.length c) 4096) as [Hle|Hgt].
  - destruct (bytes_eqb c []); [reflexivity|].
    destruct (Scanner.has_newline c); [reflexivity|].
    apply IH; cbn [st_rx set_rx]; lia.
  - destruct (bytes_eqb (firstn 4096 c) []); [reflexivity|].
    destruct (Scanner.has_newline (firstn 4096 c)); [reflexivity|].
    apply IH; cbn [st_rx set_rx rx_size List.length]; rewrite length_skipn; lia.
Qed.

(* ================================================================== *)
(** ** The scanner's table rows: [_row] *)

Lemma substring_skip (a b : string) (n m : nat) :
  substring (String.length a + n) m (a ++ b) = substring n m b.
Proof.
  induction a as [|x a IH]; cbn [append String.length Nat.add substring];
    [reflexivity | exact IH].
Qed.

Lemma substring_all (a : string) : substring 0 (String.length a) a = a.
Proof.
  induction a as [|x a IH]; cbn [String.length substring];
    [reflexivity | now rewrite IH].
Qed.

Lemma substring_length (s : string) :
  forall n m, (n + m <= String.length s)%nat ->
    String.length (substring n m s) = m.
Proof.
  induction s as [|x s IH]; intros n m Hle; cbn [String.length] in Hle.
  - assert (n = 0%nat) by lia. assert (m = 0%nat) by lia. subst. reflexivity.
  - destruct n as [|n]; cbn [substring].
    + destruct m as [|m]; [reflexivity|].
      cbn [String.length]. f_equal. apply IH. lia.
    + apply IH. lia.
Qed.

Lemma spaces_length (n : nat) : String.length (spaces n) = n.
Proof.
  unfold spaces.
  induction n as [|n IH]; cbn [repeat string_of_list_ascii String.length];
    [reflexivity | now rewrite IH].
Qed.

(** One cell of a row: the value padded with spaces up to the width, or cut
    down to it. *)
Lemma row_cell (v : string) (w : Z) :
  0 <= w ->
  Scanner.str_upto (Scanner.ljust v w) w
  = if Z.of_nat (String.length v) <=? w
    then v ++ spaces (Z.to_nat w - String.length v)
    else substring 0 (Z.to_nat w) v.
Proof.
  intros Hw. unfold Scanner.str_upto, Scanner.ljust. fold (spaces (Z.to_nat (w - Z.of_nat (String.length v)))).
  destruct (Z.leb_spec (Z.of_nat (String.length v)) w) as [Hle|Hgt].
  - replace (Z.to_nat (w - Z.of_nat (String.length v)))
      with (Z.to_nat w - String.length v)%nat by lia.
    set (cell := v ++ spaces (Z.to_nat w - String.length v)).
    assert (Hlen : String.length cell = Z.to_nat w).
    { unfold cell. rewrite length_append, spaces_length. lia. }
    unfold py_slice_index.
    destruct (Z.ltb_spec w 0) as [Hneg|_]; [lia|].
    rewrite Hlen.
    replace (Z.to_nat (Z.min w (Z.of_nat (Z.to_nat w)))) with (String.length cell)
      by lia.
    apply substring_all.
  - replace (Z.to_nat (w - Z.of_nat (String.length v))) with 0%nat by lia.
    change (spaces 0) with "". rewrite append_nil_r.
    unfold py_slice_index.
    destruct (Z.ltb_spec w 0) as [Hneg|_]; [lia|].
    replace (Z.min w (Z.of_nat (String.length v))) with w by lia.
    reflexivity.
Qed.

Lemma row_cell_length (v : string) (w : Z) :
  0 <= w ->
  String.length (Scanner.str_upto (Scanner.ljust v w) w) = Z.to_nat w.
Proof.
  intros Hw. rewrite (row_cell v w Hw).
  destruct (Z.leb_spec (Z.of_nat (String.length v)) w) as [Hle|Hgt].
  - rewrite length_append, spaces_length. lia.
  - apply substring_length. lia.
Qed.

Lemma row_cons (v : string) (w : Z) (values : list string) (widths : list Z) :
  Scanner._row (v :: values) (w :: widths)
  = match combine values widths with
    | [] => Scanner.str_upto (Scanner.ljust v w) w
    | _ :: _ =>
        Scanner.str_upto (Scanner.ljust v w) w ++ "  " ++ Scanner._row values widths
    end.
Proof.
  unfold Scanner._row. cbn [combine map String.concat fst snd].
  destruct (combine values widths) as [|vw rest]; reflexivity.
Qed.

(** X18: in a row built by [_row] with non-negative widths, column [i]
    starts behind the widths of the columns before it and their two-space
    separators, and holds exactly [widths[i]] characters: the value padded
    with spaces on the right when it is shorter, its first [widths[i]]
    characters when it is longer.  So rows built with the same widths line
    up whatever the values are. *)
Theorem row_columns_line_up (values : list string) (widths : list Z)
    (i : nat) (v : string) (wd : Z) :
  Forall (fun w => 0 <= w) widths ->
  nth_error values i = Some v ->
  nth_error widths i = Some wd ->
  let cell := substring (column_start widths i) (Z.to_nat wd)
                (Scanner._row values widths) in
  String.length cell = Z.to_nat wd
  /\ cell = (if Z.of_nat (String.length v) <=? wd
             then v ++ spaces (Z.to_nat wd - String.length v)
             else substring 0 (Z.to_nat wd) v).
Proof.
  intros Hpos Hv Hw.
  assert (Hcell : substring (column_start widths i) (Z.to_nat wd)
                    (Scanner._row values widths)
                  = Scanner.str_upto (Scanner.ljust v wd) wd).
  { revert widths i Hpos Hv Hw.
    induction values as [|v0 values IH]; intros widths i Hpos Hv Hw.
    - destruct i; discriminate Hv.
    - destruct widths as [|w0 widths]; [destruct i; discriminate Hw|].
      inversion Hpos as [|? ? Hw0 Hrest]; subst.
      rewrite row_cons.
      destruct i as [|i].
      + cbn [nth_error] in Hv, Hw. injection Hv as ->. injection Hw as ->.
        cbn [column_start].
        rewrite <- (row_cell_length v wd Hw0) at 1.
        destruct (combine values widths).
        * apply substring_all.
        * apply substring_append_head.
      + cbn [nth_error] in Hv, Hw. cbn [column_start].
        destruct (combine values widths) as [|vw rest] eqn:Ecomb.
        * exfalso. destruct values; [destruct i; discriminate Hv|].
          destruct widths; [destruct i; discriminate Hw|]. discriminate Ecomb.
        * rewrite <- (row_cell_length v0 w0 Hw0) at 1.
          rewrite <- Nat.add_assoc, substring_skip.
          change (2 + column_start widths i)%nat
            with (String.length "  " + column_start widths i)%nat.
          rewrite substring_skip.
          apply IH; assumption. }
  assert (Hwd : 0 <= wd).
  { rewrite Forall_forall in Hpos. apply Hpos. eapply nth_error_In. exact Hw. }
  cbv zeta. rewrite Hcell. split.
  - apply row_cell_length. exact Hwd.
  - apply row_cell. exact Hwd.
Qed.

Lemma row_columns_line_up_witness :
  String.length
    (substring 11 17
       (Scanner._row ["ETHERNET"; "192.168.1.100"; "5025"] Scanner.COL_W))
  = 17%nat
  /\ substring 11 17
       (Scanner._row ["ETHERNET"; "192.168.1.100"; "5025"] Scanner.COL_W)
     = "192.168.1.100    ".
Proof.
  refine (row_columns_line_up ["ETHERNET"; "192.168.1.100"; "5025"] Scanner.COL_W
            1 "192.168.1.100" 17 _ eq_refl eq_refl).
  unfold Scanner.COL_W. repeat constructor; discriminate.
Defined.

(* ================================================================== *)
(** ** The reachability test: [check_tcp_reachable] *)

(** X19: [check_tcp_reachable] tries the ports 1861, 5025 and 80 in this
    order and stops at the first that accepts the connection: every port
    tried before it raised an [OSError], it then closes that socket and
    returns [True], and no later port is tried.  It returns [False] exactly
    after all three attempts raised an [OSError], with nothing to close.
    An exception that is no [OSError] ends it at once and is raised to the
    caller. *)
Theorem check_tcp_reachable_first_open (w : world) (ip : string) (timeout : Z)
    (s : state) :
  let c := fun p => EvConnect ip p timeout in
  exists tried before port,
    tried = List.app before [port]
    /\ (tried = [1861] \/ tried = [1861; 5025] \/ tried = [1861; 5025; 80])
    /\ (forall k p, nth_error before k = Some p ->
          exists e,
            w_conn w (List.app (st_log s) (map c (firstn k before))) (c p) = Raise e
            /\ is_OSError e = true)
    /\ match check_tcp_reachable w ip timeout s with
       | (Ok true, s') =>
           st_log s' = List.app (st_log s) (List.app (map c tried) [EvSockClose])
           /\ exists rxs,
                w_conn w (List.app (st_log s) (map c before)) (c port) = Ok rxs
       | (Ok false, s') =>
           tried = [1861; 5025; 80]
           /\ st_log s' = List.app (st_log s) (map c tried)
           /\ exists e,
                w_conn w (List.app (st_log s) (map c before)) (c port) = Raise e
                /\ is_OSError e = true
       | (Raise e, s') =>
           st_log s' = List.app (st_log s) (map c tried)
           /\ w_conn w (List.app (st_log s) (map c before)) (c port) = Raise e
           /\ is_OSError e = false
       end.
Proof.
  cbv zeta.
  assert (Hbefore0 : forall k p, nth_error (@nil Z) k = Some p ->
            exists e,
              w_conn w (List.app (st_log s)
                          (map (fun p => EvConnect ip p timeout) (firstn k [])))
                (EvConnect ip p timeout) = Raise e
              /\ is_OSError e = true).
  { intros [|k] p Hk; discriminate Hk. }
  unfold check_tcp_reachable, check_ports, try_except_only, bind, create_connection,
    sock_close, note, ret.
  unfold add_log, set_rx; cbn [st_log st_seq st_rx].
  destruct (w_conn w (st_log s) (EvConnect ip 1861 timeout)) as [rx1|e1] eqn:E1.
  { exists [1861], [], 1861. cbn [List.app map st_log st_seq st_rx].
    rewrite app_nil_r, E1, <- app_assoc.
    split; [reflexivity|]. split; [now left|]. split; [exact Hbefore0|].
    split; [reflexivity | now exists rx1]. }
  destruct (is_OSError e1) eqn:O1.
  2:{ exists [1861], [], 1861. cbn [List.app map st_log st_seq st_rx].
      rewrite app_nil_r.
      split; [reflexivity|]. split; [now left|]. split; [exact Hbefore0|].
      split; [reflexivity|]. split; [exact E1 | exact O1]. }
  assert (Hbefore1 : forall k p, nth_error [1861] k = Some p ->
            exists e,
              w_conn w (List.app (st_log s)
                          (map (fun p => EvConnect ip p timeout) (firstn k [1861])))
                (EvConnect ip p timeout) = Raise e
              /\ is_OSError e = true).
  { intros [|[|k]] p Hk; try discriminate Hk.
    cbn [nth_error] in Hk. injection Hk as <-.
    cbn [firstn map]. rewrite app_nil_r. exists e1. now split. }
  cbn [st_log st_seq st_rx].
  destruct (w_conn w (List.app (st_log s) [EvConnect ip 1861 timeout])
              (EvConnect ip 5025 timeout)) as [rx2|e2] eqn:E2.
  { exists [1861; 5025], [1861], 5025. cbn [List.app map st_log st_seq st_rx].
    rewrite E2, <- !app_assoc.
    split; [reflexivity|]. split; [right; now left|]. split; [exact Hbefore1|].
    split; [reflexivity | now exists rx2]. }
  destruct (is_OSError e2) eqn:O2.
  2:{ exists [1861; 5025], [1861], 5025. cbn [List.app map st_log st_seq st_rx].
      rewrite <- !app_assoc.
      split; [reflexivity|]. split; [right; now left|]. split; [exact Hbefore1|].
      split; [reflexivity|]. split; [exact E2 | exact O2]. }
  assert (Hbefore2 : forall k p, nth_error [1861; 5025] k = Some p ->
            exists e,
              w_conn w (List.app (st_log s)
                          (map (fun p => EvConnect ip p timeout)
                             (firstn k [1861; 5025])))
                (EvConnect ip p timeout) = Raise e
              /\ is_OSError e = true).
  { intros [|[|[|k]]] p Hk; try discriminate Hk;
      cbn [nth_error] in Hk; injection Hk as <-; cbn [firstn map].
    - rewrite app_nil_r. exists e1. now split.
    - exists e2. now split. }
  cbn [st_log st_seq st_rx]. rewrite <- !app_assoc. cbn [List.app].
  destruct (w_conn w (List.app (st_log s)
                        [EvConnect ip 1861 timeout; EvConnect ip 5025 timeout])
              (EvConnect ip 80 timeout)) as [rx3|e3] eqn:E3.
  { exists [1861; 5025; 80], [1861; 5025], 80.
    cbn [List.app map st_log st_seq st_rx].
    rewrite E3, <- !app_assoc.
    split; [reflexivity|]. split; [right; now right|]. split; [exact Hbefore2|].
    split; [reflexivity | now exists rx3]. }
  exists [1861; 5025; 80], [1861; 5025], 80.
  cbn [List.app map st_log st_seq st_rx].
  split; [reflexivity|]. split; [right; now right|]. split; [exact Hbefore2|].
  destruct (is_OSError e3) eqn:O3.
  - split; [reflexivity|]. rewrite <- ?app_assoc. split; [reflexivity|].
    exists e3. now split.
  - rewrite <- ?app_assoc. split; [reflexivity|]. split; [exact E3 | exact O3].
Qed.
